(** * ZiVPN Telegram bot: conversational state machine, session registry and
      broadcast fan-out

    Shallow embedding of the three variants of the bot kept in the repository:
    - [part_001]: the complete program (all handlers, backup/restore,
      validation helpers);
    - [zivpn-bot.go]: a revision that redefines the event handlers, the
      broadcast fan-out and the session bookkeeping, every other function
      being the one of the complete program;
    - [part_000]: a further revision of the messaging features.

    Go maps are [gmap]s, [int]/[int64] values are [Z], strings are byte
    strings.  The Telegram transport, the provisioning API, the file system,
    the clock and Go's unspecified map iteration order are an explicit
    environment ([Env]) whose answers the handlers consume; every outbound call
    is recorded as an [Event].  [log.Printf] and [time.Sleep] touch neither the
    program state nor the messages sent and are left out. *)

From stdpp Require Import gmap strings list fin_maps.
From Stdlib Require Import ZArith Ascii String Lia.

Local Open Scope string_scope.
Local Open Scope list_scope.
Local Open Scope Z_scope.

(** ** Go library functions used by the bot *)

Module Go.

(** [int] on the 64-bit targets the bot is built for. *)
Definition MaxInt : Z := 2 ^ 63 - 1.
Definition MinInt : Z := - 2 ^ 63.

(** Two's-complement wrap-around of [int] arithmetic. *)
Definition wrap (z : Z) : Z := (z + 2 ^ 63) mod 2 ^ 64 - 2 ^ 63.

Definition add (a b : Z) : Z := wrap (a + b).
Definition sub (a b : Z) : Z := wrap (a - b).
Definition mul (a b : Z) : Z := wrap (a * b).
(** Integer division truncates toward zero. *)
Definition div (a b : Z) : Z := wrap (Z.quot a b).

(** [len(s)]: the number of bytes. *)
Definition len (s : string) : Z := Z.of_nat (String.length s).

Definition bytes (s : string) : list ascii := list_ascii_of_string s.

(** [strings.HasPrefix(s, p)] *)
Definition HasPrefix (s p : string) : bool := String.prefix p s.

(** [strings.TrimPrefix(s, p)] *)
Definition TrimPrefix (s p : string) : string :=
  if HasPrefix s p
  then substring (String.length p) (String.length s - String.length p) s
  else s.

(** [strings.Split(s, sep)] for a one-byte separator: the pieces between the
    separators, always at least one piece. *)
Fixpoint Split (s : string) (sep : ascii) : list string :=
  match s with
  | EmptyString => [EmptyString]
  | String c rest =>
      if Ascii.eqb c sep then EmptyString :: Split rest sep
      else match Split rest sep with
           | piece :: pieces => String c piece :: pieces
           | [] => [String c EmptyString]
           end
  end.

(** [strings.Title] on ASCII text: a lower-case letter that begins a word is
    capitalised; letters, digits and the underscore continue a word. *)
Definition isSeparator (c : ascii) : bool :=
  let n := nat_of_ascii c in
  negb ((48 <=? n) && (n <=? 57) || (97 <=? n) && (n <=? 122) ||
        (65 <=? n) && (n <=? 90) || (n =? 95) || (128 <=? n))%nat.

Definition upperByte (c : ascii) : ascii :=
  let n := nat_of_ascii c in
  if ((97 <=? n) && (n <=? 122))%nat then ascii_of_nat (n - 32) else c.

Fixpoint titleFrom (prev : ascii) (s : string) : string :=
  match s with
  | EmptyString => EmptyString
  | String c rest =>
      String (if isSeparator prev then upperByte c else c) (titleFrom c rest)
  end.

Definition Title (s : string) : string := titleFrom " " s.

(** [strings.Contains(s, sub)] *)
Fixpoint Contains (s sub : string) : bool :=
  String.prefix sub s ||
  match s with
  | EmptyString => false
  | String _ rest => Contains rest sub
  end.

(** [strings.ToLower] on the bytes it can change into an ASCII letter.  Go's
    function is Unicode aware, but the only runes it maps to one of the
    letters of the cancel keywords are the ASCII capitals, so comparisons of
    the lowered text with those keywords agree with this byte-wise version. *)
Definition lowerByte (c : ascii) : ascii :=
  let n := nat_of_ascii c in
  if ((65 <=? n) && (n <=? 90))%nat then ascii_of_nat (n + 32) else c.

Fixpoint ToLower (s : string) : string :=
  match s with
  | EmptyString => EmptyString
  | String c rest => String (lowerByte c) (ToLower rest)
  end.

(** The UTF-8 encodings of the runes for which [unicode.IsSpace] holds. *)
Definition spaceRunes : list (list nat) :=
  [ [9]; [10]; [11]; [12]; [13]; [32];
    [194; 133]; [194; 160]; [225; 154; 128];
    [226; 128; 128]; [226; 128; 129]; [226; 128; 130]; [226; 128; 131];
    [226; 128; 132]; [226; 128; 133]; [226; 128; 134]; [226; 128; 135];
    [226; 128; 136]; [226; 128; 137]; [226; 128; 138];
    [226; 128; 168]; [226; 128; 169]; [226; 128; 175];
    [226; 129; 159]; [227; 128; 128] ]%nat.

Fixpoint stripRune (r : list nat) (l : list ascii) : option (list ascii) :=
  match r, l with
  | [], _ => Some l
  | b :: r', c :: l' =>
      if (nat_of_ascii c =? b)%nat then stripRune r' l' else None
  | _ :: _, [] => None
  end.

Fixpoint stripSpace (rs : list (list nat)) (l : list ascii)
  : option (list ascii) :=
  match rs with
  | [] => None
  | r :: rs' =>
      match stripRune r l with
      | Some l' => Some l'
      | None => stripSpace rs' l
      end
  end.

(** Drop leading white space; the fuel is the number of bytes. *)
Fixpoint trimLeft (fuel : nat) (l : list ascii) : list ascii :=
  match fuel with
  | O => l
  | S fuel' =>
      match stripSpace spaceRunes l with
      | Some l' => trimLeft fuel' l'
      | None => l
      end
  end.

(** Trailing white space is leading white space of the reversed bytes, each
    rune's encoding being read backwards. *)
Fixpoint trimRight (fuel : nat) (l : list ascii) : list ascii :=
  match fuel with
  | O => l
  | S fuel' =>
      match stripSpace (map (@rev nat) spaceRunes) l with
      | Some l' => trimRight fuel' l'
      | None => l
      end
  end.

(** [strings.TrimSpace] *)
Definition TrimSpace (s : string) : string :=
  let l := trimLeft (String.length s) (bytes s) in
  string_of_list_ascii (rev (trimRight (List.length l) (rev l))).

Definition isDigit (c : ascii) : bool :=
  let n := nat_of_ascii c in ((48 <=? n) && (n <=? 57))%nat.

Fixpoint digitsValue (acc : Z) (l : list ascii) : Z :=
  match l with
  | [] => acc
  | c :: l' => digitsValue (10 * acc + (Z.of_nat (nat_of_ascii c) - 48)) l'
  end.

(** [strconv.Atoi]: the value and whether the error is nil.  A syntax error
    yields 0; a value out of the range of [int] yields the nearest bound
    together with the error. *)
Definition Atoi (s : string) : Z * bool :=
  let l := bytes s in
  let '(neg, ds) :=
    match l with
    | c :: l' =>
        if Ascii.eqb c "-" then (true, l')
        else if Ascii.eqb c "+" then (false, l')
        else (false, l)
    | [] => (false, l)
    end in
  match ds with
  | [] => (0, false)
  | _ :: _ =>
      if forallb isDigit ds then
        let v := digitsValue 0 ds in
        let v := if neg then - v else v in
        if v <? MinInt then (MinInt, false)
        else if MaxInt <? v then (MaxInt, false)
        else (v, true)
      else (0, false)
  end.

(** [s[lo:hi]] on a string; [None] is the run-time panic of an out-of-range
    slice expression. *)
Definition sliceStr (s : string) (lo hi : Z) : option string :=
  if (0 <=? lo) && (lo <=? hi) && (hi <=? len s)
  then Some (substring (Z.to_nat lo) (Z.to_nat (hi - lo)) s)
  else None.

(** [l[lo:hi]] on a slice whose capacity is its length. *)
Definition slice {A} (l : list A) (lo hi : Z) : option (list A) :=
  if (0 <=? lo) && (lo <=? hi) && (hi <=? Z.of_nat (List.length l))
  then Some (take (Z.to_nat (hi - lo)) (drop (Z.to_nat lo) l))
  else None.

(** The byte class of the regular expression [^[a-zA-Z0-9_-]+$]. *)
Definition isNameByte (c : ascii) : bool :=
  let n := nat_of_ascii c in
  ((97 <=? n) && (n <=? 122) || (65 <=? n) && (n <=? 90) ||
   (48 <=? n) && (n <=? 57) || (n =? 95) || (n =? 45))%nat.

(** [regexp.MustCompile(`^[a-zA-Z0-9_-]+$`).MatchString(s)]: outside
    multi-line mode [$] is the end of the text. *)
Definition matchName (s : string) : bool :=
  match bytes s with
  | [] => false
  | l => forallb isNameByte l
  end.

(** The cleaned components of a slash-separated path: empty and [.] elements
    vanish, [..] removes the element before it. *)
Fixpoint cleanParts (rooted : bool) (stack : list string) (parts : list string)
  : list string :=
  match parts with
  | [] => rev stack
  | p :: parts' =>
      if String.eqb p "" || String.eqb p "." then cleanParts rooted stack parts'
      else if String.eqb p ".." then
        match stack with
        | top :: below =>
            if String.eqb top ".." then cleanParts rooted (p :: stack) parts'
            else cleanParts rooted below parts'
        | [] =>
            if rooted then cleanParts rooted [] parts'
            else cleanParts rooted [p] parts'
        end
      else cleanParts rooted (p :: stack) parts'
  end.

Fixpoint joinWith (sep : string) (l : list string) : string :=
  match l with
  | [] => ""
  | [x] => x
  | x :: l' => x +:+ sep +:+ joinWith sep l'
  end.

(** [filepath.Clean] on a Unix path. *)
Definition Clean (p : string) : string :=
  if String.eqb p "" then "."
  else
    let rooted := HasPrefix p "/" in
    let body := joinWith "/" (cleanParts rooted [] (Split p "/")) in
    if rooted then "/" +:+ body
    else if String.eqb body "" then "." else body.

(** [filepath.Base]: the last element of the path. *)
Definition Base (p : string) : string :=
  match rev (filter (fun x => x ≠ "") (Split p "/")) with
  | x :: _ => x
  | [] => if String.eqb p "" then "." else "/"
  end.

(** [filepath.Join(dir, name)]: the non-empty elements joined by a slash and
    cleaned. *)
Definition Join (dir name : string) : string :=
  match String.eqb dir "", String.eqb name "" with
  | true, true => ""
  | true, false => Clean name
  | false, true => Clean dir
  | false, false => Clean (dir +:+ "/" +:+ name)
  end.

End Go.

(** ** Data of the bot *)

(** A decoded JSON value ([interface{}] as produced by [encoding/json]). *)
#[warnings="-register-all"]
Inductive Json :=
| JNull
| JBool (b : bool)
| JNum (z : Z)
| JStr (s : string)
| JArr (items : list Json)
| JObj (fields : list (string * Json)).

(** [m[key]] on a decoded JSON object; a missing key is the nil interface. *)
Fixpoint field (key : string) (fields : list (string * Json)) : option Json :=
  match fields with
  | [] => None
  | (k, j) :: rest => if String.eqb k key then Some j else field key rest
  end.

(** An operand of [fmt.Sprintf]. *)
Inductive Arg :=
| AStr (s : string)
| AInt (z : Z)
| AAny (j : option Json).

(** Message texts are kept symbolic: a literal, a [fmt.Sprintf] with its
    format and operands, or a concatenation.  Format strings are the ones of
    the source, escape sequences unexpanded. *)
Inductive Text :=
| Lit (s : string)
| Sprintf (format : string) (args : list Arg)
| Cat (a b : Text).

Record Button := { Label : Text; CallbackData : Text }.

Definition NewInlineKeyboardButtonData (label data : Text) : Button :=
  {| Label := label; CallbackData := data |}.

Definition Keyboard := list (list Button).

Record MessageConfig := {
  ChatID : Z;
  MsgText : Text;
  ParseMode : string;
  ReplyMarkup : option Keyboard
}.

Definition NewMessage (chatID : Z) (text : Text) : MessageConfig :=
  {| ChatID := chatID; MsgText := text; ParseMode := ""; ReplyMarkup := None |}.

Definition withParseMode (mode : string) (m : MessageConfig) : MessageConfig :=
  {| ChatID := ChatID m; MsgText := MsgText m; ParseMode := mode;
     ReplyMarkup := ReplyMarkup m |}.

Definition withReplyMarkup (k : Keyboard) (m : MessageConfig) : MessageConfig :=
  {| ChatID := ChatID m; MsgText := MsgText m; ParseMode := ParseMode m;
     ReplyMarkup := Some k |}.

Definition Markdown (chatID : Z) (text : Text) : MessageConfig :=
  withParseMode "Markdown" (NewMessage chatID text).

(** What [bot.Send] is given. *)
Inductive Chattable :=
| Message (m : MessageConfig)
| Document (chatID : Z) (path : Text) (caption : Text).

(** What [bot.Request] is given. *)
Inductive RequestConfig :=
| Callback (queryID : string) (text : string)
| DeleteMessage (chatID : Z) (messageID : Z).

Record BotConfig := {
  BotToken : string;
  AdminID : Z;
  Mode : string;
  Domain : string
}.

Record IpInfo := { City : string; Isp : string; Query : string }.

Record UserData := {
  Password : string;
  Expired : string;
  Status : string;
  IpLimit : Z
}.

(** [Joined] is the clock reading that the source formats as a date. *)
Record ChatSession := {
  UserID : Z;
  SessionChatID : Z;
  Username : string;
  Joined : Z
}.

(** An entry of a zip archive: its name and what [f.Open()] yields. *)
Record ZipFile := { Name : string; Open : option string }.

(** The stages of fetching the uploaded archive in [processRestoreFile]. *)
Inductive Download :=
| GetFileError
| HttpGetError
| ReadAllError
| ZipReaderError
| Archive (files : list ZipFile).

(** The inbound text message: chat, sender, text, attached document and, as
    [msg.IsCommand()] and [msg.Command()] compute them from the entities,
    the command it carries. *)
Record TgMessage := {
  MChatID : Z;
  MFromID : Z;
  MFromUserName : string;
  MText : string;
  MDocument : option string;
  MCommand : option string
}.

(** The inbound button click. *)
Record CallbackQuery := {
  QID : string;
  QFromID : Z;
  QFromUserName : string;
  QChatID : Z;
  QData : string
}.

(** Every call that leaves the process, with the answer it got. *)
Inductive Event :=
| EvSend (c : Chattable) (result : option Z)
| EvRequest (r : RequestConfig)
| EvApiCall (method endpoint : string) (payload : list (string * Arg))
| EvSaveChats (sessions : list ChatSession)
| EvSaveConfig (config : BotConfig)
| EvCreate (path : string) (ok : bool)
| EvCopy (path : string) (content : string)
| EvWriteFile (path : Text) (content : list (string * string)) (ok : bool)
| EvRemove (path : Text)
| EvExec (command : list string)
| EvGo (command : list string).

(** ** The environment *)

(** The collaborators outside the process.  [World] is their state; each call
    consumes it and yields the answer.
    - [bot_Send]: the identifier of the message sent, or [None] for an error;
    - [apiCall]: the transport error, or the decoded envelope;
    - [getIpInfo]: the zero [IpInfo] when the lookup fails (every caller drops
      the error);
    - [rangeOrder]: the order in which a [range] over a map with the given
      keys produces them, by its law some arrangement of exactly these keys;
    - [unmarshalUsers]: what [json.Unmarshal] of the re-marshalled value
      leaves in a [[]UserData], and whether its error is nil. *)
Class Env := {
  World : Type;
  bot_Send : Chattable -> World -> option Z * World;
  bot_Request : RequestConfig -> World -> World;
  bot_GetMe : World -> option string * World;
  bot_Self : string * string;
  apiCall : string -> string -> list (string * Arg) -> World ->
            (string + list (string * Json)) * World;
  getIpInfo : World -> IpInfo * World;
  testLocalAPI : World -> option string * World;
  time_Now : World -> Z * World;
  rangeOrder : list Z -> World -> list Z * World;
  rangeOrder_perm : forall keys w, (rangeOrder keys w).1 ≡ₚ keys;
  unmarshalUsers : option Json -> list UserData * bool;
  download : string -> string -> World -> Download * World;
  os_Create : string -> World -> bool * World;
  io_Copy : string -> string -> World -> World;
  readFile : string -> World -> option string * World;
  ioutil_WriteFile : Text -> World -> bool * World;
  os_Remove : Text -> World -> World;
  exec_Run : list string -> World -> World
}.

(** The three variants of the program. *)
Inductive Variant := Part001 | ZivpnBot | Part000.

#[global] Instance Variant_eq_dec : EqDecision Variant.
Proof. solve_decision. Defined.

Section Bot.
Context {E : Env}.

(** ** Global state *)

Record St := {
  userStates : gmap Z string;
  tempUserData : gmap Z (gmap string string);
  lastMessageIDs : gmap Z Z;
  activeChats : gmap Z ChatSession;
  lastSaveTime : Z;
  config : BotConfig;
  world : World
}.

Definition set_userStates (f : gmap Z string -> gmap Z string) (s : St) : St :=
  {| userStates := f (userStates s); tempUserData := tempUserData s;
     lastMessageIDs := lastMessageIDs s; activeChats := activeChats s;
     lastSaveTime := lastSaveTime s; config := config s; world := world s |}.

Definition set_tempUserData
  (f : gmap Z (gmap string string) -> gmap Z (gmap string string)) (s : St) : St :=
  {| userStates := userStates s; tempUserData := f (tempUserData s);
     lastMessageIDs := lastMessageIDs s; activeChats := activeChats s;
     lastSaveTime := lastSaveTime s; config := config s; world := world s |}.

Definition set_lastMessageIDs (f : gmap Z Z -> gmap Z Z) (s : St) : St :=
  {| userStates := userStates s; tempUserData := tempUserData s;
     lastMessageIDs := f (lastMessageIDs s); activeChats := activeChats s;
     lastSaveTime := lastSaveTime s; config := config s; world := world s |}.

Definition set_activeChats
  (f : gmap Z ChatSession -> gmap Z ChatSession) (s : St) : St :=
  {| userStates := userStates s; tempUserData := tempUserData s;
     lastMessageIDs := lastMessageIDs s; activeChats := f (activeChats s);
     lastSaveTime := lastSaveTime s; config := config s; world := world s |}.

Definition set_lastSaveTime (t : Z) (s : St) : St :=
  {| userStates := userStates s; tempUserData := tempUserData s;
     lastMessageIDs := lastMessageIDs s; activeChats := activeChats s;
     lastSaveTime := t; config := config s; world := world s |}.

Definition set_config (f : BotConfig -> BotConfig) (s : St) : St :=
  {| userStates := userStates s; tempUserData := tempUserData s;
     lastMessageIDs := lastMessageIDs s; activeChats := activeChats s;
     lastSaveTime := lastSaveTime s; config := f (config s); world := world s |}.

Definition set_world (w : World) (s : St) : St :=
  {| userStates := userStates s; tempUserData := tempUserData s;
     lastMessageIDs := lastMessageIDs s; activeChats := activeChats s;
     lastSaveTime := lastSaveTime s; config := config s; world := w |}.

(** ** Handlers as state transformers

    A handler maps the state to the events it caused, the state it left and
    its value; the value [None] is a run-time panic, which keeps the events and
    state reached so far. *)

Record Out (A : Type) := mkOut {
  trace : list Event;
  post : St;
  value : option A
}.
Arguments mkOut {A}.
Arguments trace {A}.
Arguments post {A}.
Arguments value {A}.

Definition M (A : Type) : Type := St -> Out A.

Definition ret {A} (a : A) : M A := fun s => mkOut [] s (Some a).

Definition bind {A B} (m : M A) (k : A -> M B) : M B :=
  fun s =>
    let o := m s in
    match value o with
    | None => mkOut (trace o) (post o) None
    | Some a =>
        let o' := k a (post o) in
        mkOut (trace o ++ trace o') (post o') (value o')
    end.

Definition panic {A} : M A := fun s => mkOut [] s None.

Definition get : M St := fun s => mkOut [] s (Some s).

Definition modify (f : St -> St) : M unit := fun s => mkOut [] (f s) (Some tt).

Definition emit (e : Event) : M unit := fun s => mkOut [e] s (Some tt).

(** A call with an answer: the world moves on and the event is recorded. *)
Definition ask {A} (f : World -> A * World) (ev : A -> Event) : M A :=
  fun s =>
    let r := f (world s) in
    mkOut [ev r.1] (set_world r.2 s) (Some r.1).

(** A call whose answer the program drops. *)
Definition tell (f : World -> World) (ev : Event) : M unit :=
  fun s => mkOut [ev] (set_world (f (world s)) s) (Some tt).

(** A call that is not recorded (a query of the clock or the like). *)
Definition peek {A} (f : World -> A * World) : M A :=
  fun s =>
    let r := f (world s) in
    mkOut [] (set_world r.2 s) (Some r.1).

End Bot.

Arguments mkOut {E A}.
Arguments trace {E A}.
Arguments post {E A}.
Arguments value {E A}.

Notation "x <- m ;; k" := (bind m (fun x => k))
  (at level 100, m at next level, right associativity, only parsing).
Notation "m ;;; k" := (bind m (fun _ => k))
  (at level 100, right associativity, only parsing).

(** ** The program *)

Section Program.
Context {E : Env} (v : Variant).

Definition chatsFile : Text := Lit "/etc/zivpn/chats.json".
Definition BotConfigFile : Text := Lit "/etc/zivpn/bot-config.json".

Definition Send (c : Chattable) : M (option Z) := ask (bot_Send c) (EvSend c).

Definition Request (r : RequestConfig) : M unit := tell (bot_Request r) (EvRequest r).

(** [if cond { body }] *)
Definition when (cond : bool) (body : M unit) : M unit :=
  if cond then body else ret tt.

(** [for _, x := range l { body }] over a slice. *)
Fixpoint forEach {A} (l : list A) (body : A -> M unit) : M unit :=
  match l with
  | [] => ret tt
  | x :: rest => body x ;;; forEach rest body
  end.

Definition min (a b : Z) : Z := if a <? b then a else b.

(** [truncateString] for a limit that is not negative, as at its call sites
    (100 and 200); the slice [s[:maxLen]] of the code panics on a negative
    one. *)
Definition truncateString (s : string) (maxLen : Z) : string :=
  if Go.len s <=? maxLen then s
  else substring 0 (Z.to_nat maxLen) s +:+ "...".

Definition isAllowed (config : BotConfig) (userID : Z) : bool :=
  String.eqb (Mode config) "public" || (userID =? AdminID config).

Definition resetState (userID : Z) : M unit :=
  modify (set_userStates (delete userID)) ;;;
  modify (set_tempUserData (delete userID)).

Definition deleteLastMessage (chatID : Z) : M unit :=
  s <- get ;;
  match lastMessageIDs s !! chatID with
  | Some msgID =>
      Request (DeleteMessage chatID msgID) ;;;
      modify (set_lastMessageIDs (delete chatID))
  | None => ret tt
  end.

Definition sendAndTrack (msg : MessageConfig) : M unit :=
  deleteLastMessage (ChatID msg) ;;;
  sent <- Send (Message msg) ;;
  match sent with
  | Some messageID => modify (set_lastMessageIDs <[ChatID msg := messageID]>)
  | None => ret tt
  end.

Definition cancelKeyboard : Keyboard :=
  [[NewInlineKeyboardButtonData (Lit "❌ Batal") (Lit "cancel")]].

(** The cancel button is attached when [userStates] has an entry under the
    chat identifier. *)
Definition sendMessage (chatID : Z) (text : Text) : M unit :=
  s <- get ;;
  let msg := NewMessage chatID text in
  sendAndTrack
    (if decide (is_Some (userStates s !! chatID))
     then withReplyMarkup cancelKeyboard msg else msg).

Definition replyError (chatID : Z) (text : Text) : M unit :=
  sendMessage chatID (Cat (Lit "❌ ") text).

Definition validateUsername (chatID : Z) (text : string) : M bool :=
  if (Go.len text <? 3) || (20 <? Go.len text) then
    sendMessage chatID (Lit "❌ Password harus 3-20 karakter. Coba lagi:") ;;;
    ret false
  else if negb (Go.matchName text) then
    sendMessage chatID
      (Lit "❌ Password hanya boleh huruf, angka, - dan _. Coba lagi:") ;;;
    ret false
  else ret true.

Definition validateNumber (chatID : Z) (text : string) (lo hi : Z)
  (fieldName : string) : M (Z * bool) :=
  let '(val, ok) := Go.Atoi text in
  if negb ok || (val <? lo) || (hi <? val) then
    sendMessage chatID
      (Sprintf "❌ %s harus angka positif (%d-%d). Coba lagi:"
         [AStr fieldName; AInt lo; AInt hi]) ;;;
    ret (0, false)
  else ret (val, true).

(** [saveChats]: the sessions in map order, written to the chats file; the
    result of the write is dropped. *)
Definition saveChats : M unit :=
  s <- get ;;
  keys <- peek (rangeOrder (map_to_list (activeChats s)).*1) ;;
  let sessions := omap (fun k => activeChats s !! k) keys in
  _ <- ask (ioutil_WriteFile chatsFile) (fun _ => EvSaveChats sessions) ;;
  ret tt.

(** [time.Since(t)] in nanoseconds, saturating like [Time.Sub]. *)
Definition Since (t : Z) : M Z :=
  now <- peek time_Now ;;
  ret (Z.max Go.MinInt (Z.min Go.MaxInt (now - t))).

Definition Second : Z := 1000000000.
Definition Minute : Z := 60 * Second.

(** [part_001] records a user once; the revisions overwrite the session on
    every event and write the file at most every thirty seconds. *)
Definition saveChatSession (userID chatID : Z) (username : string) : M unit :=
  match v with
  | Part001 =>
      s <- get ;;
      match activeChats s !! userID with
      | Some _ => ret tt
      | None =>
          now <- peek time_Now ;;
          modify (set_activeChats
            <[userID := {| UserID := userID; SessionChatID := chatID;
                           Username := ""; Joined := now |}]>) ;;;
          saveChats
      end
  | ZivpnBot | Part000 =>
      now <- peek time_Now ;;
      modify (set_activeChats
        <[userID := {| UserID := userID; SessionChatID := chatID;
                       Username := username; Joined := now |}]>) ;;;
      s <- get ;;
      elapsed <- Since (lastSaveTime s) ;;
      when (30 * Second <? elapsed)
        (saveChats ;;; modify (set_lastSaveTime now))
  end.

Definition ApiCall (method endpoint : string) (payload : list (string * Arg))
  : M (string + list (string * Json)) :=
  ask (apiCall method endpoint payload)
      (fun _ => EvApiCall method endpoint payload).

Definition isTrue (j : option Json) : bool :=
  match j with Some (JBool true) => true | _ => false end.

(** [getUsers]: the error text, or the accounts.  [part_001] drops the
    decoding errors; the revision reports them. *)
Definition getUsers : M (Text + list UserData) :=
  r <- ApiCall "GET" "/users" [] ;;
  match r with
  | inl err =>
      ret (inl (Lit err))
  | inr res =>
      match v with
      | Part001 =>
          if negb (isTrue (field "success" res))
          then ret (inl (Lit "failed to get users"))
          else ret (inr (unmarshalUsers (field "data" res)).1)
      | ZivpnBot | Part000 =>
          if negb (isTrue (field "success" res)) then
            ret (inl (Sprintf "API error: %s"
              [AStr match field "message" res with
                    | Some (JStr m) => m
                    | _ => "unknown error"
                    end]))
          else
            match field "data" res with
            | Some (JArr _) =>
                let '(users, ok) := unmarshalUsers (field "data" res) in
                if ok then ret (inr users)
                else ret (inl (Lit "failed to unmarshal users"))
            | _ => ret (inl (Lit "invalid data format from API"))
            end
      end
  end.

Definition getMainMenuKeyboard (config : BotConfig) (userID : Z) : Keyboard :=
  let rows :=
    [[NewInlineKeyboardButtonData (Lit "👤 Create") (Lit "menu_create");
      NewInlineKeyboardButtonData (Lit "🗑️ Delete") (Lit "menu_delete");
      NewInlineKeyboardButtonData (Lit "🔄 Renew") (Lit "menu_renew")]] in
  if userID =? AdminID config then
    let modeLabel :=
      if String.eqb (Mode config) "public" then "🌍 Public" else "🔐 Private" in
    rows ++
    [[NewInlineKeyboardButtonData (Lit "📋 List") (Lit "menu_list");
      NewInlineKeyboardButtonData (Lit "📊 Info") (Lit "menu_info")];
     [NewInlineKeyboardButtonData (Lit "💾 Backup") (Lit "menu_backup_restore");
      NewInlineKeyboardButtonData (Lit "📨 Message") (Lit "menu_message")];
     [NewInlineKeyboardButtonData (Lit modeLabel) (Lit "toggle_mode")]]
  else rows.

Definition domainOf (config : BotConfig) : string :=
  if String.eqb (Domain config) "" then "Not Configured" else Domain config.

(** The idle main menu. *)
Definition showMainMenu (chatID : Z) : M unit :=
  ipInfo <- peek getIpInfo ;;
  s <- get ;;
  let activeCount := Z.of_nat (size (activeChats s)) in
  let msgText :=
    Sprintf "```\n━━━━━━━━━━━━━━━━━━━━━\n    ZIVPN UDP MENU\n━━━━━━━━━━━━━━━━━━━━━\n • Domain   : %s\n • City     : %s\n • ISP      : %s\n • Users    : %d active\n━━━━━━━━━━━━━━━━━━━━━\n```\n👇 *Silakan pilih menu:*"
      [AStr (domainOf (config s)); AStr (City ipInfo); AStr (Isp ipInfo);
       AInt activeCount] in
  sendAndTrack
    (withReplyMarkup (getMainMenuKeyboard (config s) chatID)
       (Markdown chatID msgText)).

Definition sendWelcomeMessage (chatID : Z) : M unit :=
  ipInfo <- peek getIpInfo ;;
  s <- get ;;
  _ <- Send (Message (Markdown chatID
         (Sprintf "👋 *Selamat Datang di ZiVPN Bot!*\n\n⚡ *ZiVPN UDP Premium*\n🌐 Domain: %s\n📍 City: %s\n📶 ISP: %s\n\nGunakan menu di bawah untuk mengelola VPN:"
            [AStr (Domain (config s)); AStr (City ipInfo); AStr (Isp ipInfo)]))) ;;
  ret tt.

Definition cancelOperation (chatID userID : Z) : M unit :=
  resetState userID ;;;
  showMainMenu chatID.

Definition sendAccountInfo (chatID : Z) (data : list (string * Json)) : M unit :=
  ipInfo <- peek getIpInfo ;;
  s <- get ;;
  let msg :=
    Sprintf "```\n━━━━━━━━━━━━━━━━━━━━━\n  ACCOUNT ZIVPN UDP\n━━━━━━━━━━━━━━━━━━━━━\nPassword   : %s\nCITY       : %s\nISP        : %s\nIP ISP     : %s\nDomain     : %s\nExpired On : %s\n━━━━━━━━━━━━━━━━━━━━━\n```"
      [AAny (field "password" data); AStr (City ipInfo); AStr (Isp ipInfo);
       AStr (Query ipInfo); AStr (domainOf (config s));
       AAny (field "expired" data)] in
  deleteLastMessage chatID ;;;
  _ <- Send (Message (Markdown chatID msg)) ;;
  showMainMenu chatID.

Definition startCreateUser (chatID userID : Z) : M unit :=
  modify (set_userStates <[userID := "create_username"]>) ;;;
  modify (set_tempUserData <[userID := ∅]>) ;;;
  sendMessage chatID (Lit "👤 Masukkan Password untuk user baru:").

Definition startRenewUser (chatID userID : Z) (data : string) : M unit :=
  let username := Go.TrimPrefix data "select_renew:" in
  modify (set_tempUserData <[userID := {["username" := username]}]>) ;;;
  modify (set_userStates <[userID := "renew_days"]>) ;;;
  sendMessage chatID
    (Sprintf "🔄 Renewing %s\n⏳ Masukkan Tambahan Durasi (hari):" [AStr username]).

(** The common shape of [createUser] and [renewUser]: a transport error is
    reported; a success envelope must carry an object (the type assertion
    panics otherwise); a business failure is reported and the menu shown. *)
Definition accountCall (endpoint : string) (chatID : Z) (username : string)
  (days : Z) : M unit :=
  r <- ApiCall "POST" endpoint [("password", AStr username); ("days", AInt days)] ;;
  match r with
  | inl err => replyError chatID (Cat (Lit "Error API: ") (Lit err))
  | inr res =>
      if isTrue (field "success" res) then
        match field "data" res with
        | Some (JObj data) => sendAccountInfo chatID data
        | _ => panic
        end
      else
        replyError chatID (Sprintf "Gagal: %s" [AAny (field "message" res)]) ;;;
        showMainMenu chatID
  end.

Definition createUser : Z -> string -> Z -> M unit := accountCall "/user/create".

Definition renewUser : Z -> string -> Z -> M unit := accountCall "/user/renew".

Definition deleteUser (chatID : Z) (username : string) : M unit :=
  r <- ApiCall "POST" "/user/delete" [("password", AStr username)] ;;
  match r with
  | inl err => replyError chatID (Cat (Lit "Error API: ") (Lit err))
  | inr res =>
      if isTrue (field "success" res) then
        deleteLastMessage chatID ;;;
        _ <- Send (Message (NewMessage chatID (Lit "✅ Password berhasil dihapus."))) ;;
        showMainMenu chatID
      else
        replyError chatID (Sprintf "Gagal: %s" [AAny (field "message" res)]) ;;;
        showMainMenu chatID
  end.

(** The lines of [listUsers]; [None] when an element is not an object (the
    type assertion panics). *)
Fixpoint listLines (msg : Text) (users : list Json) : option Text :=
  match users with
  | [] => Some msg
  | JObj user :: rest =>
      let status :=
        match field "status" user with
        | Some (JStr "Expired") => "🔴"
        | _ => "🟢"
        end in
      listLines
        (Cat msg (Sprintf "\n%s `%s` (%s)"
           [AStr status; AAny (field "password" user);
            AAny (field "expired" user)]))
        rest
  | _ :: _ => None
  end.

Definition listUsers (chatID : Z) : M unit :=
  r <- ApiCall "GET" "/users" [] ;;
  match r with
  | inl err => replyError chatID (Cat (Lit "Error API: ") (Lit err))
  | inr res =>
      if isTrue (field "success" res) then
        match field "data" res with
        | Some (JArr users) =>
            match users with
            | [] => sendMessage chatID (Lit "📂 Tidak ada user.")
            | _ :: _ =>
                match listLines (Lit "📋 *List Passwords*\n") users with
                | Some msg => sendAndTrack (Markdown chatID msg)
                | None => panic
                end
            end
        | _ => panic
        end
      else replyError chatID (Lit "Gagal mengambil data.")
  end.

(** The page arithmetic of the two selection pagers, on Go's [int]: the page
    clamped into [1, totalPages] and the bounds of the slice shown.  The
    result is (page, totalPages, start, end). *)
Definition pageWindow (perPage n page : Z) : Z * Z * Z * Z :=
  let totalPages := Go.div (Go.sub (Go.add n perPage) 1) perPage in
  let page := if page <? 1 then 1 else page in
  let page := if totalPages <? page then totalPages else page in
  let start := Go.mul (Go.sub page 1) perPage in
  let end_ := Go.add start perPage in
  let end_ := if n <? end_ then n else end_ in
  (page, totalPages, start, end_).

(** The label prefix [fmt.Sprintf("🔴 %s", label)] or
    [fmt.Sprintf("🟢 %s", label)] puts before a label. *)
Definition statusDot (u : UserData) : Text :=
  if String.eqb (Status u) "Expired" then Lit "🔴 " else Lit "🟢 ".

(** Pager of the accounts for the delete and renew actions, ten per page. *)
Definition showUserSelection (chatID page : Z) (action : string) : M unit :=
  r <- getUsers ;;
  match r with
  | inl _ => replyError chatID (Lit "Gagal mengambil data user.")
  | inr users =>
      let n := Z.of_nat (List.length users) in
      if n =? 0 then sendMessage chatID (Lit "📂 Tidak ada user.")
      else
        let '(page, totalPages, start, end_) := pageWindow 10 n page in
        match Go.slice users start end_ with
        | None => panic
        | Some shown =>
            let rows :=
              map (fun u =>
                [NewInlineKeyboardButtonData
                   (Cat (statusDot u)
                        (Sprintf "%s (%s)" [AStr (Password u); AStr (Status u)]))
                   (Sprintf "select_%s:%s" [AStr action; AStr (Password u)])])
                shown in
            let navRow :=
              (if 1 <? page
               then [NewInlineKeyboardButtonData (Lit "⬅️ Prev")
                       (Sprintf "page_%s:%d" [AStr action; AInt (page - 1)])]
               else []) ++
              (if page <? totalPages
               then [NewInlineKeyboardButtonData (Lit "Next ➡️")
                       (Sprintf "page_%s:%d" [AStr action; AInt (page + 1)])]
               else []) in
            let rows := match navRow with [] => rows | _ => rows ++ [navRow] end in
            let rows :=
              rows ++ [[NewInlineKeyboardButtonData (Lit "❌ Batal") (Lit "cancel")]] in
            sendAndTrack
              (withReplyMarkup rows
                 (NewMessage chatID
                    (Sprintf "📋 Pilih User untuk %s (Halaman %d/%d):"
                       [AStr (Go.Title action); AInt page; AInt totalPages])))
        end
  end.

(** Pager of the accounts for a private message, eight per page. *)
Definition showUserSelectionForMessage (chatID page : Z) : M unit :=
  r <- getUsers ;;
  match r with
  | inl err =>
      match v with
      | Part000 => replyError chatID (Cat (Lit "Gagal mengambil data user: ") err)
      | _ => replyError chatID (Lit "Gagal mengambil data user.")
      end
  | inr users =>
      let n := Z.of_nat (List.length users) in
      if n =? 0 then sendMessage chatID (Lit "📂 Tidak ada user.")
      else
        s <- get ;;
        let activeCount := Z.of_nat (size (activeChats s)) in
        let '(page, totalPages, start, end_) := pageWindow 8 n page in
        match Go.slice users start end_ with
        | None => panic
        | Some shown =>
            let rows :=
              map (fun u =>
                [NewInlineKeyboardButtonData
                   (Cat (statusDot u) (Sprintf "%s" [AStr (Password u)]))
                   (Sprintf "select_user_msg:%s" [AStr (Password u)])])
                shown in
            let navRow :=
              (if 1 <? page
               then [NewInlineKeyboardButtonData (Lit "⬅️ Prev")
                       (Sprintf "page_msg:%d" [AInt (page - 1)])]
               else []) ++
              [NewInlineKeyboardButtonData (Lit "🏠 Menu") (Lit "cancel")] ++
              (if page <? totalPages
               then [NewInlineKeyboardButtonData (Lit "Next ➡️")
                       (Sprintf "page_msg:%d" [AInt (page + 1)])]
               else []) in
            let rows := rows ++ [navRow] in
            let msgText :=
              match v with
              | Part000 =>
                  Sprintf "👥 *Pilih User untuk Private Message*\n\nTotal User: %d\nHalaman: %d/%d\n\nKlik username untuk mengirim pesan:"
                    [AInt n; AInt page; AInt totalPages]
              | _ =>
                  Sprintf "👥 *Pilih User untuk Private Message*\n\nTotal User: %d\nActive Chats: %d\nHalaman: %d/%d\n\nKlik username untuk mengirim pesan:"
                    [AInt n; AInt activeCount; AInt page; AInt totalPages]
              end in
            sendAndTrack (withReplyMarkup rows (Markdown chatID msgText))
        end
  end.

Definition confirmDeleteUser (chatID : Z) (data : string) : M unit :=
  let username := Go.TrimPrefix data "select_delete:" in
  sendAndTrack
    (withReplyMarkup
       [[NewInlineKeyboardButtonData (Lit "✅ Ya, Hapus")
           (Cat (Lit "confirm_delete:") (Lit username));
         NewInlineKeyboardButtonData (Lit "❌ Batal") (Lit "cancel")]]
       (Markdown chatID
          (Sprintf "❓ Yakin ingin menghapus user `%s`?" [AStr username]))).

(** [parts[0][5:]] and [parts[1]] panic when out of range. *)
Definition handlePagination (chatID : Z) (data : string) : M unit :=
  let parts := Go.Split data ":" in
  match parts !! 0%nat with
  | None => panic
  | Some part0 =>
      match Go.sliceStr part0 5 (Go.len part0) with
      | None => panic
      | Some action =>
          match parts !! 1%nat with
          | None => panic
          | Some part1 =>
              let page := (Go.Atoi part1).1 in
              showUserSelection chatID page action
          end
      end
  end.

Definition systemInfo (chatID : Z) : M unit :=
  r <- ApiCall "GET" "/info" [] ;;
  match r with
  | inl err => replyError chatID (Cat (Lit "Error API: ") (Lit err))
  | inr res =>
      if isTrue (field "success" res) then
        match field "data" res with
        | Some (JObj data) =>
            ipInfo <- peek getIpInfo ;;
            r' <- getUsers ;;
            let users := match r' with inr users => users | inl _ => [] end in
            let activeUsers :=
              Z.of_nat (List.length (filter (fun u => Status u ≠ "Expired") users)) in
            s <- get ;;
            let msg :=
              Sprintf "```\n━━━━━━━━━━━━━━━━━━━━━\n    INFO ZIVPN UDP\n━━━━━━━━━━━━━━━━━━━━━\nDomain         : %s\nIP Public      : %s\nPort           : %s\nService        : %s\nCITY           : %s\nISP            : %s\nActive Users   : %d/%d\nActive Chats   : %d\n━━━━━━━━━━━━━━━━━━━━━\n```"
                [AStr (Domain (config s)); AAny (field "public_ip" data);
                 AAny (field "port" data); AAny (field "service" data);
                 AStr (City ipInfo); AStr (Isp ipInfo); AInt activeUsers;
                 AInt (Z.of_nat (List.length users));
                 AInt (Z.of_nat (size (activeChats s)))] in
            deleteLastMessage chatID ;;;
            _ <- Send (Message (Markdown chatID msg)) ;;
            showMainMenu chatID
        | _ => panic
        end
      else replyError chatID (Lit "Gagal mengambil info.")
  end.

(** [saveConfig]: the configuration written to its file, the error dropped. *)
Definition saveConfig : M unit :=
  s <- get ;;
  _ <- ask (ioutil_WriteFile BotConfigFile) (fun _ => EvSaveConfig (config s)) ;;
  ret tt.

Definition withMode (mode : string) (c : BotConfig) : BotConfig :=
  {| BotToken := BotToken c; AdminID := AdminID c; Mode := mode;
     Domain := Domain c |}.

Definition toggleMode (chatID userID : Z) : M unit :=
  s <- get ;;
  if negb (userID =? AdminID (config s)) then ret tt
  else
    modify (set_config
      (withMode (if String.eqb (Mode (config s)) "public"
                 then "private" else "public"))) ;;;
    saveConfig ;;;
    s' <- get ;;
    let modeMsg :=
      if String.eqb (Mode (config s')) "public"
      then "🌍 Mode diubah menjadi *Public*"
      else "🔐 Mode diubah menjadi *Private*" in
    _ <- Send (Message (Markdown chatID (Lit modeMsg))) ;;
    showMainMenu chatID.

(** ** Messaging *)

Definition messageMenuKeyboard : Keyboard :=
  [[NewInlineKeyboardButtonData (Lit "📢 Broadcast to All") (Lit "msg_broadcast");
    NewInlineKeyboardButtonData (Lit "🔒 Private Message") (Lit "msg_private")];
   [NewInlineKeyboardButtonData (Lit "📊 Stats") (Lit "msg_stats")];
   [NewInlineKeyboardButtonData (Lit "❌ Kembali") (Lit "cancel")]].

Definition sendMessageWithKeyboard (chatID : Z) (text : Text) (k : Keyboard)
  : M unit :=
  sendAndTrack (withReplyMarkup k (Markdown chatID text)).

Definition showMessageMenu (chatID : Z) : M unit :=
  match v with
  | Part000 =>
      s <- get ;;
      let activeCount := Z.of_nat (size (activeChats s)) - 1 in
      sendMessageWithKeyboard chatID
        (Sprintf "📨 *Admin Messaging*\n\nActive Users: %d\n\nPilih tipe pesan:"
           [AInt activeCount])
        messageMenuKeyboard
  | _ =>
      sendAndTrack
        (withReplyMarkup messageMenuKeyboard
           (Markdown chatID (Lit "📨 *Admin Messaging*\nPilih tipe pesan:")))
  end.

(** [showMessageStats] exists in the two revisions only. *)
Definition showMessageStats (chatID : Z) : M unit :=
  s <- get ;;
  let totalUsers := Z.of_nat (size (activeChats s)) in
  match v with
  | Part000 =>
      let adminCount :=
        Z.of_nat (size (filter
          (fun kv => Username kv.2 = "admin" \/ UserID kv.2 = 8556981744)
          (activeChats s))) in
      now <- peek time_Now ;;
      sendMessage chatID
        (Sprintf "📊 *Message Statistics*\n\n• Total Active Chats: %d\n• Admin Chats: %d\n• Regular Users: %d\n• Last Update: %s"
           [AInt totalUsers; AInt adminCount; AInt (totalUsers - adminCount);
            AInt now])
  | _ =>
      let regularCount :=
        Z.of_nat (size (filter (fun kv => Username kv.2 = "") (activeChats s))) in
      _ <- Send (Message (Markdown chatID
             (Sprintf "📊 *Message Statistics*\n\n• Total Active Chats: %d\n• Admin Chats: %d\n• Regular Users: %d\n• Last Save: %s"
                [AInt totalUsers; AInt (totalUsers - regularCount);
                 AInt regularCount; AInt (lastSaveTime s)]))) ;;
      ret tt
  end.

Definition startBroadcastMessage (chatID userID : Z) : M unit :=
  modify (set_userStates <[userID := "broadcast_message"]>) ;;;
  match v with
  | Part000 =>
      s <- get ;;
      let activeCount := Z.of_nat (size (activeChats s)) - 1 in
      sendMessage chatID
        (Sprintf "📢 *Broadcast Message*\n\nTarget: %d active users\n\nMasukkan pesan yang ingin dikirim:\n\nFormat bisa menggunakan:\n• Teks biasa\n• *Markdown*\n• <b>HTML</b>\n\nKetik 'cancel' untuk membatalkan"
           [AInt activeCount])
  | _ =>
      sendMessage chatID
        (Lit "📢 *Broadcast Message*\n\nMasukkan pesan yang ingin dikirim ke semua user:\n\nAnda bisa menggunakan format:\n• Teks biasa\n• Markdown\n• HTML\n\nKetik /cancel untuk membatalkan")
  end.

Definition startSelectUserForMessage (chatID userID : Z) : M unit :=
  showUserSelectionForMessage chatID 1.

Definition startPrivateMessage (chatID userID : Z) (username : string) : M unit :=
  modify (set_tempUserData <[userID := {["target_user" := username]}]>) ;;;
  modify (set_userStates <[userID := "private_message"]>) ;;;
  match v with
  | Part000 =>
      sendMessage chatID
        (Sprintf "✉️ *Private Message untuk %s*\n\nMasukkan pesan yang ingin dikirim:\n\nKetik 'cancel' untuk membatalkan"
           [AStr username])
  | _ =>
      sendMessage chatID
        (Sprintf "✉️ *Private Message untuk %s*\n\nMasukkan pesan yang ingin dikirim:\n\nFormat:\n• Teks biasa\n• Markdown\n• HTML\n\nKetik /cancel untuk membatalkan"
           [AStr username])
  end.

(** The guard at the head of [sendBroadcastMessage]: whether the text is
    taken as the cancel keyword. *)
Definition isCancel (message : string) : bool :=
  match v with
  | Part001 => String.eqb message "/cancel"
  | ZivpnBot =>
      String.eqb (Go.ToLower message) "/cancel" || String.eqb message "cancel"
  | Part000 => Go.Contains (Go.ToLower message) "cancel"
  end.

(** The text delivered to each recipient. *)
Definition broadcastText (message : string) : Text :=
  match v with
  | Part001 =>
      Cat (Cat (Lit "📢 *BROADCAST MESSAGE*\n\n") (Lit message))
          (Sprintf "\n\n_• Broadcast dari Admin •_" [])
  | ZivpnBot =>
      Cat (Cat (Lit "📢 *BROADCAST MESSAGE FROM ADMIN*\n\n") (Lit message))
          (Lit "\n\n_• Broadcast dari Admin •_")
  | Part000 =>
      Cat (Cat (Lit "📢 *BROADCAST MESSAGE*\n\n") (Lit message))
          (Lit "\n\n_• Broadcast dari Admin •_")
  end.

(** The counters of the fan-out: [totalSent], [totalFailed] and, in
    [zivpn-bot.go], [failedUsers]. *)
Record Tally := { totalSent : Z; totalFailed : Z; failedUsers : list string }.

(** One iteration of the fan-out loop.  The administrator's own session is
    skipped; a failed send is counted, and [part_001] then deletes the
    recipient from [activeChats]. *)
Definition broadcastStep (message : string) (t : Tally) (userID : Z)
  (session : ChatSession) : M Tally :=
  s <- get ;;
  if userID =? AdminID (config s) then ret t
  else
    sent <- Send (Message (Markdown (SessionChatID session) (broadcastText message))) ;;
    match sent with
    | None =>
        let t' :=
          {| totalSent := totalSent t; totalFailed := totalFailed t + 1;
             failedUsers :=
               match v with
               | ZivpnBot => failedUsers t ++ [Username session]
               | _ => failedUsers t
               end |} in
        match v with
        | Part001 => modify (set_activeChats (delete userID)) ;;; ret t'
        | _ => ret t'
        end
    | Some _ =>
        ret {| totalSent := totalSent t + 1; totalFailed := totalFailed t;
               failedUsers := failedUsers t |}
    end.

(** The loop [for userID, session := range activeChats] with its counters:
    the keys come in the order the run time picks, and an entry deleted
    before it is reached is not produced. *)
Fixpoint broadcastLoop (message : string) (keys : list Z) (t : Tally) : M Tally :=
  match keys with
  | [] => ret t
  | userID :: rest =>
      s <- get ;;
      t' <- match activeChats s !! userID with
            | Some session => broadcastStep message t userID session
            | None => ret t
            end ;;
      broadcastLoop message rest t'
  end.

Definition broadcastFanOut (message : string) : M Tally :=
  s <- get ;;
  keys <- peek (rangeOrder (map_to_list (activeChats s)).*1) ;;
  broadcastLoop message keys
    {| totalSent := 0; totalFailed := 0; failedUsers := [] |}.

(** The report sent to the initiator; its operands are the success count,
    the failure count and [len(activeChats)-1]. *)
Definition broadcastReport (t : Tally) (s : St) : Text :=
  let total := Z.of_nat (size (activeChats s)) - 1 in
  match v with
  | Part001 =>
      Sprintf "✅ *Broadcast Selesai!*\n\n📊 Statistik:\n• Berhasil: %d user\n• Gagal: %d user\n• Total: %d user\n\nPesan telah dikirim ke semua user aktif."
        [AInt (totalSent t); AInt (totalFailed t); AInt total]
  | ZivpnBot =>
      let report :=
        Sprintf "✅ *Broadcast Selesai!*\n\n📊 Statistik:\n• Berhasil: %d user\n• Gagal: %d user\n• Total Active: %d user"
          [AInt (totalSent t); AInt (totalFailed t); AInt total] in
      if 0 <? totalFailed t then
        Cat report
          (Sprintf "\n\n❌ Gagal dikirim ke: %s"
             [AStr (Go.joinWith ", "
                (take (Z.to_nat (min 5 (Z.of_nat (List.length (failedUsers t)))))
                      (failedUsers t)))])
      else report
  | Part000 =>
      Sprintf "✅ *Broadcast Selesai!*\n\n📊 Statistik:\n• Berhasil: %d user\n• Gagal: %d user\n• Total: %d user aktif"
        [AInt (totalSent t); AInt (totalFailed t); AInt total]
  end.

Definition sendBroadcastMessage (chatID : Z) (message : string) : M unit :=
  s <- get ;;
  if isCancel message then cancelOperation chatID (AdminID (config s))
  else
    let shown :=
      match v with
      | Part001 => substring 0 (Z.to_nat (min 50 (Go.len message))) message
      | _ => truncateString message 100
      end in
    _ <- Send (Message (Markdown chatID
           (Sprintf "📤 *Mengirim Broadcast...*\n\nPesan: %s\n\n⏳ Mohon tunggu..."
              [AStr shown]))) ;;
    t <- broadcastFanOut message ;;
    match v with
    | Part001 => saveChats
    | ZivpnBot =>
        s' <- get ;;
        elapsed <- Since (lastSaveTime s') ;;
        when (Minute <? elapsed) saveChats
    | Part000 => ret tt
    end ;;;
    s'' <- get ;;
    _ <- Send (Message (Markdown chatID (broadcastReport t s''))) ;;
    showMainMenu chatID.

(** The loop of [sendPrivateMessageToUser] in [part_001]: the sessions are
    tried in map order until one send succeeds. *)
Fixpoint privateLoop (msg : Z -> MessageConfig) (keys : list Z) : M bool :=
  match keys with
  | [] => ret false
  | userID :: rest =>
      s <- get ;;
      match activeChats s !! userID with
      | None => privateLoop msg rest
      | Some session =>
          sent <- Send (Message (msg (SessionChatID session))) ;;
          match sent with
          | Some _ => ret true
          | None => privateLoop msg rest
          end
      end
  end.

Definition findUser (username : string) (users : list UserData) : option UserData :=
  List.find (fun u => String.eqb (Password u) username) users.

Definition sendPrivateMessageToUser (chatID : Z) (username message : string)
  : M unit :=
  s <- get ;;
  match v with
  | Part000 =>
      if String.eqb (Go.ToLower message) "cancel"
      then cancelOperation chatID (AdminID (config s))
      else
        sendMessage chatID
          (Sprintf "📤 Mengirim pesan ke %s...\n\nPesan: %s"
             [AStr username; AStr (truncateString message 200)]) ;;;
        r <- getUsers ;;
        match r with
        | inl _ => replyError chatID (Lit "Gagal mengambil data user.")
        | inr users =>
            match findUser username users with
            | None =>
                replyError chatID (Sprintf "User %s tidak ditemukan." [AStr username])
            | Some _ =>
                _ <- Send (Message (Markdown chatID
                       (Sprintf "✅ *Pesan Terkirim!*\n\n📨 Kepada: %s\n📝 Pesan: %s\n\nPesan telah dicatat untuk user tersebut."
                          [AStr username; AStr (truncateString message 100)]))) ;;
                showMainMenu chatID
            end
        end
  | _ =>
      if String.eqb message "/cancel"
      then cancelOperation chatID (AdminID (config s))
      else
        r <- getUsers ;;
        match r with
        | inl _ => replyError chatID (Lit "Gagal mengambil data user.")
        | inr users =>
            match findUser username users with
            | None =>
                replyError chatID (Sprintf "User %s tidak ditemukan." [AStr username])
            | Some targetUser =>
                _ <- Send (Message (NewMessage chatID
                       (Sprintf "📤 Mengirim pesan ke %s..." [AStr username]))) ;;
                s' <- get ;;
                keys <- peek (rangeOrder (map_to_list (activeChats s')).*1) ;;
                messageSent <-
                  privateLoop
                    (fun chat => Markdown chat
                       (Sprintf "✉️ *PRIVATE MESSAGE FROM ADMIN*\n\nPesan: %s\n\n*Untuk:* %s\n*Status:* %s\n*Expired:* %s"
                          [AStr message; AStr username; AStr (Status targetUser);
                           AStr (Expired targetUser)]))
                    keys ;;
                _ <- Send (Message (Markdown chatID
                       (if messageSent : bool
                        then Sprintf "✅ *Pesan Terkirim!*\n\n📨 Kepada: %s\n📊 Status: %s\n⏰ Expired: %s\n\nPesan berhasil dikirim ke user."
                               [AStr username; AStr (Status targetUser);
                                AStr (Expired targetUser)]
                        else Sprintf "❌ *Gagal Mengirim Pesan*\n\nUser %s tidak aktif dalam chat.\n\nPesan hanya bisa dikirim ke user yang pernah memulai chat dengan bot."
                               [AStr username]))) ;;
                showMainMenu chatID
            end
        end
  end.

(** ** Backup and restore *)

Definition showBackupRestoreMenu (chatID : Z) : M unit :=
  sendAndTrack
    (withReplyMarkup
       [[NewInlineKeyboardButtonData (Lit "⬇️ Backup Data") (Lit "menu_backup_action");
         NewInlineKeyboardButtonData (Lit "⬆️ Restore Data") (Lit "menu_restore_action")];
        [NewInlineKeyboardButtonData (Lit "❌ Kembali") (Lit "cancel")]]
       (Markdown chatID (Lit "💾 *Backup & Restore*\nSilakan pilih menu:"))).

Definition backupFiles : list string :=
  ["/etc/zivpn/config.json"; "/etc/zivpn/users.json"; "/etc/zivpn/domain";
   "/etc/zivpn/apikey"; "/etc/zivpn/api_port"].

(** The archive entries of [performBackup]: a file that cannot be read is
    left out. *)
Fixpoint packFiles (files : list string) : M (list (string * string)) :=
  match files with
  | [] => ret []
  | file :: rest =>
      content <- peek (readFile file) ;;
      entries <- packFiles rest ;;
      ret match content with
          | Some c => (Go.Base file, c) :: entries
          | None => entries
          end
  end.

Definition performBackup (chatID : Z) : M unit :=
  sendMessage chatID (Lit "⏳ Sedang membuat backup...") ;;;
  entries <- packFiles backupFiles ;;
  now <- peek time_Now ;;
  let tmpFile := Cat (Lit "/tmp/") (Sprintf "zivpn-backup-%s.zip" [AInt now]) in
  ok <- ask (ioutil_WriteFile tmpFile) (EvWriteFile tmpFile entries) ;;
  if negb ok then replyError chatID (Lit "Gagal membuat file backup.")
  else
    now' <- peek time_Now ;;
    deleteLastMessage chatID ;;;
    _ <- Send (Document chatID tmpFile
           (Cat (Lit "✅ Backup Data ZiVPN - ") (Sprintf "%s" [AInt now']))) ;;
    tell (os_Remove tmpFile) (EvRemove tmpFile).

Definition startRestore (chatID userID : Z) : M unit :=
  modify (set_userStates <[userID := "waiting_restore_file"]>) ;;;
  sendMessage chatID
    (Lit "⬆️ *Restore Data*\n\nSilakan kirim file ZIP backup Anda sekarang.\n\n⚠️ PERINGATAN: Data saat ini akan ditimpa!").

(** The allow-list of [processRestoreFile]. *)
Definition validFiles (name : string) : bool :=
  bool_decide (name ∈ ["config.json"; "users.json"; "bot-config.json";
                       "domain"; "apikey"; "api_port"]).

(** One entry of the archive: skipped unless its name is in the allow-list,
    it opens, and the destination can be created. *)
Definition restoreEntry (f : ZipFile) : M unit :=
  if negb (validFiles (Name f)) then ret tt
  else
    match Open f with
    | None => ret tt
    | Some rc =>
        let dstPath := Go.Join "/etc/zivpn" (Name f) in
        created <- ask (os_Create dstPath) (EvCreate dstPath) ;;
        if created : bool
        then tell (io_Copy dstPath rc) (EvCopy dstPath rc)
        else ret tt
    end.

Definition processRestoreFile (msg : TgMessage) : M unit :=
  let chatID := MChatID msg in
  let userID := MFromID msg in
  resetState userID ;;;
  sendMessage chatID (Lit "⏳ Sedang memproses file...") ;;;
  match MDocument msg with
  | None => panic
  | Some fileID =>
      s <- get ;;
      d <- peek (download fileID (BotToken (config s))) ;;
      match d with
      | GetFileError => replyError chatID (Lit "Gagal mengunduh file.")
      | HttpGetError => replyError chatID (Lit "Gagal mengunduh file content.")
      | ReadAllError => replyError chatID (Lit "Gagal membaca file.")
      | ZipReaderError => replyError chatID (Lit "File bukan format ZIP yang valid.")
      | Archive files =>
          forEach files restoreEntry ;;;
          tell (exec_Run ["systemctl"; "restart"; "zivpn"])
               (EvExec ["systemctl"; "restart"; "zivpn"]) ;;;
          tell (exec_Run ["systemctl"; "restart"; "zivpn-api"])
               (EvExec ["systemctl"; "restart"; "zivpn-api"]) ;;;
          _ <- Send (Message (NewMessage chatID
                 (Lit "✅ Restore Berhasil!\nService ZiVPN, API, dan Bot telah direstart."))) ;;
          emit (EvGo ["systemctl"; "restart"; "zivpn-bot"]) ;;;
          showMainMenu chatID
      end
  end.

(** ** Status and help (the revisions) *)

Definition checkStatus (chatID : Z) : M unit :=
  api <- peek testLocalAPI ;;
  me <- peek bot_GetMe ;;
  s <- get ;;
  let status (r : option string) : Text :=
    match r with
    | None => Lit "✅"
    | Some err => Cat (Lit "❌ ") (Lit err)
    end in
  _ <- Send (Message (Markdown chatID
         (Cat (Sprintf "🔄 *System Status*\n\n• Bot: %s (@%s)\n"
                 [AStr bot_Self.1; AStr bot_Self.2])
          (Cat (Cat (Lit "• Local API: ") (status api))
          (Cat (Cat (Lit "\n• Telegram API: ") (status me))
               (Sprintf "\n• Active Chats: %d\n• Mode: %s"
                  [AInt (Z.of_nat (size (activeChats s)));
                   AStr (Mode (config s))])))))) ;;
  ret tt.

Definition sendHelpMessage (chatID userID : Z) : M unit :=
  s <- get ;;
  let helpMsg :=
    Lit "🆘 *Bantuan ZiVPN Bot*\n\n*Perintah yang tersedia:*\n/start - Tampilkan menu utama\n/status - Cek status sistem\n/help - Tampilkan bantuan ini\n\n" in
  let helpMsg :=
    if userID =? AdminID (config s) then
      Cat helpMsg
        (Lit "*Perintah Admin:*\n/broadcast - Kirim pesan broadcast\n/message - Kirim pesan private\n📨 Message - Menu messaging di keyboard\n\n*Fitur Admin:*\n• Broadcast ke semua user\n• Private message ke user tertentu\n• Backup & restore data\n• Toggle mode public/private")
    else helpMsg in
  _ <- Send (Message (Markdown chatID helpMsg)) ;;
  ret tt.

(** ** Event handlers *)

(** One step of the flow in progress.  The text is trimmed first.  Writing
    the name into a missing scratch mapping is a write to a nil map, which
    panics. *)
Definition handleState (msg : TgMessage) (state : string) : M unit :=
  let userID := MFromID msg in
  let text := Go.TrimSpace (MText msg) in
  let chatID := MChatID msg in
  let scratch (s : St) (key : string) : string :=
    default "" (tempUserData s !! userID ≫= fun temp => temp !! key) in
  if String.eqb state "create_username" then
    ok <- validateUsername chatID text ;;
    if negb ok then ret tt
    else
      s <- get ;;
      match tempUserData s !! userID with
      | None => panic
      | Some temp =>
          modify (set_tempUserData <[userID := <["username" := text]> temp]>) ;;;
          modify (set_userStates <[userID := "create_days"]>) ;;;
          sendMessage chatID (Lit "⏳ Masukkan Durasi (hari):")
      end
  else if String.eqb state "create_days" then
    r <- validateNumber chatID text 1 9999 "Durasi" ;;
    if negb r.2 then ret tt
    else
      s <- get ;;
      createUser chatID (scratch s "username") r.1 ;;;
      resetState userID
  else if String.eqb state "renew_days" then
    r <- validateNumber chatID text 1 9999 "Durasi" ;;
    if negb r.2 then ret tt
    else
      s <- get ;;
      renewUser chatID (scratch s "username") r.1 ;;;
      resetState userID
  else if String.eqb state "broadcast_message" then
    sendBroadcastMessage chatID text ;;;
    resetState userID
  else if String.eqb state "private_message" then
    s <- get ;;
    match tempUserData s !! userID with
    | Some temp =>
        sendPrivateMessageToUser chatID (default "" (temp !! "target_user")) text ;;;
        resetState userID
    | None => ret tt
    end
  else ret tt.

(** The [switch msg.Command()] of [handleMessage]. *)
Definition handleCommand (chatID userID : Z) (command : string) : M unit :=
  s <- get ;;
  let isAdmin := userID =? AdminID (config s) in
  if String.eqb command "start" then
    sendWelcomeMessage chatID ;;;
    showMainMenu chatID
  else if String.eqb command "broadcast" then
    when isAdmin (startBroadcastMessage chatID userID)
  else if String.eqb command "message" then
    when isAdmin
      match v with
      | Part000 => showMessageMenu chatID
      | _ => startSelectUserForMessage chatID userID
      end
  else if bool_decide (v ≠ Part001) && String.eqb command "status" then
    checkStatus chatID
  else if bool_decide (v = Part000) && String.eqb command "help" then
    sendHelpMessage chatID userID
  else replyError chatID (Lit "Perintah tidak dikenal.").

(** An inbound message.  After the session is saved: access control, the
    restore upload, the flow in progress, commands; the revisions end by
    showing the menu, [part_001] ends without a reply. *)
Definition handleMessage (msg : TgMessage) : M unit :=
  let chatID := MChatID msg in
  let userID := MFromID msg in
  saveChatSession userID chatID (MFromUserName msg) ;;;
  s <- get ;;
  if negb (isAllowed (config s) userID) then
    replyError chatID (Lit "⛔ Akses Ditolak. Bot ini Private.")
  else if bool_decide (is_Some (MDocument msg)) && (userID =? AdminID (config s))
          && bool_decide (userStates s !! userID = Some "waiting_restore_file")
  then processRestoreFile msg
  else
    match userStates s !! userID with
    | Some state => handleState msg state
    | None =>
        match MCommand msg with
        | Some command => handleCommand chatID userID command
        | None =>
            match v with
            | Part001 => ret tt
            | _ => showMainMenu chatID
            end
        end
    end.

(** The cases of the [switch] of [handleCallback], in source order. *)
Inductive Case :=
| menu_create | menu_delete | menu_renew | menu_list | menu_info
| menu_backup_restore | menu_message | menu_backup_action
| menu_restore_action | msg_broadcast | msg_private | msg_stats
| page_ | page_msg | select_renew | select_delete | select_user_msg
| confirm_delete | toggle_mode | cancel | no_case.

(** The first case whose condition holds. *)
Definition switchCase (data : string) : Case :=
  if String.eqb data "menu_create" then menu_create
  else if String.eqb data "menu_delete" then menu_delete
  else if String.eqb data "menu_renew" then menu_renew
  else if String.eqb data "menu_list" then menu_list
  else if String.eqb data "menu_info" then menu_info
  else if String.eqb data "menu_backup_restore" then menu_backup_restore
  else if String.eqb data "menu_message" then menu_message
  else if String.eqb data "menu_backup_action" then menu_backup_action
  else if String.eqb data "menu_restore_action" then menu_restore_action
  else if String.eqb data "msg_broadcast" then msg_broadcast
  else if String.eqb data "msg_private" then msg_private
  else if bool_decide (v ≠ Part001) && String.eqb data "msg_stats" then msg_stats
  else if Go.HasPrefix data "page_" then page_
  else if Go.HasPrefix data "page_msg:" then page_msg
  else if Go.HasPrefix data "select_renew:" then select_renew
  else if Go.HasPrefix data "select_delete:" then select_delete
  else if Go.HasPrefix data "select_user_msg:" then select_user_msg
  else if Go.HasPrefix data "confirm_delete:" then confirm_delete
  else if String.eqb data "toggle_mode" then toggle_mode
  else if String.eqb data "cancel" then cancel
  else no_case.

(** The body of a case.  Without a matching case [part_001] does nothing;
    the revisions have a [default] that answers the query with a notice. *)
Definition caseBody (c : Case) (query : CallbackQuery) : M unit :=
  let userID := QFromID query in
  let chatID := QChatID query in
  let data := QData query in
  s <- get ;;
  let isAdmin := userID =? AdminID (config s) in
  match c with
  | menu_create => startCreateUser chatID userID
  | menu_delete => showUserSelection chatID 1 "delete"
  | menu_renew => showUserSelection chatID 1 "renew"
  | menu_list => when isAdmin (listUsers chatID)
  | menu_info => when isAdmin (systemInfo chatID)
  | menu_backup_restore => when isAdmin (showBackupRestoreMenu chatID)
  | menu_message => when isAdmin (showMessageMenu chatID)
  | menu_backup_action => when isAdmin (performBackup chatID)
  | menu_restore_action => when isAdmin (startRestore chatID userID)
  | msg_broadcast => when isAdmin (startBroadcastMessage chatID userID)
  | msg_private => when isAdmin (startSelectUserForMessage chatID userID)
  | msg_stats => when isAdmin (showMessageStats chatID)
  | page_ => handlePagination chatID data
  | page_msg =>
      let pageStr := Go.TrimPrefix data "page_msg:" in
      showUserSelectionForMessage chatID (Go.Atoi pageStr).1
  | select_renew => startRenewUser chatID userID data
  | select_delete => confirmDeleteUser chatID data
  | select_user_msg =>
      startPrivateMessage chatID userID (Go.TrimPrefix data "select_user_msg:")
  | confirm_delete => deleteUser chatID (Go.TrimPrefix data "confirm_delete:")
  | toggle_mode => toggleMode chatID userID
  | cancel => cancelOperation chatID userID
  | no_case =>
      match v with
      | Part001 => ret tt
      | _ => Request (Callback (QID query) "Aksi tidak dikenal")
      end
  end.

(** Whether the access control of [handleCallback] turns the click away:
    the user is not allowed, and the click is not the administrator's mode
    toggle. *)
Definition denied (config : BotConfig) (query : CallbackQuery) : bool :=
  negb (isAllowed config (QFromID query)) &&
  (negb (String.eqb (QData query) "toggle_mode") ||
   negb (QFromID query =? AdminID config)).

(** A button click.  [part_001] checks access before it saves the session;
    the revisions save the session first. *)
Definition handleCallback (query : CallbackQuery) : M unit :=
  let userID := QFromID query in
  let chatID := QChatID query in
  let dispatch :=
    caseBody (switchCase (QData query)) query ;;;
    Request (Callback (QID query) "") in
  match v with
  | Part001 =>
      s <- get ;;
      if denied (config s) query
      then Request (Callback (QID query) "Akses Ditolak")
      else
        saveChatSession userID chatID (QFromUserName query) ;;;
        dispatch
  | _ =>
      saveChatSession userID chatID (QFromUserName query) ;;;
      s <- get ;;
      if denied (config s) query
      then Request (Callback (QID query) "Akses Ditolak")
      else dispatch
  end.

End Program.

(** ** Observations on a trace *)

(** A delivery of the fan-out: a send whose text has the shape of
    [broadcastText].  Yields the chat, the payload and the result. *)
Definition delivery (e : Event) : option (Z * string * option Z) :=
  match e with
  | EvSend (Message m) r =>
      match MsgText m with
      | Cat (Cat (Lit _) (Lit payload)) _ => Some (ChatID m, payload, r)
      | _ => None
      end
  | _ => None
  end.

Definition deliveries (t : list Event) : list (Z * string * option Z) :=
  omap delivery t.

(** The operands of a broadcast report: success and failure count. *)
Definition reportOf (text : Text) : option (Z * Z) :=
  match text with
  | Sprintf f [AInt sent; AInt failed; AInt _]
  | Cat (Sprintf f [AInt sent; AInt failed; AInt _]) _ =>
      if Go.HasPrefix f "✅ *Broadcast Selesai!*" then Some (sent, failed) else None
  | _ => None
  end.

Definition report (e : Event) : option (Z * Z) :=
  match e with
  | EvSend (Message m) _ => reportOf (MsgText m)
  | _ => None
  end.

Definition reports (t : list Event) : list (Z * Z) := omap report t.

(** The acknowledgments of button clicks. *)
Definition ack (e : Event) : option (string * string) :=
  match e with
  | EvRequest (Callback queryID text) => Some (queryID, text)
  | _ => None
  end.

Definition acks (t : list Event) : list (string * string) := omap ack t.

(** The path an event creates or writes. *)
Definition written (e : Event) : option Text :=
  match e with
  | EvCreate path _ | EvCopy path _ => Some (Lit path)
  | EvWriteFile path _ _ => Some path
  | EvSaveChats _ => Some chatsFile
  | EvSaveConfig _ => Some BotConfigFile
  | _ => None
  end.

(** ** Vocabulary of the properties *)

Section Vocabulary.
Context {E : Env}.

(** [m] keeps the state property [P] and causes only events that satisfy
    [Q], whether it returns or panics. *)
Definition sat {A} (P : St -> Prop) (Q : Event -> Prop) (m : M A) : Prop :=
  forall s, P s -> P (post (m s)) /\ Forall Q (trace (m s)).

(** [m] returns from every state. *)
Definition total {A} (m : M A) : Prop := forall s, is_Some (value (m s)).

(** [s] differs from [s0] at most in the world and in the last message
    identifiers. *)
Definition frame (s0 s : St) : Prop :=
  userStates s = userStates s0 /\ tempUserData s = tempUserData s0 /\
  activeChats s = activeChats s0 /\ config s = config s0 /\
  lastSaveTime s = lastSaveTime s0.

(** An event that is neither a delivery nor a report of the fan-out, nor an
    acknowledgment of a click. *)
Definition quiet (e : Event) : Prop :=
  delivery e = None /\ report e = None /\ ack e = None.

(** A handler that returns, leaves the state framed and is quiet. *)
Definition calm {A} (m : M A) : Prop :=
  total m /\ forall s0, sat (frame s0) quiet m.

Definition anyEvent (e : Event) : Prop := True.

(** [s] has the conversation state, scratch data and configuration of
    [s0]. *)
Definition sameFlow (s0 s : St) : Prop :=
  userStates s = userStates s0 /\ tempUserData s = tempUserData s0 /\
  config s = config s0.

(** A delivery attempt: the recipient, the session it was recorded with and
    the result of the send ([None] is an error). *)
Record Attempt := { recipient : Z; session : ChatSession; result : option Z }.

Definition countFailed (l : list Attempt) : Z :=
  Z.of_nat (List.length (filter (fun a => result a = None) l)).

Definition countSent (l : list Attempt) : Z :=
  Z.of_nat (List.length (filter (fun a => result a <> None) l)).

(** The recipients whose delivery failed. *)
Definition failedRecipients (l : list Attempt) : list Z :=
  map recipient (filter (fun a => result a = None) l).

Definition deliveryEvent (v : Variant) (message : string) (a : Attempt) : Event :=
  EvSend (Message (Markdown (SessionChatID (session a)) (broadcastText v message)))
         (result a).

(** What the loop leaves of the registry: [part_001] has deleted the
    recipients whose delivery failed, the revisions have deleted nothing. *)
Definition registryAfter (v : Variant) (reg : gmap Z ChatSession) (l : list Attempt) (k : Z)
  : option ChatSession :=
  if decide (v = Part001 /\ k ∈ failedRecipients l) then None else reg !! k.

(** Every path the event creates or writes is a file of the allow-list,
    directly in the configuration directory. *)
Definition inConfigDir (e : Event) : Prop :=
  forall p, written e = Some p ->
    exists name, validFiles name = true /\ p = Lit ("/etc/zivpn/" +:+ name).

(** The prompts of [validateUsername]. *)
Definition namePrompts : list Text :=
  [Lit "❌ Password harus 3-20 karakter. Coba lagi:";
   Lit "❌ Password hanya boleh huruf, angka, - dan _. Coba lagi:"].

(** An event that reaches the given chat only: a send to it, or the
    deletion of a message in it. *)
Definition onlyChat (chatID : Z) (e : Event) : Prop :=
  match e with
  | EvSend (Message m) _ => ChatID m = chatID
  | EvSend (Document c _ _) _ => c = chatID
  | EvRequest (DeleteMessage c _) => c = chatID
  | _ => False
  end.

(** The user has a session in the registry. *)
Definition registered (userID : Z) (s : St) : Prop :=
  is_Some (activeChats s !! userID).

Definition noAck (e : Event) : Prop := ack e = None.

Definition isSave (e : Event) : Prop :=
  match e with EvSaveChats _ => True | _ => False end.

End Vocabulary.

(** ** A concrete environment

    The world is the list of outcomes of the sends to come ([false] is an
    error; past the end every send succeeds); the API knows one account;
    maps are ranged over in the order of [map_to_list]; the archive fetched
    for a restore holds an allowed entry, a path that climbs out of the
    directory and an unrelated file. *)

Definition demoUsers : list UserData :=
  [ {| Password := "alice"; Expired := "2030-01-01"; Status := "Active";
       IpLimit := 1 |} ].

Definition demoArchive : list ZipFile :=
  [ {| Name := "config.json"; Open := Some "{}" |};
    {| Name := "../../etc/passwd"; Open := Some "root::0:0" |};
    {| Name := "notes.txt"; Open := Some "hello" |} ].

#[local] Instance demoEnv : Env := {|
  World := list bool;
  bot_Send := fun _ w =>
    match w with
    | [] => (Some 7, [])
    | ok :: w' => (if ok then Some 7 else None, w')
    end;
  bot_Request := fun _ w => w;
  bot_GetMe := fun w => (None, w);
  bot_Self := ("ZiVPN", "zivpn_bot");
  apiCall := fun _ _ _ w =>
    (inr [("success", JBool true); ("data", JArr [JObj [("password", JStr "alice")]])], w);
  getIpInfo := fun w => ({| City := ""; Isp := ""; Query := "" |}, w);
  testLocalAPI := fun w => (None, w);
  time_Now := fun w => (0, w);
  rangeOrder := fun keys w => (keys, w);
  rangeOrder_perm := fun keys _ => Permutation_refl keys;
  unmarshalUsers := fun _ => (demoUsers, true);
  download := fun _ _ w => (Archive demoArchive, w);
  os_Create := fun _ w => (true, w);
  io_Copy := fun _ _ w => w;
  readFile := fun _ w => (None, w);
  ioutil_WriteFile := fun _ w => (true, w);
  os_Remove := fun _ w => w;
  exec_Run := fun _ w => w
|}.

Definition demoConfig (mode : string) : BotConfig :=
  {| BotToken := "token"; AdminID := 1; Mode := mode; Domain := "vpn.example" |}.

Definition demoSession (userID : Z) : ChatSession :=
  {| UserID := userID; SessionChatID := userID; Username := ""; Joined := 0 |}.

(** A state with the given access mode, registry, conversation states and
    send outcomes. *)
Definition demoState (mode : string) (users : list Z)
  (states : list (Z * string)) (outcomes : list bool) : @St demoEnv :=
  {| userStates := list_to_map states;
     tempUserData := ∅;
     lastMessageIDs := ∅;
     activeChats := list_to_map (map (fun u => (u, demoSession u)) users);
     lastSaveTime := 0;
     config := demoConfig mode;
     world := outcomes |}.

Definition textMessage (from : Z) (text : string) : TgMessage :=
  {| MChatID := from; MFromID := from; MFromUserName := ""; MText := text;
     MDocument := None; MCommand := None |}.

Definition click (from : Z) (data : string) : CallbackQuery :=
  {| QID := "q1"; QFromID := from; QFromUserName := ""; QChatID := from;
     QData := data |}.

Definition uploadMessage (from : Z) (fileID : string) : TgMessage :=
  {| MChatID := from; MFromID := from; MFromUserName := ""; MText := "";
     MDocument := Some fileID; MCommand := None |}.

(** ** Start-up and the update loop *)

(** What [bot.GetUpdatesChan] delivers: at most one of the two is set in the
    updates the bot acts on. *)
Record Update := {
  UMessage : option TgMessage;
  UCallbackQuery : option CallbackQuery
}.

Section Startup.
Context {E : Env} (v : Variant).

(** The loop of [loadChats] over the decoded sessions: each is stored under
    its own user identifier. *)
Definition loadSessions (sessions : list ChatSession) : M unit :=
  forEach sessions (fun session =>
    modify (set_activeChats <[UserID session := session]>)).

(** [loadChats]: nothing is done when the chats file is missing or cannot be
    read ([readFile] answers [None] for either) or when its content does not
    decode ([unmarshal] is [json.Unmarshal] into a [[]ChatSession], [None]
    for an error); the revisions also set [lastSaveTime]. *)
Definition loadChats (unmarshal : string -> option (list ChatSession)) : M unit :=
  data <- peek (readFile "/etc/zivpn/chats.json") ;;
  match data with
  | None => ret tt
  | Some data =>
      match unmarshal data with
      | None => ret tt
      | Some sessions =>
          loadSessions sessions ;;;
          match v with
          | Part001 => ret tt
          | ZivpnBot | Part000 =>
              now <- peek time_Now ;;
              modify (set_lastSaveTime now)
          end
      end
  end.

(** The body of the main loop of [main]. *)
Definition handleUpdate (update : Update) : M unit :=
  match UMessage update with
  | Some msg => handleMessage v msg
  | None =>
      match UCallbackQuery update with
      | Some query => handleCallback v query
      | None => ret tt
      end
  end.

(** The main loop of [main] over the updates received; a handler that
    panics ends it. *)
Definition mainLoop (updates : list Update) : M unit :=
  forEach updates handleUpdate.

End Startup.

(** ** Vocabulary of the properties of the update loop *)

Section LoopVocabulary.
Context {E : Env}.

(** Who an update is from. *)
Definition sender (update : Update) : option Z :=
  match UMessage update with
  | Some msg => Some (MFromID msg)
  | None => QFromID <$> UCallbackQuery update
  end.

(** What a user who is turned away can cause: the write of the chats file,
    the answer to a click, the deletion of the bot's previous message in the
    chat, and the access-denied notice. *)
Definition lockedOut (e : Event) : Prop :=
  match e with
  | EvSaveChats _ => True
  | EvRequest (Callback _ text) => text = "Akses Ditolak"
  | EvRequest (DeleteMessage _ _) => True
  | EvSend (Message m) _ =>
      MsgText m = Cat (Lit "❌ ") (Lit "⛔ Akses Ditolak. Bot ini Private.")
  | _ => False
  end.

(** Every session of the registry is stored under its own user identifier. *)
Definition keyed (s : St) : Prop :=
  forall k c, activeChats s !! k = Some c -> UserID c = k.

(** The conversation states that only the administrator's actions set. *)
Definition adminOnly (state : string) : Prop :=
  state = "broadcast_message" \/ state = "waiting_restore_file".

(** The administrator is [a], and no other user is in an administrator's
    flow. *)
Definition guarded (a : Z) (s : St) : Prop :=
  AdminID (config s) = a /\
  forall u state, u <> a -> userStates s !! u = Some state -> ~ adminOnly state.

(** An event that is no delivery of a broadcast, no execution of a command,
    no write of a file other than the chats file, and no write of the
    configuration. *)
Definition unprivileged (e : Event) : Prop :=
  delivery e = None /\
  match e with
  | EvExec _ | EvGo _ | EvCreate _ _ | EvCopy _ _ | EvWriteFile _ _ _
  | EvRemove _ | EvSaveConfig _ => False
  | _ => True
  end.

(** The registry after the sessions have been stored, in order, each under
    its own user identifier. *)
Definition stored (m : gmap Z ChatSession) (sessions : list ChatSession)
  : gmap Z ChatSession :=
  foldl (fun m c => <[UserID c := c]> m) m sessions.

(** The configuration is the one given, up to the access mode, which is the
    one given or one of the two the toggle sets. *)
Definition steady (c0 : BotConfig) (s : St) : Prop :=
  BotToken (config s) = BotToken c0 /\ AdminID (config s) = AdminID c0
  /\ Domain (config s) = Domain c0
  /\ (Mode (config s) = Mode c0 \/ Mode (config s) = "public"
      \/ Mode (config s) = "private").

(** The string a text built from literals denotes. *)
Fixpoint literal (t : Text) : option string :=
  match t with
  | Lit s => Some s
  | Cat a b =>
      match literal a, literal b with
      | Some a', Some b' => Some (a' +:+ b')
      | _, _ => None
      end
  | Sprintf _ _ => None
  end.

(** The command an event runs, at once or in the background. *)
Definition command (e : Event) : option (list string) :=
  match e with
  | EvExec c | EvGo c => Some c
  | _ => None
  end.

(** An event that runs no command and writes no file. *)
Definition inert (e : Event) : Prop := command e = None /\ written e = None.

(** The observations on a backup: the archive written, the document sent
    and the file removed. *)
Definition archiveOf (e : Event) : option (Text * list (string * string) * bool) :=
  match e with
  | EvWriteFile path entries ok => Some (path, entries, ok)
  | _ => None
  end.

Definition documentOf (e : Event) : option (Z * Text) :=
  match e with
  | EvSend (Document chatID path _) _ => Some (chatID, path)
  | _ => None
  end.

Definition removed (e : Event) : option Text :=
  match e with
  | EvRemove path => Some path
  | _ => None
  end.

(** An event that is none of the three. *)
Definition besideBackup (e : Event) : Prop :=
  archiveOf e = None /\ documentOf e = None /\ removed e = None.

(** An event that sends nothing to a chat other than the given one. *)
Definition staysIn (chatID : Z) (e : Event) : Prop :=
  match e with
  | EvSend (Message m) _ => ChatID m = chatID
  | EvSend (Document c _ _) _ => c = chatID
  | _ => True
  end.

Definition noApiCall (e : Event) : Prop :=
  match e with EvApiCall _ _ _ => False | _ => True end.

(** The configuration after a toggle of the access mode. *)
Definition flipped (c : BotConfig) : BotConfig :=
  withMode (if String.eqb (Mode c) "public" then "private" else "public") c.

(** The administrator is [a], and the conversation state and the scratch
    data of user [u] are [x] and [y]. *)
Definition apart (a u : Z) (x : option string) (y : option (gmap string string))
  (s : St) : Prop :=
  AdminID (config s) = a /\ userStates s !! u = x /\ tempUserData s !! u = y.

End LoopVocabulary.

(** ** A scripted environment

    The world holds the answers to come: the outcomes of the sends ([false]
    is an error; past the end every send succeeds), the answer of the API,
    the content every file read yields, the result of fetching an upload and
    whether files can be written. *)

Record Script := {
  sendResults : list bool;
  apiAnswer : string + list (string * Json);
  fileContent : option string;
  fetched : Download;
  writable : bool
}.

#[local] Instance scriptEnv : Env := {|
  World := Script;
  bot_Send := fun _ w =>
    match sendResults w with
    | [] => (Some 7, w)
    | ok :: rest =>
        (if ok then Some 7 else None,
         {| sendResults := rest; apiAnswer := apiAnswer w;
            fileContent := fileContent w; fetched := fetched w;
            writable := writable w |})
    end;
  bot_Request := fun _ w => w;
  bot_GetMe := fun w => (None, w);
  bot_Self := ("ZiVPN", "zivpn_bot");
  apiCall := fun _ _ _ w => (apiAnswer w, w);
  getIpInfo := fun w => ({| City := "Jakarta"; Isp := "ISP"; Query := "203.0.113.7" |}, w);
  testLocalAPI := fun w => (None, w);
  time_Now := fun w => (0, w);
  rangeOrder := fun keys w => (reverse keys, w);
  rangeOrder_perm := fun keys _ => reverse_Permutation keys;
  unmarshalUsers := fun _ => (demoUsers, true);
  download := fun _ _ w => (fetched w, w);
  os_Create := fun _ w => (writable w, w);
  io_Copy := fun _ _ w => w;
  readFile := fun _ w => (fileContent w, w);
  ioutil_WriteFile := fun _ w => (writable w, w);
  os_Remove := fun _ w => w;
  exec_Run := fun _ w => w
|}.

(** A world where the API is down, nothing can be fetched and every file
    holds the given content. *)
Definition offline (content : option string) : Script :=
  {| sendResults := []; apiAnswer := inl "connection refused";
     fileContent := content; fetched := GetFileError; writable := true |}.

Definition scriptState (w : Script) (mode : string) (users : list Z)
  (states : list (Z * string)) : @St scriptEnv :=
  {| userStates := list_to_map states;
     tempUserData := ∅;
     lastMessageIDs := ∅;
     activeChats := list_to_map (map (fun u => (u, demoSession u)) users);
     lastSaveTime := 0;
     config := demoConfig mode;
     world := w |}.

(** A decoder of the chats file that knows one content. *)
Definition demoUnmarshal (data : string) : option (list ChatSession) :=
  if String.eqb data "[2,3]" then Some [demoSession 2; demoSession 3] else None.

(** * Properties *)

(** ** The library functions on sample inputs *)

Example Split_page : Go.Split "page_msg:3" ":" = ["page_msg"; "3"].
Proof. reflexivity. Qed.

Example Atoi_neg : Go.Atoi "-12" = (-12, true).
Proof. reflexivity. Qed.

Example Atoi_bad : Go.Atoi "1x" = (0, false).
Proof. reflexivity. Qed.

Example Atoi_big : Go.Atoi "99999999999999999999" = (Go.MaxInt, false).
Proof. vm_compute. reflexivity. Qed.

Example TrimSpace_ex : Go.TrimSpace "  ab c	 " = "ab c".
Proof. reflexivity. Qed.

Example Join_ex : Go.Join "/etc/zivpn" "../../tmp/x" = "/tmp/x".
Proof. reflexivity. Qed.

Example Join_plain : Go.Join "/etc/zivpn" "config.json" = "/etc/zivpn/config.json".
Proof. reflexivity. Qed.

(** ** Pagination *)

Lemma wrap_id (z : Z) : Go.MinInt <= z <= Go.MaxInt -> Go.wrap z = z.
Proof.
  unfold Go.wrap, Go.MinInt, Go.MaxInt. intros H.
  rewrite Z.mod_small; lia.
Qed.

Lemma pageWindow_eq (perPage n page : Z) :
  1 <= perPage -> 1 <= n -> n + perPage <= Go.MaxInt ->
  let totalPages := (n + perPage - 1) / perPage in
  let page' := Z.min totalPages (Z.max 1 page) in
  pageWindow perPage n page =
    (page', totalPages, (page' - 1) * perPage, Z.min n ((page' - 1) * perPage + perPage))
  /\ 1 <= page' <= totalPages
  /\ (page' - 1) * perPage < n.
Proof.
  intros Hp Hn Hmax totalPages page'.
  assert (HT : perPage * totalPages <= n + perPage - 1 < perPage * totalPages + perPage).
  { subst totalPages. split.
    - apply Z.mul_div_le. lia.
    - pose proof (Z.mul_succ_div_gt (n + perPage - 1) perPage ltac:(lia)). lia. }
  assert (HT1 : 1 <= totalPages) by nia.
  assert (HTn : totalPages <= n + perPage - 1) by nia.
  assert (Hpage : 1 <= page' <= totalPages) by (subst page'; lia).
  assert (Hstart : (page' - 1) * perPage < n) by nia.
  assert (Hstart0 : 0 <= (page' - 1) * perPage) by nia.
  assert (Hmin : Go.MinInt = - 2 ^ 63) by reflexivity.
  assert (Hmx : Go.MaxInt = 2 ^ 63 - 1) by reflexivity.
  split; [|split; assumption].
  unfold pageWindow, Go.div, Go.sub, Go.add, Go.mul.
  rewrite (wrap_id (n + perPage)) by lia.
  rewrite (wrap_id (n + perPage - 1)) by lia.
  rewrite Z.quot_div_nonneg by lia.
  fold totalPages. rewrite (wrap_id totalPages) by lia.
  assert (Hclamp :
    (if totalPages <? (if page <? 1 then 1 else page)
     then totalPages else if page <? 1 then 1 else page) = page').
  { subst page'.
    destruct (Z.ltb_spec page 1);
      [destruct (Z.ltb_spec totalPages 1) | destruct (Z.ltb_spec totalPages page)];
      lia. }
  rewrite Hclamp.
  rewrite (wrap_id (page' - 1)) by lia.
  rewrite (wrap_id ((page' - 1) * perPage)) by lia.
  rewrite (wrap_id ((page' - 1) * perPage + perPage)) by lia.
  destruct (Z.ltb_spec n ((page' - 1) * perPage + perPage));
    repeat f_equal; lia.
Qed.

Lemma pager_slice (perPage : Z) (users : list UserData) (page : Z) :
  perPage = 10 \/ perPage = 8 ->
  users <> [] ->
  Z.of_nat (List.length users) + perPage <= Go.MaxInt ->
  exists page' totalPages start end_,
    pageWindow perPage (Z.of_nat (List.length users)) page
      = (page', totalPages, start, end_)
    /\ 1 <= page' <= totalPages
    /\ 0 <= start <= end_
    /\ end_ <= Z.of_nat (List.length users)
    /\ Go.slice users start end_
       = Some (take (Z.to_nat (end_ - start)) (drop (Z.to_nat start) users)).
Proof.
  intros Hpp Hne Hmax.
  assert (Hn : 1 <= Z.of_nat (List.length users)).
  { destruct users; [congruence | cbn [List.length]; lia]. }
  destruct (pageWindow_eq perPage _ page ltac:(lia) Hn Hmax) as (Heq & Hpage & Hstart).
  eexists _, _, _, _. split; [exact Heq|].
  set (n := Z.of_nat (List.length users)) in *.
  set (p := Z.min _ (Z.max 1 page)) in *.
  assert (0 <= (p - 1) * perPage) by nia.
  split; [assumption|]. split; [lia|]. split; [lia|].
  unfold Go.slice. fold n.
  destruct (Z.leb_spec 0 ((p - 1) * perPage)); [|lia].
  destruct (Z.leb_spec ((p - 1) * perPage) (Z.min n ((p - 1) * perPage + perPage))); [|lia].
  destruct (Z.leb_spec (Z.min n ((p - 1) * perPage + perPage)) n); [|lia].
  reflexivity.
Qed.

(** ** Reasoning about handlers *)

Section Reasoning.
Context {E : Env}.

Lemma sat_ret {A} P Q (a : A) : sat P Q (ret a).
Proof. intros s Hs. split; [exact Hs | constructor]. Qed.

Lemma sat_panic {A} P Q : sat P Q (@panic E A).
Proof. intros s Hs. split; [exact Hs | constructor]. Qed.

Lemma sat_get P Q : sat P Q get.
Proof. intros s Hs. split; [exact Hs | constructor]. Qed.

Lemma sat_bind {A B} P Q (m : M A) (k : A -> M B) :
  sat P Q m -> (forall a, sat P Q (k a)) -> sat P Q (bind m k).
Proof.
  intros Hm Hk s Hs. unfold bind.
  destruct (Hm s Hs) as [Hp Ht].
  destruct (value (m s)) as [a|]; cbn; [|split; assumption].
  destruct (Hk a _ Hp) as [Hp' Ht'].
  split; [assumption | apply Forall_app; split; assumption].
Qed.

Lemma sat_modify P Q (f : St -> St) :
  (forall s, P s -> P (f s)) -> sat P Q (modify f).
Proof. intros Hf s Hs. split; [apply Hf, Hs | constructor]. Qed.

Lemma sat_emit P (Q : Event -> Prop) e : Q e -> sat P Q (emit e).
Proof. intros He s Hs. split; [exact Hs | repeat constructor; exact He]. Qed.

Lemma sat_ask {A} P (Q : Event -> Prop) (f : World -> A * World) ev :
  (forall s w, P s -> P (set_world w s)) -> (forall a, Q (ev a)) ->
  sat P Q (ask f ev).
Proof.
  intros Hw He s Hs. split; [apply Hw, Hs | repeat constructor; apply He].
Qed.

Lemma sat_tell P (Q : Event -> Prop) (f : World -> World) ev :
  (forall s w, P s -> P (set_world w s)) -> Q ev -> sat P Q (tell f ev).
Proof.
  intros Hw He s Hs. split; [apply Hw, Hs | repeat constructor; exact He].
Qed.

Lemma sat_peek {A} P Q (f : World -> A * World) :
  (forall s w, P s -> P (set_world w s)) -> sat P Q (peek f).
Proof. intros Hw s Hs. split; [apply Hw, Hs | constructor]. Qed.

Lemma sat_forEach {A} P Q (l : list A) (body : A -> M unit) :
  (forall x, sat P Q (body x)) -> sat P Q (forEach l body).
Proof.
  intros Hb. induction l as [|x l IH]; cbn [forEach].
  - apply sat_ret.
  - apply sat_bind; [apply Hb | intros _; exact IH].
Qed.

(** The equations of [bind]. *)
Lemma bind_some {A B} (m : M A) (k : A -> M B) s a :
  value (m s) = Some a ->
  bind m k s = mkOut (trace (m s) ++ trace (k a (post (m s))))
                     (post (k a (post (m s)))) (value (k a (post (m s)))).
Proof. intros H. unfold bind. rewrite H. reflexivity. Qed.

Lemma bind_none {A B} (m : M A) (k : A -> M B) s :
  value (m s) = None ->
  bind m k s = mkOut (trace (m s)) (post (m s)) None.
Proof. intros H. unfold bind. rewrite H. reflexivity. Qed.

End Reasoning.

(** One step of a [sat] proof: the structure of the handler decides. *)
Ltac sat_step side :=
  lazymatch goal with
  | |- sat _ _ (bind _ _) => apply sat_bind; [|intros]
  | |- sat _ _ (ret _) => apply sat_ret
  | |- sat _ _ panic => apply sat_panic
  | |- sat _ _ get => apply sat_get
  | |- sat _ _ (modify _) => apply sat_modify; side
  | |- sat _ _ (emit _) => apply sat_emit; side
  | |- sat _ _ (ask _ _) => apply sat_ask; side
  | |- sat _ _ (tell _ _) => apply sat_tell; side
  | |- sat _ _ (peek _) => apply sat_peek; side
  | |- sat _ _ (forEach _ _) => apply sat_forEach; intros
  | |- sat _ _ (if ?b then _ else _) => destruct b eqn:?
  | |- sat _ _ (match ?x with _ => _ end) => destruct x eqn:?
  | |- sat _ _ (let '(_, _) := ?x in _) => destruct x eqn:?
  end.

Ltac sat_unfold :=
  lazymatch goal with
  | |- sat _ _ ?m =>
      let h := lazymatch m with
               | ?f _ _ _ _ _ _ => f | ?f _ _ _ _ _ => f | ?f _ _ _ _ => f
               | ?f _ _ _ => f | ?f _ _ => f | ?f _ => f | ?f => f
               end in
      unfold h
  end.

Ltac sat_go side :=
  repeat first [ assumption | solve [auto with nocore] | progress cbv beta iota
               | sat_step side | sat_unfold ].

(** ** Totality *)

Section Totality.
Context {E : Env}.

Lemma total_ret {A} (a : A) : total (ret a).
Proof. intros s. eexists. reflexivity. Qed.

Lemma total_get : total get.
Proof. intros s. eexists. reflexivity. Qed.

Lemma total_modify f : total (modify f).
Proof. intros s. eexists. reflexivity. Qed.

Lemma total_emit e : total (emit e).
Proof. intros s. eexists. reflexivity. Qed.

Lemma total_ask {A} (f : World -> A * World) ev : total (ask f ev).
Proof. intros s. eexists. reflexivity. Qed.

Lemma total_tell f ev : total (tell f ev).
Proof. intros s. eexists. reflexivity. Qed.

Lemma total_peek {A} (f : World -> A * World) : total (peek f).
Proof. intros s. eexists. reflexivity. Qed.

Lemma total_bind {A B} (m : M A) (k : A -> M B) :
  total m -> (forall a, total (k a)) -> total (bind m k).
Proof.
  intros Hm Hk s. destruct (Hm s) as [a Ha].
  rewrite (bind_some _ _ _ _ Ha). apply Hk.
Qed.

Lemma total_forEach {A} (l : list A) (body : A -> M unit) :
  (forall x, total (body x)) -> total (forEach l body).
Proof.
  intros Hb. induction l as [|x l IH]; cbn [forEach].
  - apply total_ret.
  - apply total_bind; [apply Hb | intros _; exact IH].
Qed.

Lemma total_unit (m : M unit) s : total m -> value (m s) = Some tt.
Proof. intros H. destruct (H s) as [[] Hs]. exact Hs. Qed.

End Totality.

Ltac total_step :=
  lazymatch goal with
  | |- total (bind _ _) => apply total_bind; [|intros]
  | |- total (ret _) => apply total_ret
  | |- total get => apply total_get
  | |- total (modify _) => apply total_modify
  | |- total (emit _) => apply total_emit
  | |- total (ask _ _) => apply total_ask
  | |- total (tell _ _) => apply total_tell
  | |- total (peek _) => apply total_peek
  | |- total (forEach _ _) => apply total_forEach; intros
  | |- total (if ?b then _ else _) => destruct b
  | |- total (match ?x with _ => _ end) => destruct x
  | |- total (let '(_, _) := ?x in _) => destruct x
  end.

Ltac total_unfold :=
  lazymatch goal with
  | |- total ?m =>
      let h := lazymatch m with
               | ?f _ _ _ _ _ _ => f | ?f _ _ _ _ _ => f | ?f _ _ _ _ => f
               | ?f _ _ _ => f | ?f _ _ => f | ?f _ => f | ?f => f
               end in
      unfold h
  end.

Ltac total_go := repeat first [ assumption | total_step | total_unfold ].

(** ** Framing *)

Section Framing.
Context {E : Env}.

Lemma frame_refl s : frame s s.
Proof. repeat split. Qed.

Lemma quiet_deliveries t : Forall quiet t -> deliveries t = [].
Proof.
  induction 1 as [|e t [Hd _] _ IH]; [reflexivity|].
  unfold deliveries in *. cbn. rewrite Hd. exact IH.
Qed.

Lemma quiet_reports t : Forall quiet t -> reports t = [].
Proof.
  induction 1 as [|e t (_ & Hr & _) _ IH]; [reflexivity|].
  unfold reports in *. cbn. rewrite Hr. exact IH.
Qed.

Lemma quiet_acks t : Forall quiet t -> acks t = [].
Proof.
  induction 1 as [|e t (_ & _ & Ha) _ IH]; [reflexivity|].
  unfold acks in *. cbn. rewrite Ha. exact IH.
Qed.

Lemma deliveries_one e : delivery e = None -> deliveries [e] = [].
Proof. intros H. unfold deliveries. cbn. rewrite H. reflexivity. Qed.

Lemma reports_none e : report e = None -> reports [e] = [].
Proof. intros H. unfold reports. cbn. rewrite H. reflexivity. Qed.

Lemma reports_one e x : report e = Some x -> reports [e] = [x].
Proof. intros H. unfold reports. cbn. rewrite H. reflexivity. Qed.

Lemma deliveries_app t1 t2 : deliveries (t1 ++ t2) = deliveries t1 ++ deliveries t2.
Proof. apply omap_app. Qed.

Lemma reports_app t1 t2 : reports (t1 ++ t2) = reports t1 ++ reports t2.
Proof. apply omap_app. Qed.

Lemma acks_app t1 t2 : acks (t1 ++ t2) = acks t1 ++ acks t2.
Proof. apply omap_app. Qed.

End Framing.

(** Side conditions of a framing proof. *)
Ltac frame_side :=
  first [ intros ? ? ?; assumption | intros; done | idtac ].

Section Calm.
Context {E : Env}.

Lemma calm_run (m : M unit) s :
  calm m ->
  value (m s) = Some tt /\ frame s (post (m s)) /\ Forall quiet (trace (m s)).
Proof.
  intros [Ht Hs]. split; [apply total_unit, Ht|].
  apply (Hs s s), frame_refl.
Qed.

Lemma showMainMenu_calm chatID : calm (showMainMenu chatID).
Proof. split; [total_go | intros s0; sat_go ltac:(frame_side)]. Qed.

Lemma saveChats_calm : calm saveChats.
Proof. split; [total_go | intros s0; sat_go ltac:(frame_side)]. Qed.

End Calm.

(** ** The button-click dispatch *)

Lemma prefix_split (p s : string) :
  String.prefix p s = true -> exists rest, s = p +:+ rest.
Proof.
  revert s. induction p as [|a p IH]; intros s H.
  - exists s. reflexivity.
  - destruct s as [|b s]; [discriminate|]. cbn in H.
    destruct (ascii_dec a b) as [->|]; [|discriminate].
    destruct (IH s H) as [rest ->]. exists rest. reflexivity.
Qed.

Lemma Split_nonempty (s : string) (sep : ascii) :
  exists piece pieces, Go.Split s sep = piece :: pieces.
Proof.
  induction s as [|c s IH]; cbn.
  - eauto.
  - destruct (Ascii.eqb c sep); [eauto|].
    destruct IH as (piece & pieces & ->). eauto.
Qed.

Lemma out_eta {E : Env} {A} (o : Out A) : mkOut (trace o) (post o) (value o) = o.
Proof. destruct o. reflexivity. Qed.

Lemma bind_ret {E : Env} {A B} (a : A) (k : A -> M B) s : bind (ret a) k s = k a s.
Proof. unfold bind, ret. cbn. apply out_eta. Qed.

Lemma bind_get {E : Env} {A} (k : St -> M A) s : bind get k s = k s s.
Proof. unfold bind, get. cbn. destruct (k s s) as [t p [a|]]; reflexivity. Qed.

(** C9.  No action token selects the dedicated [page_msg:] case: a token
    that begins with [page_msg:] is taken by the earlier [page_] case, whose
    body [handlePagination] reads the action kind [msg] and the page between
    the first and the second colon, and calls [showUserSelection]. *)
Theorem C9_page_msg_unreachable {E : Env} (v : Variant) (query : CallbackQuery) :
  switchCase v (QData query) <> page_msg /\
  (Go.HasPrefix (QData query) "page_msg:" = true ->
   switchCase v (QData query) = page_ /\
   exists rest,
     QData query = "page_msg:" +:+ rest /\
     forall s,
       caseBody v (switchCase v (QData query)) query s
       = showUserSelection v (QChatID query)
           (Go.Atoi (hd "" (Go.Split rest ":"))).1 "msg" s).
Proof.
  split.
  - unfold switchCase.
    repeat (match goal with
            | |- (if ?b then _ else _) <> _ => destruct b eqn:?
            end; try discriminate).
    match goal with
    | H : Go.HasPrefix _ "page_msg:" = true |- _ =>
        destruct (prefix_split _ _ H) as [rest Hrest]
    end.
    match goal with
    | H : Go.HasPrefix _ "page_" = false |- _ => rewrite Hrest in H; discriminate H
    end.
  - intros H. destruct (prefix_split _ _ H) as [rest Hrest].
    assert (Hcase : switchCase v (QData query) = page_).
    { rewrite Hrest. destruct v; reflexivity. }
    split; [exact Hcase|]. exists rest. split; [exact Hrest|].
    intros s. rewrite Hcase. unfold caseBody. rewrite bind_get.
    unfold handlePagination. rewrite Hrest.
    destruct (Split_nonempty rest ":") as (piece & pieces & Hsplit).
    cbv [String.append]. cbn. rewrite Hsplit. reflexivity.
Qed.

Lemma C9_page_msg_unreachable_witness :
  switchCase Part001 "page_msg:3" <> page_msg /\
  switchCase Part001 "page_msg:3" = page_ /\
  exists rest,
    "page_msg:3" = "page_msg:" +:+ rest /\
    forall s,
      caseBody (E := demoEnv) Part001 (switchCase Part001 "page_msg:3")
        (click 1 "page_msg:3") s
      = showUserSelection Part001 1 (Go.Atoi (hd "" (Go.Split rest ":"))).1 "msg" s.
Proof.
  pose proof (C9_page_msg_unreachable (E := demoEnv) Part001 (click 1 "page_msg:3"))
    as [Hne Hpage].
  split; [exact Hne|]. apply Hpage. reflexivity.
Defined.

(** ** The broadcast fan-out *)

Lemma countSent_countFailed (l : list Attempt) :
  countSent l = Z.of_nat (List.length l) - countFailed l.
Proof.
  unfold countSent, countFailed.
  induction l as [|a l IH]; [reflexivity|].
  rewrite !filter_cons. destruct (decide (result a = None)) as [Hr|Hr].
  - rewrite decide_False by (intros Hn; apply Hn, Hr). cbn [List.length]. lia.
  - rewrite decide_True by exact Hr. cbn [List.length]. lia.
Qed.

Section FanOut.
Context {E : Env}.

Lemma deliveries_deliveryEvent v message (l : list Attempt) :
  deliveries (map (deliveryEvent v message) l)
  = map (fun a => (SessionChatID (session a), message, result a)) l.
Proof.
  induction l as [|a l IH]; [reflexivity|].
  cbn [map]. change (deliveries (deliveryEvent v message a :: map (deliveryEvent v message) l))
    with (from_option (fun d => d :: deliveries (map (deliveryEvent v message) l))
            (deliveries (map (deliveryEvent v message) l)) (delivery (deliveryEvent v message a))).
  rewrite IH. destruct v; reflexivity.
Qed.

Lemma reports_deliveryEvent v message (l : list Attempt) :
  reports (map (deliveryEvent v message) l) = [].
Proof.
  induction l as [|a l IH]; [reflexivity|].
  cbn [map]. change (reports (deliveryEvent v message a :: map (deliveryEvent v message) l))
    with (from_option (fun d => d :: reports (map (deliveryEvent v message) l))
            (reports (map (deliveryEvent v message) l)) (report (deliveryEvent v message a))).
  rewrite IH. destruct v; reflexivity.
Qed.

Lemma broadcastStep_admin v message t k sess s :
  k = AdminID (config s) ->
  broadcastStep v message t k sess s = mkOut [] s (Some t).
Proof.
  intros ->. unfold broadcastStep. rewrite bind_get.
  rewrite Z.eqb_refl. reflexivity.
Qed.

Lemma broadcastStep_send v message t k sess s :
  k <> AdminID (config s) ->
  let a := {| recipient := k; session := sess;
              result := (bot_Send (Message (Markdown (SessionChatID sess)
                           (broadcastText v message))) (world s)).1 |} in
  exists t' s',
    broadcastStep v message t k sess s = mkOut [deliveryEvent v message a] s' (Some t')
    /\ totalSent t' = totalSent t + countSent [a]
    /\ totalFailed t' = totalFailed t + countFailed [a]
    /\ (forall k', activeChats s' !! k' = registryAfter v (activeChats s) [a] k')
    /\ userStates s' = userStates s /\ tempUserData s' = tempUserData s
    /\ config s' = config s /\ lastSaveTime s' = lastSaveTime s.
Proof.
  intros Hk a. unfold broadcastStep. rewrite bind_get.
  apply Z.eqb_neq in Hk. rewrite Hk.
  unfold bind, Send, ask, deliveryEvent, registryAfter, failedRecipients,
    countSent, countFailed. subst a. cbn.
  destruct (bot_Send _ (world s)) as [[id|] w'] eqn:Hsend; cbn.
  - eexists _, _. split; [reflexivity|]. cbn.
    rewrite (decide_True (P := Some id <> None)) by discriminate.
    rewrite (decide_False (P := Some id = None)) by discriminate.
    cbn. repeat split; try lia.
    intros k'. rewrite decide_False; [reflexivity|].
    intros [_ Hin]. inversion Hin.
  - assert (Hreg : forall k' : Z,
      (if decide (v = Part001) then delete k (activeChats s) else activeChats s) !! k'
      = if decide (v = Part001 /\ k' ∈ [k]) then None else activeChats s !! k').
    { intros k'. destruct (decide (v = Part001)) as [Hv|Hv].
      - destruct (decide (k' = k)) as [->|Hne].
        + rewrite lookup_delete_eq. rewrite decide_True; [reflexivity|].
          split; [exact Hv | apply list_elem_of_singleton; reflexivity].
        + rewrite lookup_delete_ne by congruence.
          rewrite decide_False; [reflexivity|].
          intros [_ Hin]. apply list_elem_of_singleton in Hin. congruence.
      - rewrite decide_False; [reflexivity | intros [? _]; contradiction]. }
    rewrite (decide_False (P := @None Z <> None)) by (intros Hn; apply Hn; reflexivity).
    rewrite (decide_True (P := @None Z = None)) by reflexivity.
    cbn. destruct v; cbn; eexists _, _; (split; [reflexivity|]); cbn;
      (repeat split; try lia); intros k'; rewrite <- Hreg; reflexivity.
Qed.

Lemma bind_step {A B} (m : M A) (k : A -> M B) s t s' a :
  m s = mkOut t s' (Some a) ->
  bind m k s = mkOut (t ++ trace (k a s')) (post (k a s')) (value (k a s')).
Proof. intros H. unfold bind. rewrite H. reflexivity. Qed.

Lemma failedRecipients_cons a l :
  failedRecipients (a :: l) = failedRecipients [a] ++ failedRecipients l.
Proof.
  unfold failedRecipients. rewrite !filter_cons, filter_nil.
  destruct (decide (result a = None)); reflexivity.
Qed.

Lemma failedRecipients_single a k :
  k ∈ failedRecipients [a] -> k = recipient a.
Proof.
  unfold failedRecipients. rewrite filter_cons, filter_nil.
  destruct (decide (result a = None)); cbn; intros H.
  - apply list_elem_of_singleton in H. exact H.
  - inversion H.
Qed.

Lemma count_cons a l :
  countSent (a :: l) = countSent [a] + countSent l /\
  countFailed (a :: l) = countFailed [a] + countFailed l.
Proof.
  unfold countSent, countFailed. rewrite !filter_cons, !filter_nil.
  destruct (decide (result a <> None)), (decide (result a = None));
    cbn [List.length]; lia.
Qed.

Lemma registryAfter_cons v (reg reg' : gmap Z ChatSession) a l k0 :
  (forall k', reg' !! k' = registryAfter v reg [a] k') ->
  registryAfter v reg' l k0 = registryAfter v reg (a :: l) k0.
Proof.
  intros H. unfold registryAfter at 1. rewrite H. unfold registryAfter.
  rewrite (failedRecipients_cons a l).
  repeat case_decide; try reflexivity; exfalso;
    repeat match goal with
           | H : _ /\ _ |- _ => destruct H
           | H : _ ∈ _ ++ _ |- _ => apply elem_of_app in H; destruct H
           | H : ~ (_ /\ _) |- _ =>
               apply H; split; [assumption | try assumption; apply elem_of_app; auto]
           end.
Qed.

Lemma filter_ext_in {A} (P Q : A -> Prop) `{!forall x, Decision (P x)}
  `{!forall x, Decision (Q x)} (l : list A) :
  (forall x, x ∈ l -> P x <-> Q x) -> filter P l = filter Q l.
Proof.
  induction l as [|x l IH]; intros Hext; [reflexivity|].
  rewrite !filter_cons.
  assert (Hx : P x <-> Q x) by (apply Hext; left).
  rewrite IH by (intros y Hy; apply Hext; right; exact Hy).
  destruct (decide (P x)), (decide (Q x)); tauto.
Qed.

(** The loop attempts every key that is recorded and is not the
    administrator's, in the order given, whatever the results. *)
Lemma broadcastLoop_spec v message keys :
  forall t s, NoDup keys ->
  exists attempts t',
    let o := broadcastLoop v message keys t s in
    trace o = map (deliveryEvent v message) attempts
    /\ value o = Some t'
    /\ totalSent t' = totalSent t + countSent attempts
    /\ totalFailed t' = totalFailed t + countFailed attempts
    /\ map recipient attempts
       = filter (fun k => k <> AdminID (config s) /\ is_Some (activeChats s !! k)) keys
    /\ (forall a, a ∈ attempts -> activeChats s !! recipient a = Some (session a))
    /\ (forall k, activeChats (post o) !! k = registryAfter v (activeChats s) attempts k)
    /\ userStates (post o) = userStates s /\ tempUserData (post o) = tempUserData s
    /\ config (post o) = config s /\ lastSaveTime (post o) = lastSaveTime s.
Proof.
  induction keys as [|k rest IH]; intros t s Hnd.
  - exists [], t. cbn. repeat split.
    + unfold countSent. cbn. lia.
    + unfold countFailed. cbn. lia.
    + intros a Ha. inversion Ha.
    + intros k. unfold registryAfter. rewrite decide_False; [reflexivity|].
      intros [_ Hin]. inversion Hin.
  - apply NoDup_cons in Hnd as [Hk Hnd].
    cbn [broadcastLoop]. rewrite bind_get.
    destruct (activeChats s !! k) as [sess|] eqn:Hlook.
    + destruct (decide (k = AdminID (config s))) as [Hadm|Hadm].
      * rewrite (bind_step _ _ _ _ _ _ (broadcastStep_admin v message t k sess s Hadm)).
        cbn [app]. rewrite out_eta.
        destruct (IH t s Hnd) as (attempts & t' & H). exists attempts, t'.
        cbn zeta in *. rewrite filter_cons, decide_False by tauto. exact H.
      * destruct (broadcastStep_send v message t k sess s Hadm)
          as (t1 & s1 & Hstep & Hs1 & Hf1 & Hreg1 & Hus & Htd & Hcf & Hls).
        rewrite (bind_step _ _ _ _ _ _ Hstep).
        set (a := {| recipient := k; session := sess; result := _ |}) in *.
        destruct (IH t1 s1 Hnd)
          as (attempts & t' & Htr & Hval & Hs & Hf & Hrec & Hsess & Hreg & Hus' & Htd' & Hcf' & Hls').
        cbn zeta in *. cbn [trace post value].
        assert (Hsame : forall k', k' ∈ rest -> activeChats s1 !! k' = activeChats s !! k').
        { intros k' Hin. rewrite Hreg1. unfold registryAfter.
          rewrite decide_False; [reflexivity|].
          intros [_ Hk']. apply failedRecipients_single in Hk'. cbn in Hk'.
          subst k'. contradiction. }
        exists (a :: attempts), t'.
        destruct (count_cons a attempts) as [Hcs Hcf2].
        repeat split.
        -- rewrite Htr. reflexivity.
        -- exact Hval.
        -- lia.
        -- lia.
        -- rewrite filter_cons, decide_True by (split; [exact Hadm | rewrite Hlook; eauto]).
           cbn [map]. f_equal. rewrite Hrec. apply filter_ext_in.
           intros k' Hin. rewrite Hcf, (Hsame k' Hin). reflexivity.
        -- intros a0 Ha0. apply elem_of_cons in Ha0 as [->|Ha0]; [exact Hlook|].
           rewrite <- (Hsess a0 Ha0). symmetry. apply Hsame.
           assert (Hin : recipient a0 ∈ map recipient attempts)
             by (apply list_elem_of_fmap; eauto).
           rewrite Hrec in Hin. apply list_elem_of_filter in Hin as [_ Hin]. exact Hin.
        -- intros k0. rewrite Hreg. apply registryAfter_cons. exact Hreg1.
        -- congruence.
        -- congruence.
        -- congruence.
        -- congruence.
    + rewrite bind_ret.
      destruct (IH t s Hnd) as (attempts & t' & H). exists attempts, t'.
      cbn zeta in *. rewrite filter_cons, decide_False; [exact H|].
      intros [_ [x Hx]]. congruence.
Qed.

Lemma rangeOrder_NoDup (m : gmap Z ChatSession) w :
  NoDup (rangeOrder (map_to_list m).*1 w).1.
Proof.
  rewrite rangeOrder_perm. apply NoDup_fst_map_to_list.
Qed.

Lemma registry_keys (m : gmap Z ChatSession) (admin : Z) w :
  filter (fun k => k <> admin /\ is_Some (m !! k)) (rangeOrder (map_to_list m).*1 w).1
  ≡ₚ filter (fun k => k <> admin) (map_to_list m).*1.
Proof.
  rewrite (filter_ext_in _ (fun k => k <> admin)).
  - apply filter_Permutation, rangeOrder_perm.
  - intros k Hk. split; [tauto|]. intros Hne. split; [exact Hne|].
    rewrite (rangeOrder_perm _ w) in Hk.
    apply list_elem_of_fmap in Hk as ([k' x] & -> & Hin).
    apply elem_of_map_to_list in Hin. eauto.
Qed.

(** What is done after the loop and before the report. *)
Lemma afterLoop_calm v :
  calm (match v with
        | Part001 => saveChats
        | ZivpnBot =>
            s' <- get ;;
            elapsed <- Since (lastSaveTime s') ;;
            when (Minute <? elapsed) saveChats
        | Part000 => ret tt
        end).
Proof. destruct v; (split; [total_go | intros s0; sat_go ltac:(frame_side)]). Qed.

Lemma report_event v chatID t s r :
  report (EvSend (Message (Markdown chatID (broadcastReport v t s))) r)
    = Some (totalSent t, totalFailed t)
  /\ delivery (EvSend (Message (Markdown chatID (broadcastReport v t s))) r) = None.
Proof.
  destruct v; cbn; [split; reflexivity | | split; reflexivity].
  destruct (0 <? totalFailed t); split; reflexivity.
Qed.

(** The loop over the registry: every recorded session other than the
    administrator's is attempted once. *)
Lemma broadcastFanOut_spec v message s :
  exists attempts t',
    let o := broadcastFanOut v message s in
    trace o = map (deliveryEvent v message) attempts
    /\ value o = Some t'
    /\ totalSent t' = countSent attempts
    /\ totalFailed t' = countFailed attempts
    /\ map recipient attempts
       ≡ₚ filter (fun k => k <> AdminID (config s)) (map_to_list (activeChats s)).*1
    /\ (forall a, a ∈ attempts -> activeChats s !! recipient a = Some (session a))
    /\ (forall k, activeChats (post o) !! k = registryAfter v (activeChats s) attempts k)
    /\ userStates (post o) = userStates s /\ tempUserData (post o) = tempUserData s
    /\ config (post o) = config s /\ lastSaveTime (post o) = lastSaveTime s.
Proof.
  unfold broadcastFanOut. rewrite bind_get.
  rewrite (bind_step (peek _) _ _ _ _ _ eq_refl). cbn [app].
  match goal with
  | |- context [broadcastLoop v message ?keys ?t0 ?s1] =>
      destruct (broadcastLoop_spec v message keys t0 s1 (rangeOrder_NoDup _ _))
        as (attempts & t' & Htr & Hval & Hsent & Hfail & Hrec & Hsess & Hreg
            & Hus & Htd & Hcf & Hls);
      set (o2 := broadcastLoop v message keys t0 s1) in *
  end.
  cbn in Hsent, Hfail, Hrec, Hsess, Hreg, Hus, Htd, Hcf, Hls.
  exists attempts, t'. cbn [trace post value].
  repeat split; try assumption; try lia.
  rewrite Hrec. apply registry_keys.
Qed.

(** The fan-out as a whole, for a text that is not taken as the cancel
    keyword. *)
Lemma sendBroadcastMessage_spec v chatID message s :
  isCancel v message = false ->
  exists attempts : list Attempt,
    let o := sendBroadcastMessage v chatID message s in
    value o = Some tt
    /\ deliveries (trace o)
       = map (fun a => (SessionChatID (session a), message, result a)) attempts
    /\ reports (trace o) = [(countSent attempts, countFailed attempts)]
    /\ map recipient attempts
       ≡ₚ filter (fun k => k <> AdminID (config s)) (map_to_list (activeChats s)).*1
    /\ (forall a, a ∈ attempts -> activeChats s !! recipient a = Some (session a))
    /\ (forall k, activeChats (post o) !! k = registryAfter v (activeChats s) attempts k)
    /\ userStates (post o) = userStates s /\ tempUserData (post o) = tempUserData s
    /\ config (post o) = config s.
Proof.
  intros Hc. unfold sendBroadcastMessage. rewrite bind_get, Hc.
  rewrite (bind_step _ _ s _ _ _ eq_refl).
  match goal with
  | |- context [bind (broadcastFanOut v message) _ ?s1] =>
      destruct (broadcastFanOut_spec v message s1)
        as (attempts & t' & Htr & Hval & Hsent & Hfail & Hrec & Hsess & Hreg
            & Hus & Htd & Hcf & Hls);
      cbn zeta in *; rewrite (bind_some _ _ _ _ Hval);
      set (o2 := broadcastFanOut v message s1) in *; clearbody o2
  end.
  destruct (calm_run _ (post o2) (afterLoop_calm v)) as (Hv3 & Hf3 & Hq3).
  rewrite (bind_some _ _ _ _ Hv3). rewrite bind_get.
  match goal with
  | |- context [post (?m (post o2))] => set (o3 := m (post o2)) in *; clearbody o3
  end.
  rewrite (bind_step _ _ (post o3) _ _ _ eq_refl).
  match goal with
  | |- context [showMainMenu chatID ?s4] =>
      destruct (calm_run _ s4 (showMainMenu_calm chatID)) as (Hv5 & Hf5 & Hq5);
      set (o5 := showMainMenu chatID s4) in *; clearbody o5
  end.
  exists attempts. cbn [trace post value].
  destruct Hf3 as (Hus3 & Htd3 & Hac3 & Hcf3 & _).
  destruct Hf5 as (Hus5 & Htd5 & Hac5 & Hcf5 & _).
  cbn in Hus5, Htd5, Hac5, Hcf5, Hus, Htd, Hcf, Hrec, Hsess, Hreg.
  match goal with
  | |- context [EvSend (Message (Markdown chatID (broadcastReport v t' (post o3)))) ?r] =>
      destruct (report_event v chatID t' (post o3) r) as [Hrep Hnodel]
  end.
  repeat split.
  - exact Hv5.
  - rewrite !deliveries_app, Htr, deliveries_deliveryEvent.
    rewrite (quiet_deliveries _ Hq3), (quiet_deliveries _ Hq5).
    rewrite (deliveries_one _ Hnodel).
    rewrite deliveries_one by reflexivity.
    cbn [app]. rewrite app_nil_r. reflexivity.
  - rewrite !reports_app, Htr, reports_deliveryEvent.
    rewrite (quiet_reports _ Hq3), (quiet_reports _ Hq5).
    rewrite (reports_one _ _ Hrep).
    rewrite reports_none by reflexivity.
    cbn [app]. rewrite Hsent, Hfail. reflexivity.
  - exact Hrec.
  - exact Hsess.
  - intros k. rewrite Hac5, Hac3. apply Hreg.
  - congruence.
  - congruence.
  - congruence.
Qed.

End FanOut.

Lemma filter_ne_length (a : Z) (l : list Z) :
  NoDup l -> a ∈ l ->
  S (List.length (filter (fun k => k <> a) l)) = List.length l.
Proof.
  induction 1 as [|x l Hx Hnd IH]; intros Ha; [inversion Ha|].
  rewrite filter_cons. apply elem_of_cons in Ha as [<-|Ha].
  - rewrite decide_False by (intros Hn; apply Hn; reflexivity).
    cbn [List.length]. f_equal. f_equal.
    clear IH. induction l as [|y l IH]; [reflexivity|].
    apply not_elem_of_cons in Hx as [Hxy Hx]. apply NoDup_cons in Hnd as [_ Hnd].
    rewrite filter_cons, decide_True by congruence.
    f_equal. apply IH; assumption.
  - rewrite decide_True by (intros ->; contradiction).
    cbn [List.length]. f_equal. apply IH, Ha.
Qed.

Lemma NoDup_fmap_eq {A B} (f : A -> B) (l : list A) x y :
  NoDup (f <$> l) -> x ∈ l -> y ∈ l -> f x = f y -> x = y.
Proof.
  induction l as [|z l IH]; intros Hnd Hx Hy Hf; [inversion Hx|].
  rewrite fmap_cons in Hnd. apply NoDup_cons in Hnd as [Hz Hnd].
  apply elem_of_cons in Hx as [->|Hx]; apply elem_of_cons in Hy as [->|Hy].
  - reflexivity.
  - exfalso. apply Hz. rewrite Hf. apply list_elem_of_fmap. eauto.
  - exfalso. apply Hz. rewrite <- Hf. apply list_elem_of_fmap. eauto.
  - apply IH; assumption.
Qed.

(** C1.  For a text that the guard of [sendBroadcastMessage] does not take
    as the cancel keyword (a broadcast payload), in every variant: the
    fan-out returns; the deliveries it attempts are exactly the recorded
    sessions other than the administrator's, once each, with the payload;
    when the administrator is among the N recorded sessions these are N-1
    attempts; and the report shows success = N-1-K and failed = K, where K
    counts the attempts whose send returned an error. *)
Theorem C1_broadcast_counts {E : Env} (v : Variant) (chatID : Z)
  (message : string) (s : St) :
  isCancel v message = false ->
  exists attempts : list Attempt,
    let o := sendBroadcastMessage v chatID message s in
    let N := Z.of_nat (size (activeChats s)) in
    let K := countFailed attempts in
    value o = Some tt
    /\ deliveries (trace o)
       = map (fun a => (SessionChatID (session a), message, result a)) attempts
    /\ map recipient attempts
       ≡ₚ filter (fun k => k <> AdminID (config s)) (map_to_list (activeChats s)).*1
    /\ (forall a, a ∈ attempts -> activeChats s !! recipient a = Some (session a))
    /\ reports (trace o) = [(Z.of_nat (List.length attempts) - K, K)]
    /\ (is_Some (activeChats s !! AdminID (config s)) ->
        Z.of_nat (List.length attempts) = N - 1
        /\ reports (trace o) = [(N - 1 - K, K)]).
Proof.
  intros Hc.
  destruct (sendBroadcastMessage_spec v chatID message s Hc)
    as (attempts & Hval & Hdel & Hrep & Hrec & Hsess & _).
  exists attempts. cbn zeta in *.
  rewrite countSent_countFailed in Hrep.
  repeat split; try assumption.
  - assert (Hlen : List.length attempts
                   = List.length (filter (fun k => k <> AdminID (config s))
                                    (map_to_list (activeChats s)).*1)).
    { rewrite <- (Permutation_length Hrec). symmetry. apply length_fmap. }
    destruct H as [x Hx].
    pose proof (filter_ne_length (AdminID (config s)) (map_to_list (activeChats s)).*1
                  (NoDup_fst_map_to_list _)) as Hf.
    rewrite length_fmap, length_map_to_list in Hf.
    rewrite Hlen. rewrite <- Hf; [lia|].
    apply list_elem_of_fmap. exists (AdminID (config s), x). split; [reflexivity|].
    apply elem_of_map_to_list. exact Hx.
  - rewrite Hrep. repeat f_equal.
    assert (Hlen : List.length attempts
                   = List.length (filter (fun k => k <> AdminID (config s))
                                    (map_to_list (activeChats s)).*1)).
    { rewrite <- (Permutation_length Hrec). symmetry. apply length_fmap. }
    destruct H as [x Hx].
    pose proof (filter_ne_length (AdminID (config s)) (map_to_list (activeChats s)).*1
                  (NoDup_fst_map_to_list _)) as Hf.
    rewrite length_fmap, length_map_to_list in Hf.
    rewrite Hlen. rewrite <- Hf; [lia|].
    apply list_elem_of_fmap. exists (AdminID (config s), x). split; [reflexivity|].
    apply elem_of_map_to_list. exact Hx.
Qed.

Lemma C1_broadcast_counts_witness :
  exists attempts : list Attempt,
    let s := demoState "private" [1; 2; 3] [] [true; true; false] in
    let o := sendBroadcastMessage Part001 1 "hello" s in
    let N := Z.of_nat (size (activeChats s)) in
    let K := countFailed attempts in
    value o = Some tt
    /\ deliveries (trace o)
       = map (fun a => (SessionChatID (session a), "hello", result a)) attempts
    /\ map recipient attempts
       ≡ₚ filter (fun k => k <> AdminID (config s)) (map_to_list (activeChats s)).*1
    /\ (forall a, a ∈ attempts -> activeChats s !! recipient a = Some (session a))
    /\ reports (trace o) = [(Z.of_nat (List.length attempts) - K, K)]
    /\ (is_Some (activeChats s !! AdminID (config s)) ->
        Z.of_nat (List.length attempts) = N - 1
        /\ reports (trace o) = [(N - 1 - K, K)]).
Proof.
  apply (C1_broadcast_counts (E := demoEnv) Part001 1 "hello"
           (demoState "private" [1; 2; 3] [] [true; true; false])).
  reflexivity.
Defined.

(** The scenario of the specification: with the administrator (1) and two
    users recorded, one delivery succeeding and one failing, the report
    shows one success and one failure. *)
Example broadcast_scenario :
  let o := sendBroadcastMessage (E := demoEnv) Part001 1 "hello"
             (demoState "private" [1; 2; 3] [] [true; true; false]) in
  deliveries (trace o) = [(3, "hello", Some 7); (2, "hello", None)]
  /\ reports (trace o) = [(1, 1)]
  /\ (map_to_list (activeChats (post o))).*1 = [3; 1].
Proof. vm_compute. repeat split. Qed.

(** In [zivpn-bot.go] a recipient whose delivery failed is still in the
    registry after the pass: user 2's send fails and user 2 stays
    recorded. *)
Lemma C4_counterexample :
  let o := sendBroadcastMessage (E := demoEnv) ZivpnBot 1 "hello"
             (demoState "private" [1; 2; 3] [] [true; true; false]) in
  deliveries (trace o) = [(3, "hello", Some 7); (2, "hello", None)]
  /\ activeChats (post o) !! 2 = Some (demoSession 2).
Proof. vm_compute. split; reflexivity. Qed.

(** C4, amended.  In every variant a failed delivery does not abort the
    batch: the fan-out returns having attempted every recorded session other
    than the administrator's.  In [part_001] every recipient whose delivery
    failed is gone from [activeChats] after the pass and every recipient
    whose delivery succeeded is still recorded with its session; in
    [zivpn-bot.go] and [part_000] the fan-out leaves [activeChats] as it
    was, failures being counted and reported only. *)
Theorem C4_failed_recipients {E : Env} (v : Variant) (chatID : Z)
  (message : string) (s : St) :
  isCancel v message = false ->
  exists attempts : list Attempt,
    let o := sendBroadcastMessage v chatID message s in
    value o = Some tt
    /\ deliveries (trace o)
       = map (fun a => (SessionChatID (session a), message, result a)) attempts
    /\ map recipient attempts
       ≡ₚ filter (fun k => k <> AdminID (config s)) (map_to_list (activeChats s)).*1
    /\ match v with
       | Part001 =>
           forall a, a ∈ attempts ->
             (result a = None -> activeChats (post o) !! recipient a = None) /\
             (result a <> None ->
              activeChats (post o) !! recipient a = Some (session a))
       | ZivpnBot | Part000 => activeChats (post o) = activeChats s
       end.
Proof.
  intros Hc.
  destruct (sendBroadcastMessage_spec v chatID message s Hc)
    as (attempts & Hval & Hdel & Hrep & Hrec & Hsess & Hreg & _).
  exists attempts. cbn zeta in *.
  repeat split; try assumption.
  assert (Hnd : NoDup (recipient <$> attempts)).
  { rewrite Hrec. apply NoDup_filter, NoDup_fst_map_to_list. }
  destruct v.
  - intros a Ha. rewrite Hreg. unfold registryAfter. split; intros Hr.
    + rewrite decide_True; [reflexivity|]. split; [reflexivity|].
      unfold failedRecipients. apply list_elem_of_fmap. exists a.
      split; [reflexivity|]. apply list_elem_of_filter. split; assumption.
    + rewrite decide_False; [apply Hsess, Ha|].
      intros [_ Hin]. unfold failedRecipients in Hin.
      apply list_elem_of_fmap in Hin as (a' & Heq & Hin).
      apply list_elem_of_filter in Hin as [Hfail Hin].
      assert (a = a') by (eapply NoDup_fmap_eq; eauto). subst a'. contradiction.
  - apply map_eq. intros k. rewrite Hreg. unfold registryAfter.
    rewrite decide_False; [reflexivity | intros [? _]; discriminate].
  - apply map_eq. intros k. rewrite Hreg. unfold registryAfter.
    rewrite decide_False; [reflexivity | intros [? _]; discriminate].
Qed.

Lemma C4_failed_recipients_witness :
  exists attempts : list Attempt,
    let s := demoState "private" [1; 2; 3] [] [true; true; false] in
    let o := sendBroadcastMessage Part001 1 "hello" s in
    value o = Some tt
    /\ deliveries (trace o)
       = map (fun a => (SessionChatID (session a), "hello", result a)) attempts
    /\ map recipient attempts
       ≡ₚ filter (fun k => k <> AdminID (config s)) (map_to_list (activeChats s)).*1
    /\ forall a, a ∈ attempts ->
         (result a = None -> activeChats (post o) !! recipient a = None) /\
         (result a <> None ->
          activeChats (post o) !! recipient a = Some (session a)).
Proof.
  apply (C4_failed_recipients (E := demoEnv) Part001 1 "hello"
           (demoState "private" [1; 2; 3] [] [true; true; false])).
  reflexivity.
Defined.

(** ** Restore *)

Section Restore.
Context {E : Env}.

Lemma Join_allowed (name : string) :
  validFiles name = true -> Go.Join "/etc/zivpn" name = "/etc/zivpn/" +:+ name.
Proof.
  unfold validFiles. intros H. apply bool_decide_eq_true in H.
  repeat (apply elem_of_cons in H as [->|H]; [reflexivity|]).
  inversion H.
Qed.

Lemma restoreEntry_skip (f : ZipFile) s :
  validFiles (Name f) = false -> restoreEntry f s = mkOut [] s (Some tt).
Proof. intros H. unfold restoreEntry. rewrite H. reflexivity. Qed.

Lemma restoreEntry_writes (f : ZipFile) s e p :
  e ∈ trace (restoreEntry f s) -> written e = Some p ->
  validFiles (Name f) = true /\ p = Lit ("/etc/zivpn/" +:+ Name f).
Proof.
  unfold restoreEntry.
  destruct (validFiles (Name f)) eqn:Hv; cbn [negb]; [|intros H; inversion H].
  rewrite (Join_allowed _ Hv).
  destruct (Open f) as [rc|]; [|intros H; inversion H].
  unfold bind, ask, tell. cbn.
  destruct (os_Create _ (world s)) as [[] w']; cbn; intros He Hw;
    repeat (apply elem_of_cons in He as [->|He];
            [cbn in Hw; injection Hw as <-; split; reflexivity|]);
    inversion He.
Qed.

Lemma restoreEntry_sat (f : ZipFile) : sat (fun _ => True) inConfigDir (restoreEntry f).
Proof.
  intros s _. split; [exact I|]. apply Forall_forall. intros e He p Hp.
  destruct (restoreEntry_writes f s e p He Hp) as [Hv ->]. eauto.
Qed.

Lemma processRestoreFile_sat (msg : TgMessage) :
  sat (fun _ => True) inConfigDir (processRestoreFile msg).
Proof.
  pose proof restoreEntry_sat as Hentry.
  sat_go ltac:(first [ exact (fun _ _ => I) | exact (fun _ _ _ => I)
                     | intros; intros ? ?; discriminate | idtac ]);
    try apply Hentry.
Qed.

End Restore.

(** C2.  An archive entry whose name is not in the allow-list is skipped: it
    causes no event and changes nothing.  Whatever [processRestoreFile]
    creates or writes, for any archive fetched, is a file named in the
    allow-list directly in [/etc/zivpn]; and an entry that is written goes to
    [/etc/zivpn/] followed by its own name. *)
Theorem C2_restore_allow_list {E : Env} :
  (forall (f : ZipFile) s,
     validFiles (Name f) = false -> restoreEntry f s = mkOut [] s (Some tt))
  /\ (forall (f : ZipFile) s e p,
        e ∈ trace (restoreEntry f s) -> written e = Some p ->
        validFiles (Name f) = true /\ p = Lit ("/etc/zivpn/" +:+ Name f))
  /\ (forall (msg : TgMessage) s e p,
        e ∈ trace (processRestoreFile msg s) -> written e = Some p ->
        exists name,
          name ∈ ["config.json"; "users.json"; "bot-config.json"; "domain";
                  "apikey"; "api_port"]
          /\ p = Lit ("/etc/zivpn/" +:+ name)).
Proof.
  split; [exact restoreEntry_skip|]. split; [exact restoreEntry_writes|].
  intros msg s e p He Hp.
  destruct (processRestoreFile_sat msg s I) as [_ Hall].
  rewrite Forall_forall in Hall.
  destruct (Hall e He p Hp) as (name & Hv & ->).
  exists name. split; [|reflexivity].
  unfold validFiles in Hv. apply bool_decide_eq_true in Hv. exact Hv.
Qed.

(** Restoring the archive of the concrete environment creates and writes
    [config.json] only: the climbing path and the unrelated file are
    skipped. *)
Example restore_run :
  omap written
    (trace (processRestoreFile (E := demoEnv) (uploadMessage 1 "file")
              (demoState "private" [1] [(1, "waiting_restore_file")] [])))
  = [Lit "/etc/zivpn/config.json"; Lit "/etc/zivpn/config.json"].
Proof. vm_compute. reflexivity. Qed.

Lemma C2_restore_allow_list_witness :
  restoreEntry (E := demoEnv) {| Name := "../../etc/passwd"; Open := Some "root::0:0" |}
      (demoState "private" [1] [] [])
    = mkOut [] (demoState "private" [1] [] []) (Some tt)
  /\ (validFiles "config.json" = true
      /\ Lit "/etc/zivpn/config.json" = Lit ("/etc/zivpn/" +:+ "config.json"))
  /\ exists name,
       name ∈ ["config.json"; "users.json"; "bot-config.json"; "domain";
               "apikey"; "api_port"]
       /\ Lit "/etc/zivpn/config.json" = Lit ("/etc/zivpn/" +:+ name).
Proof.
  destruct (C2_restore_allow_list (E := demoEnv)) as (Hskip & Hentry & Hall).
  split; [|split].
  - apply Hskip. reflexivity.
  - apply (Hentry {| Name := "config.json"; Open := Some "{}" |}
             (demoState "private" [1] [] [])
             (EvCreate "/etc/zivpn/config.json" true)).
    + vm_compute. repeat constructor.
    + reflexivity.
  - apply (Hall (uploadMessage 1 "file")
             (demoState "private" [1] [(1, "waiting_restore_file")] [])
             (EvCreate "/etc/zivpn/config.json" true)).
    + vm_compute. repeat constructor.
    + reflexivity.
Defined.

(** ** The create flow: the name step *)

Section NameStep.
Context {E : Env}.

Lemma sendMessage_total chatID text : total (sendMessage chatID text).
Proof. total_go. Qed.

Lemma sendMessage_frame s0 chatID text :
  sat (frame s0) anyEvent (sendMessage chatID text).
Proof. sat_go ltac:(first [ frame_side | exact I ]). Qed.

Lemma sendMessage_run chatID text s :
  value (sendMessage chatID text s) = Some tt
  /\ frame s (post (sendMessage chatID text s)).
Proof.
  split; [apply total_unit, sendMessage_total|].
  apply (sendMessage_frame s chatID text s), frame_refl.
Qed.

Lemma saveChatSession_total v userID chatID username :
  total (saveChatSession v userID chatID username).
Proof. destruct v; total_go. Qed.

Lemma saveChatSession_sameFlow v s0 userID chatID username :
  sat (sameFlow s0) anyEvent (saveChatSession v userID chatID username).
Proof. destruct v; sat_go ltac:(first [ frame_side | exact I ]). Qed.

Lemma saveChatSession_run v userID chatID username s :
  value (saveChatSession v userID chatID username s) = Some tt
  /\ sameFlow s (post (saveChatSession v userID chatID username s)).
Proof.
  split; [apply total_unit, saveChatSession_total|].
  apply (saveChatSession_sameFlow v s userID chatID username s). repeat split.
Qed.

Lemma matchName_bad (text : string) (c : ascii) :
  c ∈ Go.bytes text -> Go.isNameByte c = false -> Go.matchName text = false.
Proof.
  intros Hin Hc. unfold Go.matchName.
  destruct (Go.bytes text) as [|b l] eqn:Hb; [reflexivity|].
  apply not_true_is_false. intros Hall.
  rewrite forallb_forall in Hall.
  apply list_elem_of_In in Hin. rewrite (Hall c Hin) in Hc. discriminate.
Qed.

Lemma validateUsername_invalid chatID (text : string) s :
  Go.len text < 3 \/ 20 < Go.len text
  \/ (exists c, c ∈ Go.bytes text /\ Go.isNameByte c = false) ->
  exists prompt,
    prompt ∈ namePrompts
    /\ validateUsername chatID text s
       = mkOut (trace (sendMessage chatID prompt s) ++ [])
               (post (sendMessage chatID prompt s)) (Some false).
Proof.
  intros H. unfold validateUsername.
  destruct ((Go.len text <? 3) || (20 <? Go.len text)) eqn:Hlen.
  - eexists. split; [left|].
    rewrite (bind_some _ _ _ _ (proj1 (sendMessage_run _ _ _))). reflexivity.
  - apply orb_false_elim in Hlen as [H3 H20].
    apply Z.ltb_ge in H3. apply Z.ltb_ge in H20.
    destruct H as [H|[H|(c & Hin & Hc)]]; [lia | lia |].
    rewrite (matchName_bad text c Hin Hc). cbn [negb].
    eexists. split; [right; left|].
    rewrite (bind_some _ _ _ _ (proj1 (sendMessage_run _ _ _))). reflexivity.
Qed.

Lemma handleState_invalid_name v (msg : TgMessage) s :
  let text := Go.TrimSpace (MText msg) in
  Go.len text < 3 \/ 20 < Go.len text
  \/ (exists c, c ∈ Go.bytes text /\ Go.isNameByte c = false) ->
  exists prompt,
    prompt ∈ namePrompts
    /\ handleState v msg "create_username" s
       = mkOut (trace (sendMessage (MChatID msg) prompt s) ++ [] ++ [])
               (post (sendMessage (MChatID msg) prompt s)) (Some tt).
Proof.
  intros text H.
  destruct (validateUsername_invalid (MChatID msg) text s H) as (prompt & Hin & Hv).
  exists prompt. split; [exact Hin|].
  unfold handleState. fold text. cbn [String.eqb Ascii.eqb Bool.eqb].
  change (String.eqb "create_username" "create_username") with true. cbn iota.
  rewrite (bind_step _ _ _ _ _ _ Hv). cbn. rewrite <- app_assoc. reflexivity.
Qed.

End NameStep.

(** As it is received, a name padded with white space has bytes outside
    the class, and can be longer than 20 bytes; [handleState] trims it before
    it validates it, and the flow advances to the duration step with the
    trimmed name in the scratch data. *)
Lemma C6_counterexample :
  let s := set_tempUserData <[2 := ∅]>
             (demoState "public" [1; 2] [(2, "create_username")] []) in
  let padded := textMessage 2 "  alice  " in
  let long := textMessage 2 "alice                    " in
  let step := fun msg =>
    handleState (E := demoEnv) Part001 msg "create_username" s in
  (" "%char ∈ Go.bytes (MText padded) /\ Go.isNameByte " " = false)
  /\ 20 < Go.len (MText long)
  /\ (value (step padded) = Some tt
      /\ userStates (post (step padded)) !! 2 = Some "create_days"
      /\ tempUserData (post (step padded)) !! 2 = Some {["username" := "alice"]})
  /\ (value (step long) = Some tt
      /\ userStates (post (step long)) !! 2 = Some "create_days"
      /\ tempUserData (post (step long)) !! 2 = Some {["username" := "alice"]}).
Proof.
  split; [split; [vm_compute; repeat constructor | reflexivity]|].
  split; [reflexivity|].
  split; vm_compute; repeat split.
Qed.

(** C6, amended.  In the name step of the create flow, a text that (trimmed, as
    [handleState] reads it) is shorter than 3 or longer than 20 bytes, or has
    a byte outside [A-Za-z0-9_-], makes the handler send one of the two error
    prompts and nothing else, and leaves [userStates] and [tempUserData] as
    they were: the user stays in [create_username], the duration step is not
    entered.  This holds for the step itself and for the whole of
    [handleMessage] on a message of an allowed user in that state.  A
    non-ASCII character is a byte outside the class, so the byte length
    decides as the character length would. *)
Theorem C6_invalid_name_keeps_step {E : Env} (v : Variant) (msg : TgMessage)
  (s : St) :
  let text := Go.TrimSpace (MText msg) in
  let userID := MFromID msg in
  let chatID := MChatID msg in
  Go.len text < 3 \/ 20 < Go.len text
  \/ (exists c, c ∈ Go.bytes text /\ Go.isNameByte c = false) ->
  (exists prompt,
     prompt ∈ namePrompts /\
     let o := handleState v msg "create_username" s in
     value o = Some tt
     /\ trace o = trace (sendMessage chatID prompt s)
     /\ userStates (post o) = userStates s
     /\ tempUserData (post o) = tempUserData s)
  /\ (isAllowed (config s) userID = true ->
      userStates s !! userID = Some "create_username" ->
      let o := handleMessage v msg s in
      let saved := saveChatSession v userID chatID (MFromUserName msg) s in
      value o = Some tt
      /\ userStates (post o) !! userID = Some "create_username"
      /\ tempUserData (post o) = tempUserData s
      /\ exists prompt,
           prompt ∈ namePrompts
           /\ trace o = trace saved ++ trace (sendMessage chatID prompt (post saved))).
Proof.
  intros text userID chatID H. split.
  - destruct (handleState_invalid_name v msg s H) as (prompt & Hin & Heq).
    exists prompt. split; [exact Hin|]. cbn zeta. rewrite Heq. cbn [trace post value].
    destruct (sendMessage_run (MChatID msg) prompt s) as [_ (Hus & Htd & _)].
    rewrite !app_nil_r. repeat split; assumption.
  - intros Hallow Hstate. cbn zeta. unfold handleMessage.
    destruct (saveChatSession_run v (MFromID msg) (MChatID msg) (MFromUserName msg) s)
      as [Hval (Hus & Htd & Hcf)].
    rewrite (bind_some _ _ _ _ Hval). rewrite bind_get.
    set (s1 := post (saveChatSession v (MFromID msg) (MChatID msg) (MFromUserName msg) s)) in *.
    rewrite Hcf. fold userID. rewrite Hallow. cbn [negb].
    rewrite Hus, Hstate.
    rewrite (bool_decide_eq_false_2 (Some "create_username" = Some "waiting_restore_file"))
      by discriminate.
    rewrite andb_false_r.
    destruct (handleState_invalid_name v msg s1 H) as (prompt & Hin & Heq).
    rewrite Heq. cbn [trace post value].
    destruct (sendMessage_run (MChatID msg) prompt s1) as [_ (Hus1 & Htd1 & _)].
    rewrite !app_nil_r. repeat split.
    + rewrite Hus1, Hus. exact Hstate.
    + rewrite Htd1. exact Htd.
    + exists prompt. split; [exact Hin | reflexivity].
Qed.

Lemma C6_invalid_name_keeps_step_witness :
  let msg := textMessage 2 "my name!" in
  let s := demoState "public" [1; 2] [(2, "create_username")] [] in
  (exists prompt,
     prompt ∈ namePrompts /\
     let o := handleState (E := demoEnv) Part001 msg "create_username" s in
     value o = Some tt
     /\ trace o = trace (sendMessage 2 prompt s)
     /\ userStates (post o) = userStates s
     /\ tempUserData (post o) = tempUserData s)
  /\ let o := handleMessage Part001 msg s in
     let saved := saveChatSession Part001 2 2 "" s in
     value o = Some tt
     /\ userStates (post o) !! 2 = Some "create_username"
     /\ tempUserData (post o) = tempUserData s
     /\ exists prompt,
          prompt ∈ namePrompts
          /\ trace o = trace saved ++ trace (sendMessage 2 prompt (post saved)).
Proof.
  intros msg s.
  assert (Hbad : Go.len (Go.TrimSpace (MText msg)) < 3
                 \/ 20 < Go.len (Go.TrimSpace (MText msg))
                 \/ (exists c, c ∈ Go.bytes (Go.TrimSpace (MText msg))
                               /\ Go.isNameByte c = false)).
  { right. right. exists " "%char. split; [vm_compute; repeat constructor | reflexivity]. }
  destruct (C6_invalid_name_keeps_step (E := demoEnv) Part001 msg s Hbad) as [Hstep Hmsg].
  split; [exact Hstep|]. apply Hmsg; reflexivity.
Defined.

(** A name padded with white space is trimmed before it is validated. *)
Example padded_name_accepted :
  let o := handleState (E := demoEnv) Part001 (textMessage 2 "  alice  ") "create_username"
             (set_tempUserData <[2 := ∅]>
                (demoState "public" [1; 2] [(2, "create_username")] [])) in
  userStates (post o) !! 2 = Some "create_days"
  /\ tempUserData (post o) !! 2 = Some {["username" := "alice"]}.
Proof. vm_compute. split; reflexivity. Qed.

(** ** The broadcast flow: the text step *)

Section BroadcastStep.
Context {E : Env}.

Lemma showMainMenu_onlyChat chatID :
  sat (fun _ => True) (onlyChat chatID) (showMainMenu chatID).
Proof.
  sat_go ltac:(first [ exact (fun _ _ => I) | exact (fun _ _ _ => I)
                     | intros; reflexivity | reflexivity | idtac ]).
Qed.

Lemma handleState_broadcast v (msg : TgMessage) s :
  handleState v msg "broadcast_message" s
  = bind (sendBroadcastMessage v (MChatID msg) (Go.TrimSpace (MText msg)))
         (fun _ => resetState (MFromID msg)) s.
Proof. reflexivity. Qed.

Lemma resetState_run userID s :
  resetState userID s
  = mkOut [] (set_tempUserData (delete userID) (set_userStates (delete userID) s))
          (Some tt).
Proof. reflexivity. Qed.

Lemma sendBroadcastMessage_cancel v chatID (text : string) s :
  isCancel v text = true ->
  let menu := showMainMenu chatID (post (resetState (AdminID (config s)) s)) in
  sendBroadcastMessage v chatID text s = mkOut (trace menu) (post menu) (Some tt).
Proof.
  intros Hc. cbn zeta. unfold sendBroadcastMessage. rewrite bind_get, Hc.
  unfold cancelOperation.
  rewrite (bind_step _ _ _ _ _ _ (resetState_run _ _)). cbn [app].
  rewrite resetState_run. cbn [post].
  match goal with
  | |- context [showMainMenu ?c ?s1] =>
      destruct (calm_run _ s1 (showMainMenu_calm c)) as (Hv & _)
  end.
  rewrite Hv. reflexivity.
Qed.

(** The outcome of the step when the text is taken as the cancel keyword. *)
Lemma handleState_broadcast_cancel v (msg : TgMessage) s :
  isCancel v (Go.TrimSpace (MText msg)) = true ->
  let o := handleState v msg "broadcast_message" s in
  let menu := showMainMenu (MChatID msg)
                (post (resetState (AdminID (config s)) s)) in
  value o = Some tt
  /\ trace o = trace menu
  /\ userStates (post o) = delete (MFromID msg) (delete (AdminID (config s)) (userStates s))
  /\ tempUserData (post o)
     = delete (MFromID msg) (delete (AdminID (config s)) (tempUserData s))
  /\ activeChats (post o) = activeChats s.
Proof.
  intros Hc. cbn zeta. rewrite handleState_broadcast.
  rewrite (bind_step _ _ _ _ _ _ (sendBroadcastMessage_cancel v _ _ s Hc)).
  rewrite resetState_run. cbn [trace post value].
  rewrite resetState_run. cbn [post].
  match goal with
  | |- context [showMainMenu ?c ?s1] =>
      destruct (calm_run _ s1 (showMainMenu_calm c)) as (_ & Hf & _);
      set (o1 := showMainMenu c s1) in *; clearbody o1
  end.
  destruct Hf as (Hus & Htd & Hac & _).
  cbn in Hus, Htd, Hac. cbn. rewrite Hus, Htd, Hac, app_nil_r.
  repeat split.
Qed.

Lemma isCancel_Part000_equal (text : string) :
  Go.ToLower text = "cancel" -> isCancel Part000 text = true.
Proof. intros H. unfold isCancel. rewrite H. reflexivity. Qed.

End BroadcastStep.

(** Texts that equal a cancel keyword up to case are broadcast by
    [part_001] ("/CANCEL") and by [zivpn-bot.go] ("CANCEL"), and a text that
    merely contains the word aborts the flow in [part_000]. *)
Lemma C3_counterexample :
  let s := demoState "private" [1; 2] [(1, "broadcast_message")] [] in
  (Go.ToLower "/CANCEL" = "/cancel"
   /\ deliveries (trace (handleState (E := demoEnv) Part001
                           (textMessage 1 "/CANCEL") "broadcast_message" s))
      = [(2, "/CANCEL", Some 7)])
  /\ (Go.ToLower "CANCEL" = "cancel"
      /\ deliveries (trace (handleState (E := demoEnv) ZivpnBot
                              (textMessage 1 "CANCEL") "broadcast_message" s))
         = [(2, "CANCEL", Some 7)])
  /\ (Go.ToLower "do not cancel" <> "cancel"
      /\ Go.ToLower "do not cancel" <> "/cancel"
      /\ trace (handleState (E := demoEnv) Part000
                  (textMessage 1 "do not cancel") "broadcast_message" s)
         = trace (showMainMenu 1 (post (resetState 1 s)))).
Proof. vm_compute. repeat split; discriminate. Qed.

(** C3, amended.  While a user is in the broadcast text step, the received
    text, trimmed of surrounding white space, aborts the flow exactly when
    the guard of the variant takes it as the cancel keyword: in [part_001]
    when it is "/cancel" (case-sensitively); in [zivpn-bot.go] when it
    equals "/cancel" up to case or is "cancel"; in [part_000] at least
    when it equals "cancel" up to case, and never when it does not contain
    that word.  An abort clears the conversation state and scratch data of
    the user, shows the idle menu to the initiator's chat and sends nothing
    else: no delivery, no report.  Any text not so taken is, whole, the
    payload of the fan-out, which attempts every recorded session other than
    the administrator's and reports; the state is cleared afterwards. *)
Theorem C3_broadcast_text_step {E : Env} (v : Variant) (msg : TgMessage) (s : St) :
  let text := Go.TrimSpace (MText msg) in
  let chatID := MChatID msg in
  let admin := AdminID (config s) in
  let o := handleState v msg "broadcast_message" s in
  match v with
  | Part001 => isCancel v text = true <-> text = "/cancel"
  | ZivpnBot =>
      isCancel v text = true <-> Go.ToLower text = "/cancel" \/ text = "cancel"
  | Part000 =>
      (Go.ToLower text = "cancel" -> isCancel v text = true)
      /\ (Go.Contains (Go.ToLower text) "cancel" = false -> isCancel v text = false)
  end
  /\ (isCancel v text = true ->
      value o = Some tt
      /\ userStates (post o) !! MFromID msg = None
      /\ tempUserData (post o) !! MFromID msg = None
      /\ trace o = trace (showMainMenu chatID (post (resetState admin s)))
      /\ Forall (onlyChat chatID) (trace o)
      /\ deliveries (trace o) = [] /\ reports (trace o) = [])
  /\ (isCancel v text = false ->
      exists attempts : list Attempt,
        value o = Some tt
        /\ deliveries (trace o)
           = map (fun a => (SessionChatID (session a), text, result a)) attempts
        /\ map recipient attempts
           ≡ₚ filter (fun k => k <> admin) (map_to_list (activeChats s)).*1
        /\ reports (trace o) = [(countSent attempts, countFailed attempts)]
        /\ userStates (post o) !! MFromID msg = None).
Proof.
  cbn zeta. split; [|split].
  - destruct v; unfold isCancel.
    + apply String.eqb_eq.
    + rewrite orb_true_iff, !String.eqb_eq. reflexivity.
    + split; [apply isCancel_Part000_equal | intros H; exact H].
  - intros Hc.
    destruct (handleState_broadcast_cancel v msg s Hc) as (Hv & Htr & Hus & Htd & _).
    cbn zeta in *. rewrite Htr, Hus, Htd.
    match goal with
    | |- context [showMainMenu ?c ?s1] =>
        destruct (calm_run _ s1 (showMainMenu_calm c)) as (_ & _ & Hq);
        destruct (showMainMenu_onlyChat c s1 I) as [_ Hoc]
    end.
    repeat split; try assumption.
    + apply lookup_delete_eq.
    + apply lookup_delete_eq.
    + apply quiet_deliveries, Hq.
    + apply quiet_reports, Hq.
  - intros Hc. rewrite handleState_broadcast.
    destruct (sendBroadcastMessage_spec v (MChatID msg) _ s Hc)
      as (attempts & Hval & Hdel & Hrep & Hrec & _).
    cbn zeta in *. rewrite (bind_some _ _ _ _ Hval). rewrite resetState_run.
    cbn [trace post value]. rewrite app_nil_r.
    exists attempts. repeat split; try assumption.
    cbn. apply lookup_delete_eq.
Qed.

Lemma C3_broadcast_text_step_witness :
  let s := demoState "private" [1; 2] [(1, "broadcast_message")] [] in
  let abort := handleState (E := demoEnv) Part001 (textMessage 1 " /cancel ")
                 "broadcast_message" s in
  let send := handleState (E := demoEnv) Part001 (textMessage 1 "hello all")
                "broadcast_message" s in
  (value abort = Some tt
   /\ userStates (post abort) !! 1 = None
   /\ tempUserData (post abort) !! 1 = None
   /\ trace abort = trace (showMainMenu 1 (post (resetState 1 s)))
   /\ Forall (onlyChat 1) (trace abort)
   /\ deliveries (trace abort) = [] /\ reports (trace abort) = [])
  /\ exists attempts : list Attempt,
       value send = Some tt
       /\ deliveries (trace send)
          = map (fun a => (SessionChatID (session a), "hello all", result a)) attempts
       /\ map recipient attempts
          ≡ₚ filter (fun k => k <> 1) (map_to_list (activeChats s)).*1
       /\ reports (trace send) = [(countSent attempts, countFailed attempts)]
       /\ userStates (post send) !! 1 = None.
Proof.
  intros s.
  destruct (C3_broadcast_text_step (E := demoEnv) Part001 (textMessage 1 " /cancel ") s)
    as (_ & Habort & _).
  destruct (C3_broadcast_text_step (E := demoEnv) Part001 (textMessage 1 "hello all") s)
    as (_ & _ & Hsend).
  split; [apply Habort; reflexivity | apply Hsend; reflexivity].
Defined.

(** ** Session upsert and access control *)

(** Side conditions of a proof that the registry keeps a user. *)
Ltac registered_side :=
  first [ intros ? ? ?; assumption
        | intros; done
        | exact I
        | intros; unfold registered in *; cbn in *;
          match goal with
          | |- is_Some (<[_ := _]> _ !! _) => rewrite lookup_insert_is_Some'; auto
          end
        | idtac ].

Section Upsert.
Context {E : Env}.

Lemma saveChatSession_registers v userID chatID username s :
  registered userID (post (saveChatSession v userID chatID username s)).
Proof.
  unfold registered, saveChatSession. destruct v.
  - rewrite bind_get. destruct (activeChats s !! userID) eqn:Hl.
    + cbn. rewrite Hl. eauto.
    + rewrite (bind_step (peek _) _ _ _ _ _ eq_refl).
      rewrite (bind_step (modify _) _ _ _ _ _ eq_refl). cbn [trace post value app].
      match goal with
      | |- context [saveChats ?s1] =>
          destruct (calm_run _ s1 saveChats_calm) as (_ & (_ & _ & Hac & _) & _);
          rewrite Hac
      end.
      cbn. rewrite lookup_insert_eq. eauto.
  - rewrite (bind_step (peek _) _ _ _ _ _ eq_refl).
    rewrite (bind_step (modify _) _ _ _ _ _ eq_refl). rewrite bind_get.
    cbn [trace post value app].
    match goal with
    | |- context [bind (Since ?t) ?k ?s1] =>
        assert (Hkeep : sat (fun s => activeChats s = activeChats s1) anyEvent
                          (bind (Since t) k))
    end.
    { sat_go ltac:(first [ intros ? ? ?; assumption | intros; done | exact I | idtac ]). }
    match goal with
    | Hkeep : sat _ _ ?m |- context [?m ?s1] =>
        destruct (Hkeep s1 eq_refl) as [Hac _]; rewrite Hac
    end.
    cbn. rewrite lookup_insert_eq. eauto.
  - rewrite (bind_step (peek _) _ _ _ _ _ eq_refl).
    rewrite (bind_step (modify _) _ _ _ _ _ eq_refl). rewrite bind_get.
    cbn [trace post value app].
    match goal with
    | |- context [bind (Since ?t) ?k ?s1] =>
        assert (Hkeep : sat (fun s => activeChats s = activeChats s1) anyEvent
                          (bind (Since t) k))
    end.
    { sat_go ltac:(first [ intros ? ? ?; assumption | intros; done | exact I | idtac ]). }
    match goal with
    | Hkeep : sat _ _ ?m |- context [?m ?s1] =>
        destruct (Hkeep s1 eq_refl) as [Hac _]; rewrite Hac
    end.
    cbn. rewrite lookup_insert_eq. eauto.
Qed.

(** The revisions never delete from the registry. *)
Lemma broadcastLoop_registered u v message keys :
  v <> Part001 ->
  forall t, sat (registered u) anyEvent (broadcastLoop v message keys t).
Proof.
  intros Hv. induction keys as [|k rest IH]; intros t; cbn [broadcastLoop].
  - apply sat_ret.
  - destruct v; [contradiction| |]; sat_go ltac:(registered_side); try apply IH.
Qed.

Lemma privateLoop_registered u msg keys :
  sat (registered u) anyEvent (privateLoop msg keys).
Proof.
  induction keys as [|k rest IH]; cbn [privateLoop].
  - apply sat_ret.
  - sat_go ltac:(registered_side).
Qed.

Lemma packFiles_registered u files :
  sat (registered u) anyEvent (packFiles files).
Proof.
  induction files as [|k rest IH]; cbn [packFiles].
  - apply sat_ret.
  - sat_go ltac:(registered_side).
Qed.

End Upsert.

(** In [part_001] a button click of a user who is turned away leaves no
    session: user 2 clicks in private mode, gets the access-denied answer,
    and is not in the registry afterwards. *)
Lemma C5_counterexample :
  let s := demoState "private" [1] [] [] in
  let o := handleCallback (E := demoEnv) Part001 (click 2 "menu_create") s in
  isAllowed (config s) 2 = false
  /\ acks (trace o) = [("q1", "Akses Ditolak")]
  /\ activeChats (post o) !! 2 = None.
Proof. vm_compute. repeat split. Qed.

(** C5, amended.  A text message upserts the sender's session before the
    access check in every variant, so the registry holds the session after
    a message that was turned away with the access-denied notice; in
    [zivpn-bot.go] and [part_000] it holds the sender's session after every
    message and after every button click, allowed or not, a denied click
    being answered "Akses Ditolak".  In [part_001] the access check of
    [handleCallback] comes before the upsert: a denied click is answered and
    leaves the registry as it was. *)
Theorem C5_session_recorded {E : Env} :
  (forall v (msg : TgMessage) s,
     let saved := saveChatSession v (MFromID msg) (MChatID msg) (MFromUserName msg) s in
     let o := handleMessage v msg s in
     registered (MFromID msg) (post saved)
     /\ (isAllowed (config s) (MFromID msg) = false ->
         registered (MFromID msg) (post o)
         /\ trace o = trace saved ++
              trace (replyError (MChatID msg)
                       (Lit "⛔ Akses Ditolak. Bot ini Private.") (post saved))))
  /\ (forall v (msg : TgMessage) s,
        v <> Part001 -> registered (MFromID msg) (post (handleMessage v msg s)))
  /\ (forall v (query : CallbackQuery) s,
        v <> Part001 ->
        let o := handleCallback v query s in
        registered (QFromID query) (post o)
        /\ (denied (config s) query = true ->
            acks (trace o) = [(QID query, "Akses Ditolak")]))
  /\ (forall (query : CallbackQuery) s,
        denied (config s) query = true ->
        let o := handleCallback Part001 query s in
        acks (trace o) = [(QID query, "Akses Ditolak")]
        /\ activeChats (post o) = activeChats s).
Proof.
  split; [|split; [|split]].
  - intros v msg s. cbn zeta.
    split; [apply saveChatSession_registers|]. intros Hdeny.
    unfold handleMessage.
    destruct (saveChatSession_run v (MFromID msg) (MChatID msg) (MFromUserName msg) s)
      as [Hval (_ & _ & Hcf)].
    rewrite (bind_some _ _ _ _ Hval). rewrite bind_get. rewrite Hcf, Hdeny.
    cbn [negb trace post value].
    split; [|reflexivity].
    match goal with
    | |- registered ?u (post (?m ?s1)) =>
        assert (Hm : sat (registered u) anyEvent m) by sat_go ltac:(registered_side);
        apply (Hm s1), saveChatSession_registers
    end.
  - intros v msg s Hv. unfold handleMessage.
    destruct (saveChatSession_run v (MFromID msg) (MChatID msg) (MFromUserName msg) s)
      as [Hval _].
    rewrite (bind_some _ _ _ _ Hval). cbn [post].
    match goal with
    | |- registered ?u (post (?m ?s1)) =>
        assert (Hm : sat (registered u) anyEvent m);
        [| apply (Hm s1), saveChatSession_registers]
    end.
    pose proof (broadcastLoop_registered (MFromID msg) v) as Hloop.
    pose proof (privateLoop_registered (MFromID msg)) as Hpl.
    pose proof (packFiles_registered (MFromID msg)) as Hpf.
    destruct v; [contradiction| |]; sat_go ltac:(registered_side);
      first [ apply Hloop; discriminate | apply Hpl | apply Hpf ].
  - intros v query s Hv. cbn zeta.
    destruct (saveChatSession_run v (QFromID query) (QChatID query) (QFromUserName query) s)
      as [Hval (_ & _ & Hcf)].
    assert (Hquiet : Forall quiet
              (trace (saveChatSession v (QFromID query) (QChatID query)
                        (QFromUserName query) s))).
    { assert (Hs : sat (fun _ => True) quiet
                     (saveChatSession v (QFromID query) (QChatID query)
                        (QFromUserName query))).
      { destruct v; sat_go ltac:(first [ exact (fun _ _ => I) | exact (fun _ _ _ => I)
                                       | intros; done | idtac ]). }
      apply (Hs s I). }
    split.
    + assert (Heq : handleCallback v query s
                    = bind (saveChatSession v (QFromID query) (QChatID query)
                              (QFromUserName query))
                        (fun _ => s' <- get ;;
                           if denied (config s') query
                           then Request (Callback (QID query) "Akses Ditolak")
                           else (caseBody v (switchCase v (QData query)) query ;;;
                                 Request (Callback (QID query) ""))) s)
        by (destruct v; [contradiction | reflexivity | reflexivity]).
      rewrite Heq. rewrite (bind_some _ _ _ _ Hval). cbn [post].
      match goal with
      | |- registered ?u (post (?m ?s1)) =>
          assert (Hm : sat (registered u) anyEvent m);
          [| apply (Hm s1), saveChatSession_registers]
      end.
      pose proof (broadcastLoop_registered (QFromID query) v) as Hloop.
      pose proof (privateLoop_registered (QFromID query)) as Hpl.
      pose proof (packFiles_registered (QFromID query)) as Hpf.
      destruct v; [contradiction| |]; sat_go ltac:(registered_side);
        first [ apply Hloop; discriminate | apply Hpl | apply Hpf ].
    + intros Hd. destruct v; [contradiction| |]; unfold handleCallback;
        rewrite (bind_some _ _ _ _ Hval); rewrite bind_get; rewrite Hcf, Hd;
        cbn [trace post value]; rewrite acks_app, (quiet_acks _ Hquiet); reflexivity.
  - intros query s Hd. cbn zeta. unfold handleCallback.
    rewrite bind_get, Hd. split; reflexivity.
Qed.

Lemma C5_session_recorded_witness :
  let s := demoState "private" [1] [] [] in
  (let o := handleMessage (E := demoEnv) Part001 (textMessage 2 "/start") s in
   registered 2 (post o))
  /\ registered 2 (post (handleMessage (E := demoEnv) ZivpnBot (textMessage 2 "hi") s))
  /\ (let o := handleCallback (E := demoEnv) ZivpnBot (click 2 "menu_create") s in
      registered 2 (post o) /\ acks (trace o) = [("q1", "Akses Ditolak")])
  /\ (let o := handleCallback (E := demoEnv) Part001 (click 2 "menu_create") s in
      acks (trace o) = [("q1", "Akses Ditolak")]
      /\ activeChats (post o) = activeChats s).
Proof.
  intros s.
  destruct (C5_session_recorded (E := demoEnv)) as (Hmsg & Hany & Hclick & Hold).
  split; [|split; [|split]].
  - apply (Hmsg Part001 (textMessage 2 "/start") s). reflexivity.
  - apply (Hany ZivpnBot (textMessage 2 "hi") s). discriminate.
  - destruct (Hclick ZivpnBot (click 2 "menu_create") s ltac:(discriminate)) as [Hr Ha].
    split; [exact Hr | apply Ha; reflexivity].
  - apply (Hold (click 2 "menu_create") s). reflexivity.
Defined.

(** ** Acknowledgment of button clicks *)

Ltac noAck_side :=
  first [ exact (fun _ _ => I) | exact (fun _ _ _ => I)
        | intros; reflexivity | reflexivity | idtac ].

Section Acknowledge.
Context {E : Env}.

Lemma noAck_acks t : Forall noAck t -> acks t = [].
Proof.
  induction 1 as [|e t Ha _ IH]; [reflexivity|].
  unfold acks in *. cbn. rewrite Ha. exact IH.
Qed.

Lemma broadcastLoop_noAck v message keys :
  forall t, sat (fun _ => True) noAck (broadcastLoop v message keys t).
Proof.
  induction keys as [|k rest IH]; intros t; cbn [broadcastLoop].
  - apply sat_ret.
  - destruct v; sat_go ltac:(noAck_side); try apply IH.
Qed.

Lemma privateLoop_noAck msg keys :
  sat (fun _ => True) noAck (privateLoop msg keys).
Proof.
  induction keys as [|k rest IH]; cbn [privateLoop].
  - apply sat_ret.
  - sat_go ltac:(noAck_side).
Qed.

Lemma packFiles_noAck files :
  sat (fun _ => True) noAck (packFiles files).
Proof.
  induction files as [|k rest IH]; cbn [packFiles].
  - apply sat_ret.
  - sat_go ltac:(noAck_side).
Qed.

Lemma saveChatSession_noAck v userID chatID username :
  sat (fun _ => True) noAck (saveChatSession v userID chatID username).
Proof. destruct v; sat_go ltac:(noAck_side). Qed.

(** No case body acknowledges the click, but the [default] of the
    revisions. *)
Lemma caseBody_noAck v c query :
  v = Part001 \/ c <> no_case ->
  sat (fun _ => True) noAck (caseBody v c query).
Proof.
  intros Hc.
  pose proof (broadcastLoop_noAck v) as Hloop.
  pose proof privateLoop_noAck as Hpl.
  pose proof packFiles_noAck as Hpf.
  destruct c; try (destruct Hc as [->|Hc]; [|try contradiction]);
    try (destruct v); sat_go ltac:(noAck_side);
    first [ apply Hloop | apply Hpl | apply Hpf ].
Qed.

(** A click that is let in: the session is saved, the case body runs, and
    the query is answered. *)
Lemma handleCallback_allowed v query s :
  denied (config s) query = false ->
  let saved := saveChatSession v (QFromID query) (QChatID query) (QFromUserName query) s in
  let o := bind (caseBody v (switchCase v (QData query)) query)
                (fun _ => Request (Callback (QID query) "")) (post saved) in
  handleCallback v query s = mkOut (trace saved ++ trace o) (post o) (value o).
Proof.
  intros Hd. cbn zeta.
  destruct (saveChatSession_run v (QFromID query) (QChatID query) (QFromUserName query) s)
    as [Hval (_ & _ & Hcf)].
  unfold handleCallback. destruct v.
  - rewrite bind_get, Hd. rewrite (bind_some _ _ _ _ Hval). reflexivity.
  - rewrite (bind_some _ _ _ _ Hval). rewrite bind_get, Hcf, Hd. reflexivity.
  - rewrite (bind_some _ _ _ _ Hval). rewrite bind_get, Hcf, Hd. reflexivity.
Qed.

(** In [part_001], and in the revisions for a token that some case
    matches, a click that is handled to the end is acknowledged exactly once,
    by the last event. *)
Lemma handleCallback_single_ack v query s :
  v = Part001 \/ switchCase v (QData query) <> no_case ->
  let o := handleCallback v query s in
  value o = Some tt ->
  exists text,
    acks (trace o) = [(QID query, text)]
    /\ last (trace o) = Some (EvRequest (Callback (QID query) text)).
Proof.
  intros Hc. cbn zeta.
  destruct (saveChatSession_run v (QFromID query) (QChatID query) (QFromUserName query) s)
    as [Hval (_ & _ & Hcf)].
  destruct (denied (config s) query) eqn:Hd.
  - intros _. exists "Akses Ditolak". unfold handleCallback. destruct v.
    + rewrite bind_get, Hd. split; reflexivity.
    + rewrite (bind_some _ _ _ _ Hval). rewrite bind_get, Hcf, Hd.
      unfold Request, tell. cbn [trace post value]. rewrite acks_app, last_snoc.
      rewrite (noAck_acks _ (proj2 (saveChatSession_noAck _ _ _ _ s I))).
      split; reflexivity.
    + rewrite (bind_some _ _ _ _ Hval). rewrite bind_get, Hcf, Hd.
      unfold Request, tell. cbn [trace post value]. rewrite acks_app, last_snoc.
      rewrite (noAck_acks _ (proj2 (saveChatSession_noAck _ _ _ _ s I))).
      split; reflexivity.
  - rewrite (handleCallback_allowed v query s Hd). cbn [trace value].
    set (s1 := post (saveChatSession v _ _ _ s)).
    destruct (caseBody_noAck v _ query Hc s1 I) as [_ Hbody].
    destruct (value (caseBody v (switchCase v (QData query)) query s1)) as [[]|] eqn:Hb;
      [rewrite (bind_some _ _ _ _ Hb) | rewrite (bind_none _ _ _ Hb)];
      unfold Request, tell; cbn [trace value]; [|discriminate].
    intros _. exists "". rewrite !app_assoc, last_snoc. split; [|reflexivity].
    rewrite !acks_app. rewrite (noAck_acks _ Hbody).
    rewrite (noAck_acks _ (proj2 (saveChatSession_noAck _ _ _ _ s I))).
    reflexivity.
Qed.

End Acknowledge.

(** C7 (the code at the failing input).  In [zivpn-bot.go] and [part_000] a
    click whose token no case matches is answered twice: the [default] case
    answers it with the notice "Aksi tidak dikenal", and the statement after
    the [switch] answers it again. *)
Theorem C7_unrecognized_acknowledged_twice {E : Env} (v : Variant)
  (query : CallbackQuery) (s : St) :
  v <> Part001 ->
  denied (config s) query = false ->
  switchCase v (QData query) = no_case ->
  let o := handleCallback v query s in
  value o = Some tt
  /\ acks (trace o) = [(QID query, "Aksi tidak dikenal"); (QID query, "")].
Proof.
  intros Hv Hd Hcase. cbn zeta.
  rewrite (handleCallback_allowed v query s Hd). rewrite Hcase.
  cbn [trace value]. rewrite acks_app.
  rewrite (noAck_acks _ (proj2 (saveChatSession_noAck _ _ _ _ s I))).
  destruct v; [contradiction| |]; split; reflexivity.
Qed.

Lemma C7_unrecognized_acknowledged_twice_witness :
  let o := handleCallback (E := demoEnv) ZivpnBot (click 1 "bogus")
             (demoState "private" [1; 2] [] []) in
  value o = Some tt
  /\ acks (trace o) = [("q1", "Aksi tidak dikenal"); ("q1", "")].
Proof.
  apply (C7_unrecognized_acknowledged_twice (E := demoEnv) ZivpnBot (click 1 "bogus")
           (demoState "private" [1; 2] [] [])).
  - discriminate.
  - reflexivity.
  - reflexivity.
Defined.

(** A pagination token without a colon makes [handlePagination] index past
    the end of [parts]: the handler panics and the click is not answered. *)
Example pagination_panic :
  let o := handleCallback (E := demoEnv) Part001 (click 1 "page_x")
             (demoState "private" [1; 2] [] []) in
  value o = None /\ acks (trace o) = [].
Proof. vm_compute. split; reflexivity. Qed.

(** ** Idle free text *)

Lemma saveChatSession_isSave {E : Env} v userID chatID username :
  sat (fun _ => True) isSave (saveChatSession v userID chatID username).
Proof.
  destruct v;
    sat_go ltac:(first [ exact (fun _ _ => I) | exact (fun _ _ _ => I)
                       | intros; exact I | exact I | idtac ]).
Qed.

(** In [part_001] free text outside any flow gets no reply: the handler
    causes no event at all for a user already recorded. *)
Lemma C8_counterexample :
  let s := demoState "public" [1; 2] [] [] in
  let msg := textMessage 2 "hello" in
  isAllowed (config s) 2 = true
  /\ userStates s !! 2 = None
  /\ MCommand msg = None
  /\ trace (handleMessage (E := demoEnv) Part001 msg s) = [].
Proof. vm_compute. repeat split. Qed.

(** C8, amended.  For a text message of an allowed user who has no
    conversation state and whose message is not a command: in
    [zivpn-bot.go] and [part_000] the handler, having saved the session,
    shows the idle main menu and does nothing else; in [part_001] it only
    saves the session and sends no reply.  Saving the session causes no
    event but the write of the chats file. *)
Theorem C8_idle_free_text {E : Env} (v : Variant) (msg : TgMessage) (s : St) :
  isAllowed (config s) (MFromID msg) = true ->
  userStates s !! MFromID msg = None ->
  MCommand msg = None ->
  let saved := saveChatSession v (MFromID msg) (MChatID msg) (MFromUserName msg) s in
  let menu := showMainMenu (MChatID msg) (post saved) in
  let o := handleMessage v msg s in
  value o = Some tt
  /\ Forall isSave (trace saved)
  /\ match v with
     | Part001 => trace o = trace saved /\ post o = post saved
     | ZivpnBot | Part000 => trace o = trace saved ++ trace menu /\ post o = post menu
     end.
Proof.
  intros Hallow Hstate Hcmd. cbn zeta.
  destruct (saveChatSession_run v (MFromID msg) (MChatID msg) (MFromUserName msg) s)
    as [Hval (Hus & _ & Hcf)].
  unfold handleMessage. rewrite (bind_some _ _ _ _ Hval). rewrite bind_get.
  rewrite Hcf, Hallow, Hus, Hstate, Hcmd. cbn [negb].
  rewrite (bool_decide_eq_false_2 (None = Some "waiting_restore_file")) by discriminate.
  rewrite andb_false_r. cbn [trace post value].
  split; [|split; [apply (saveChatSession_isSave v _ _ _ s I)|]].
  - destruct v; [reflexivity | |];
      apply (proj1 (calm_run _ _ (showMainMenu_calm (MChatID msg)))).
  - destruct v; cbn [trace post]; rewrite ?app_nil_r; split; reflexivity.
Qed.

Lemma C8_idle_free_text_witness :
  let s := demoState "public" [1; 2] [] [] in
  let msg := textMessage 2 "hello" in
  let saved := saveChatSession (E := demoEnv) ZivpnBot 2 2 "" s in
  let menu := showMainMenu 2 (post saved) in
  let o := handleMessage ZivpnBot msg s in
  value o = Some tt
  /\ Forall isSave (trace saved)
  /\ trace o = trace saved ++ trace menu /\ post o = post menu.
Proof.
  apply (C8_idle_free_text (E := demoEnv) ZivpnBot (textMessage 2 "hello")
           (demoState "public" [1; 2] [] [])); reflexivity.
Defined.

(** ** The pagers *)

Section Pagers.
Context {E : Env}.

Lemma getUsers_total v : total (getUsers v).
Proof. destruct v; total_go. Qed.

(** The accounts [getUsers] returns are what [json.Unmarshal] left. *)
Lemma getUsers_decoded v s users :
  value (getUsers v s) = Some (inr users) ->
  exists j, users = (unmarshalUsers j).1.
Proof.
  unfold getUsers, ApiCall. rewrite (bind_step (ask _ _) _ _ _ _ _ eq_refl).
  cbn [trace post value app].
  destruct (apiCall "GET" "/users" [] (world s)) as [[err|res] w]; cbn [fst snd].
  - cbn. discriminate.
  - destruct v; destruct (isTrue (field "success" res)); cbn [negb];
      try (cbn; discriminate).
    + cbn. intros [= <-]. eauto.
    + destruct (field "data" res) as [[]|] eqn:Hd; try (cbn; discriminate).
      destruct (unmarshalUsers (Some (JArr items))) as [us []] eqn:Hu;
        cbn; [|discriminate].
      intros [= <-]. exists (Some (JArr items)). rewrite Hu. reflexivity.
    + destruct (field "data" res) as [[]|] eqn:Hd; try (cbn; discriminate).
      destruct (unmarshalUsers (Some (JArr items))) as [us []] eqn:Hu;
        cbn; [|discriminate].
      intros [= <-]. exists (Some (JArr items)). rewrite Hu. reflexivity.
Qed.

Lemma sendAndTrack_total msg : total (sendAndTrack msg).
Proof. total_go. Qed.

Lemma replyError_total chatID text : total (replyError chatID text).
Proof. total_go. Qed.

Lemma showUserSelection_returns v chatID page action s :
  (forall j, Z.of_nat (List.length (unmarshalUsers j).1) + 10 <= Go.MaxInt) ->
  value (showUserSelection v chatID page action s) = Some tt.
Proof.
  intros Hbound. unfold showUserSelection.
  destruct (getUsers_total v s) as [r Hr]. rewrite (bind_some _ _ _ _ Hr).
  cbn [value]. destruct r as [err|users].
  - apply total_unit, replyError_total.
  - destruct (Z.of_nat (List.length users) =? 0) eqn:Hn.
    + apply total_unit, sendMessage_total.
    + destruct (getUsers_decoded v s users Hr) as [j ->].
      destruct (pager_slice 10 (unmarshalUsers j).1 page) as
        (p & t & st & en & Hpw & _ & _ & _ & Hsl).
      * left. reflexivity.
      * intros Hnil. rewrite Hnil in Hn. discriminate.
      * apply Hbound.
      * rewrite Hpw, Hsl. apply total_unit, sendAndTrack_total.
Qed.

Lemma showUserSelectionForMessage_returns v chatID page s :
  (forall j, Z.of_nat (List.length (unmarshalUsers j).1) + 10 <= Go.MaxInt) ->
  value (showUserSelectionForMessage v chatID page s) = Some tt.
Proof.
  intros Hbound. unfold showUserSelectionForMessage.
  destruct (getUsers_total v s) as [r Hr]. rewrite (bind_some _ _ _ _ Hr).
  cbn [value]. destruct r as [err|users].
  - destruct v; apply total_unit, replyError_total.
  - destruct (Z.of_nat (List.length users) =? 0) eqn:Hn.
    + apply total_unit, sendMessage_total.
    + rewrite bind_get.
      destruct (getUsers_decoded v s users Hr) as [j ->].
      destruct (pager_slice 8 (unmarshalUsers j).1 page) as
        (p & t & st & en & Hpw & _ & _ & _ & Hsl).
      * right. reflexivity.
      * intros Hnil. rewrite Hnil in Hn. discriminate.
      * specialize (Hbound j). lia.
      * rewrite Hpw, Hsl. apply total_unit, sendAndTrack_total.
Qed.

End Pagers.

(** C10.  For a non-empty account list and any page number, the pager
    clamps the page into [1, totalPages], and the bounds of the slice it
    shows satisfy 0 <= start <= end <= len(users), so that the slice
    expression [users[start:end]] does not panic.  This holds for the page
    sizes of both pagers (ten and eight); the length is that of a Go slice,
    which leaves room for [len(users) + perPage] in an [int].  Hence
    [showUserSelection] and [showUserSelectionForMessage] return, whatever
    the page and the accounts the API answers with. *)
Theorem C10_pager_in_bounds {E : Env} :
  (forall (perPage : Z) (users : list UserData) (page : Z),
     perPage = 10 \/ perPage = 8 ->
     users <> [] ->
     Z.of_nat (List.length users) + perPage <= Go.MaxInt ->
     exists page' totalPages start end_,
       pageWindow perPage (Z.of_nat (List.length users)) page
         = (page', totalPages, start, end_)
       /\ 1 <= page' <= totalPages
       /\ 0 <= start <= end_
       /\ end_ <= Z.of_nat (List.length users)
       /\ Go.slice users start end_
          = Some (take (Z.to_nat (end_ - start)) (drop (Z.to_nat start) users)))
  /\ ((forall j, Z.of_nat (List.length (unmarshalUsers j).1) + 10 <= Go.MaxInt) ->
      forall v chatID page action s,
        value (showUserSelection v chatID page action s) = Some tt
        /\ value (showUserSelectionForMessage v chatID page s) = Some tt).
Proof.
  split; [exact pager_slice|].
  intros Hbound v chatID page action s. split.
  - apply showUserSelection_returns, Hbound.
  - apply showUserSelectionForMessage_returns, Hbound.
Qed.

Lemma C10_pager_in_bounds_witness :
  (exists page' totalPages start end_,
     pageWindow 10 (Z.of_nat (List.length demoUsers)) (-7)
       = (page', totalPages, start, end_)
     /\ 1 <= page' <= totalPages
     /\ 0 <= start <= end_
     /\ end_ <= Z.of_nat (List.length demoUsers)
     /\ Go.slice demoUsers start end_
        = Some (take (Z.to_nat (end_ - start)) (drop (Z.to_nat start) demoUsers)))
  /\ value (showUserSelection (E := demoEnv) Part001 1 (Go.Atoi "99999999999999999999").1
              "delete" (demoState "public" [1] [] [])) = Some tt
  /\ value (showUserSelectionForMessage (E := demoEnv) Part001 1 (-3)
              (demoState "public" [1] [] [])) = Some tt.
Proof.
  destruct (C10_pager_in_bounds (E := demoEnv)) as [Hpure Hrun].
  split.
  - apply (Hpure 10 demoUsers (-7)).
    + left. reflexivity.
    + discriminate.
    + vm_compute. discriminate.
  - assert (Hbound : forall j : option Json,
              Z.of_nat (List.length (unmarshalUsers j).1) + 10 <= Go.MaxInt).
    { intros j. vm_compute. discriminate. }
    split.
    + exact (proj1 (Hrun Hbound Part001 1 (Go.Atoi "99999999999999999999").1
                      "delete" (demoState "public" [1] [] []))).
    + exact (proj2 (Hrun Hbound Part001 1 (-3) "delete"
                      (demoState "public" [1] [] []))).
Defined.

(** * Further properties of the code *)

(** ** Pages of the selection pagers *)

Lemma pageWindow_page (perPage n i : Z) :
  perPage = 10 \/ perPage = 8 -> 0 <= i < n -> n + perPage <= Go.MaxInt ->
  let p := i / perPage + 1 in
  exists totalPages start end_,
    pageWindow perPage n p = (p, totalPages, start, end_)
    /\ 0 <= start <= i /\ i < end_ <= n.
Proof.
  intros Hpp Hi Hmax p.
  destruct (pageWindow_eq perPage n p ltac:(lia) ltac:(lia) Hmax) as (Heq & Hpage & Hstart).
  cbv zeta in Heq, Hpage, Hstart.
  assert (Hp : Z.min ((n + perPage - 1) / perPage) (Z.max 1 p) = p).
  { subst p. destruct Hpp as [-> | ->]; Z.div_mod_to_equations; lia. }
  rewrite Hp in Heq, Hpage, Hstart.
  eexists _, _, _. split; [exact Heq|].
  subst p. destruct Hpp as [-> | ->]; Z.div_mod_to_equations; lia.
Qed.

Lemma pageWindow_unique (perPage n i q page' totalPages start end_ : Z) :
  perPage = 10 \/ perPage = 8 -> 0 <= i < n -> n + perPage <= Go.MaxInt ->
  pageWindow perPage n q = (page', totalPages, start, end_) ->
  start <= i < end_ -> page' = i / perPage + 1.
Proof.
  intros Hpp Hi Hmax Hw Hin.
  destruct (pageWindow_eq perPage n q ltac:(lia) ltac:(lia) Hmax) as (Heq & Hpage & Hstart).
  cbv zeta in Heq, Hpage, Hstart. rewrite Heq in Hw.
  injection Hw as <- <- <- <-.
  destruct Hpp as [-> | ->]; Z.div_mod_to_equations; lia.
Qed.

(** X1.  Every account is on exactly one page of a selection pager: the
    account at index [i] of the list the API returned is shown, at its place,
    on page [i / perPage + 1], which is a page the pager does not clamp; and
    any requested page whose window holds index [i] is shown as that page. *)
Theorem X1_account_on_one_page (perPage : Z) (users : list UserData) (i : nat)
  (u : UserData) :
  perPage = 10 \/ perPage = 8 ->
  users !! i = Some u ->
  Z.of_nat (List.length users) + perPage <= Go.MaxInt ->
  let n := Z.of_nat (List.length users) in
  let p := Z.of_nat i / perPage + 1 in
  (exists totalPages start end_ shown,
     pageWindow perPage n p = (p, totalPages, start, end_)
     /\ Go.slice users start end_ = Some shown
     /\ shown !! (i - Z.to_nat start)%nat = Some u)
  /\ (forall q page' totalPages start end_,
        pageWindow perPage n q = (page', totalPages, start, end_) ->
        start <= Z.of_nat i < end_ -> page' = p).
Proof.
  intros Hpp Hu Hmax n p.
  assert (Hi : 0 <= Z.of_nat i < n).
  { apply lookup_lt_Some in Hu. subst n. lia. }
  split.
  - destruct (pageWindow_page perPage n (Z.of_nat i) Hpp Hi Hmax)
      as (totalPages & start & end_ & Hw & Hs & He).
    exists totalPages, start, end_, (take (Z.to_nat (end_ - start)) (drop (Z.to_nat start) users)).
    split; [exact Hw|]. split.
    + unfold Go.slice. fold n.
      destruct (Z.leb_spec 0 start); [|lia].
      destruct (Z.leb_spec start end_); [|lia].
      destruct (Z.leb_spec end_ n); [|lia]. reflexivity.
    + rewrite lookup_take_lt by lia. rewrite lookup_drop.
      replace (Z.to_nat start + (i - Z.to_nat start))%nat with i by lia. exact Hu.
  - intros q page' totalPages start end_ Hw Hin.
    exact (pageWindow_unique perPage n (Z.of_nat i) q page' totalPages start end_
             Hpp Hi Hmax Hw Hin).
Qed.

Lemma X1_account_on_one_page_witness :
  let u := {| Password := "bob"; Expired := "2031-05-01"; Status := "Expired";
              IpLimit := 2 |} in
  let users := replicate 9 u ++ demoUsers in
  (exists totalPages start end_ shown,
     pageWindow 8 10 2 = (2, totalPages, start, end_)
     /\ Go.slice users start end_ = Some shown
     /\ shown !! (9 - Z.to_nat start)%nat = head demoUsers)
  /\ (forall q page' totalPages start end_,
        pageWindow 8 10 q = (page', totalPages, start, end_) ->
        start <= 9 < end_ -> page' = 2).
Proof.
  intros u users.
  apply (X1_account_on_one_page 8 users 9).
  - right. reflexivity.
  - reflexivity.
  - vm_compute. discriminate.
Defined.

(** X2.  A page of a selection pager is never empty and never longer than
    the page size; every page before the last one is full, and the page shown
    starts at [(page - 1) * perPage]. *)
Theorem X2_page_size (perPage : Z) (users : list UserData) (page : Z) :
  perPage = 10 \/ perPage = 8 ->
  users <> [] ->
  Z.of_nat (List.length users) + perPage <= Go.MaxInt ->
  exists page' totalPages start end_ shown,
    pageWindow perPage (Z.of_nat (List.length users)) page
      = (page', totalPages, start, end_)
    /\ Go.slice users start end_ = Some shown
    /\ start = (page' - 1) * perPage
    /\ 1 <= Z.of_nat (List.length shown) <= perPage
    /\ (page' < totalPages -> Z.of_nat (List.length shown) = perPage)
    /\ (page' = totalPages ->
        Z.of_nat (List.length shown)
        = Z.of_nat (List.length users) - (totalPages - 1) * perPage).
Proof.
  intros Hpp Hne Hmax.
  assert (Hn : 1 <= Z.of_nat (List.length users)).
  { destruct users; [congruence | cbn [List.length]; lia]. }
  destruct (pageWindow_eq perPage _ page ltac:(lia) Hn Hmax) as (Heq & Hpage & Hstart).
  cbv zeta in Heq, Hpage, Hstart.
  set (n := Z.of_nat (List.length users)) in *.
  set (T := (n + perPage - 1) / perPage) in *.
  set (p := Z.min T (Z.max 1 page)) in *.
  assert (HT : perPage * T <= n + perPage - 1 < perPage * T + perPage).
  { subst T. destruct Hpp as [-> | ->]; Z.div_mod_to_equations; lia. }
  assert (H0 : 0 <= (p - 1) * perPage) by nia.
  exists p, T, ((p - 1) * perPage), (Z.min n ((p - 1) * perPage + perPage)),
    (take (Z.to_nat (Z.min n ((p - 1) * perPage + perPage) - (p - 1) * perPage))
          (drop (Z.to_nat ((p - 1) * perPage)) users)).
  split; [exact Heq|]. split.
  { unfold Go.slice. fold n.
    destruct (Z.leb_spec 0 ((p - 1) * perPage)); [|lia].
    destruct (Z.leb_spec ((p - 1) * perPage) (Z.min n ((p - 1) * perPage + perPage))); [|lia].
    destruct (Z.leb_spec (Z.min n ((p - 1) * perPage + perPage)) n); [|lia].
    reflexivity. }
  split; [reflexivity|].
  rewrite length_take, length_drop.
  fold n in Hn.
  assert (Hlen : Z.of_nat (List.length users) = n) by reflexivity.
  split; [|split].
  - lia.
  - intros Hlt. assert ((p - 1) * perPage + perPage <= n) by nia. lia.
  - intros ->. assert (n <= (T - 1) * perPage + perPage) by nia. lia.
Qed.

Lemma X2_page_size_witness :
  let users := demoUsers ++ demoUsers ++ demoUsers in
  exists page' totalPages start end_ shown,
    pageWindow 10 (Z.of_nat (List.length users)) 7
      = (page', totalPages, start, end_)
    /\ Go.slice users start end_ = Some shown
    /\ start = (page' - 1) * 10
    /\ 1 <= Z.of_nat (List.length shown) <= 10
    /\ (page' < totalPages -> Z.of_nat (List.length shown) = 10)
    /\ (page' = totalPages ->
        Z.of_nat (List.length shown)
        = Z.of_nat (List.length users) - (totalPages - 1) * 10).
Proof.
  intros users. apply (X2_page_size 10 users 7).
  - left. reflexivity.
  - discriminate.
  - vm_compute. discriminate.
Defined.

(** ** Strings *)

Lemma substring_all (s : string) : substring 0 (String.length s) s = s.
Proof. induction s as [|c s IH]; cbn; [reflexivity | rewrite IH; reflexivity]. Qed.

Lemma substring_length (n : nat) (s : string) :
  String.length (substring 0 n s) = Nat.min n (String.length s).
Proof.
  revert n. induction s as [|c s IH]; intros [|n]; cbn; try reflexivity.
  rewrite IH. reflexivity.
Qed.

Lemma substring_prefix (n : nat) (s : string) :
  String.prefix (substring 0 n s) s = true.
Proof.
  revert n. induction s as [|c s IH]; intros [|n]; cbn; try reflexivity.
  destruct (ascii_dec c c); [apply IH | contradiction].
Qed.

Lemma append_length (a b : string) :
  String.length (a +:+ b) = (String.length a + String.length b)%nat.
Proof.
  induction a as [|c a IH]; [reflexivity|].
  change (S (String.length (a +:+ b)) = S (String.length a + String.length b)).
  rewrite IH. reflexivity.
Qed.

Lemma append_cons (c : ascii) (a b : string) : String c a +:+ b = String c (a +:+ b).
Proof. reflexivity. Qed.

Lemma append_nil (b : string) : "" +:+ b = b.
Proof. reflexivity. Qed.

Lemma string_prefix_nil (s : string) : String.prefix "" s = true.
Proof. destruct s; reflexivity. Qed.

Lemma string_prefix_append (p rest : string) : String.prefix p (p +:+ rest) = true.
Proof.
  induction p as [|c p IH]; [apply string_prefix_nil|]. rewrite append_cons. cbn.
  destruct (ascii_dec c c); [exact IH | contradiction].
Qed.

Lemma TrimPrefix_append (p rest : string) : Go.TrimPrefix (p +:+ rest) p = rest.
Proof.
  unfold Go.TrimPrefix, Go.HasPrefix. rewrite string_prefix_append, append_length.
  replace (String.length p + String.length rest - String.length p)%nat
    with (String.length rest) by lia.
  induction p as [|c p IH].
  - rewrite append_nil. apply substring_all.
  - rewrite append_cons. cbn [String.length substring]. exact IH.
Qed.

Lemma Split_no_sep (s : string) (sep : ascii) :
  sep ∉ Go.bytes s -> Go.Split s sep = [s].
Proof.
  induction s as [|c s IH]; intros Hs; [reflexivity|].
  cbn in Hs. apply not_elem_of_cons in Hs as [Hc Hs].
  cbn. destruct (Ascii.eqb_spec c sep) as [->|_]; [contradiction|].
  rewrite IH by exact Hs. reflexivity.
Qed.

Lemma Split_append (a rest : string) (sep : ascii) :
  sep ∉ Go.bytes a ->
  Go.Split (a +:+ String sep rest) sep = a :: Go.Split rest sep.
Proof.
  induction a as [|c a IH]; intros Ha.
  - rewrite append_nil. cbn. rewrite Ascii.eqb_refl. reflexivity.
  - cbn in Ha. apply not_elem_of_cons in Ha as [Hc Ha].
    rewrite append_cons. cbn.
    destruct (Ascii.eqb_spec c sep) as [->|_]; [contradiction|].
    rewrite IH by exact Ha. reflexivity.
Qed.

(** ** Truncated previews *)

(** X3.  [truncateString] with a non-negative limit returns a text that
    fits the limit unchanged, and otherwise the first [maxLen] bytes of the
    text followed by three dots: the result never has more than [maxLen + 3]
    bytes. *)
Theorem X3_truncateString_bound (s : string) (maxLen : Z) :
  0 <= maxLen ->
  let r := truncateString s maxLen in
  (Go.len s <= maxLen -> r = s)
  /\ (maxLen < Go.len s ->
      exists head, r = head +:+ "..." /\ Go.len head = maxLen
                   /\ Go.HasPrefix s head = true)
  /\ (maxLen < Go.len s -> Go.len r = maxLen + 3).
Proof.
  intros H0. cbv zeta. unfold truncateString, Go.len, Go.HasPrefix.
  destruct (Z.leb_spec (Z.of_nat (String.length s)) maxLen) as [Hle|Hgt].
  - split; [reflexivity|]. split; intros; lia.
  - split; [intros; lia|]. split; intros _.
    + eexists. split; [reflexivity|]. split; [|apply substring_prefix].
      rewrite substring_length. lia.
    + rewrite append_length, substring_length. cbn [String.length]. lia.
Qed.

Lemma X3_truncateString_bound_witness :
  let r := truncateString "selamat datang" 7 in
  (Go.len "selamat datang" <= 7 -> r = "selamat datang")
  /\ (7 < Go.len "selamat datang" ->
      exists head, r = head +:+ "..." /\ Go.len head = 7
                   /\ Go.HasPrefix "selamat datang" head = true)
  /\ (7 < Go.len "selamat datang" -> Go.len r = 7 + 3).
Proof. apply (X3_truncateString_bound "selamat datang" 7). lia. Defined.

(** ** Pagination tokens *)

Lemma eqb_append_false (c : ascii) (p rest : string) (lit : string) :
  match lit with
  | String d _ => Ascii.eqb c d = false
  | EmptyString => True
  end ->
  String.eqb (String c p +:+ rest) lit = false.
Proof.
  destruct lit as [|d lit]; [reflexivity|]. intros H.
  rewrite append_cons. cbn. rewrite H. reflexivity.
Qed.

Lemma switchCase_page (v : Variant) (rest : string) :
  switchCase v ("page_" +:+ rest) = page_.
Proof.
  unfold switchCase.
  rewrite !(eqb_append_false "p" "age_" rest) by reflexivity.
  rewrite andb_false_r. unfold Go.HasPrefix.
  rewrite (string_prefix_append "page_" rest). reflexivity.
Qed.

Lemma sliceStr_page (action : string) :
  Go.sliceStr ("page_" +:+ action) 5 (Go.len ("page_" +:+ action)) = Some action.
Proof.
  unfold Go.sliceStr, Go.len. rewrite append_length.
  change (String.length "page_") with 5%nat.
  destruct (Z.leb_spec 0 5); [|lia].
  destruct (Z.leb_spec 5 (Z.of_nat (5 + String.length action))); [|lia].
  destruct (Z.leb_spec (Z.of_nat (5 + String.length action))
              (Z.of_nat (5 + String.length action))); [|lia].
  cbn [andb]. f_equal.
  replace (Z.to_nat (Z.of_nat (5 + String.length action) - 5))
    with (String.length action) by lia.
  change (Z.to_nat 5) with 5%nat.
  change ("page_" +:+ action) with
    (String "p" (String "a" (String "g" (String "e" (String "_" action))))).
  cbn [substring]. apply substring_all.
Qed.

(** X4.  A pagination token [page_<action>:<page>...] is decoded into what
    the pager encoded: for an action kind without a colon, the click runs
    [showUserSelection] with that action kind and the page number read from
    the text between the first and the second colon. *)
Theorem X4_pagination_token_decoded {E : Env} (v : Variant) (query : CallbackQuery)
  (action rest : string) (s : St) :
  ":"%char ∉ Go.bytes action ->
  QData query = "page_" +:+ action +:+ ":" +:+ rest ->
  switchCase v (QData query) = page_
  /\ caseBody v (switchCase v (QData query)) query s
     = showUserSelection v (QChatID query)
         (Go.Atoi (hd "" (Go.Split rest ":"))).1 action s.
Proof.
  intros Ha Hd. rewrite Hd, switchCase_page. split; [reflexivity|].
  unfold caseBody. rewrite bind_get. rewrite Hd. unfold handlePagination.
  assert (Hsplit : Go.Split ("page_" +:+ action +:+ ":" +:+ rest) ":"
                   = ("page_" +:+ action) :: Go.Split rest ":").
  { change ("page_" +:+ action +:+ ":" +:+ rest)
      with (String "p" (String "a" (String "g" (String "e" (String "_"
              (action +:+ String ":" rest)))))).
    change ("page_" +:+ action)
      with (String "p" (String "a" (String "g" (String "e" (String "_" action))))).
    cbn [Go.Split]. 
    repeat match goal with
           | |- context [Ascii.eqb ?a ?b] =>
               change (Ascii.eqb a b) with false; cbv iota
           end.
    rewrite (Split_append action rest ":" Ha). reflexivity. }
  rewrite Hsplit. cbn [lookup list_lookup].
  rewrite sliceStr_page.
  destruct (Split_nonempty rest ":") as (piece & pieces & ->). reflexivity.
Qed.

Lemma X4_pagination_token_decoded_witness :
  switchCase Part001 "page_delete:2" = page_
  /\ caseBody (E := demoEnv) Part001 (switchCase Part001 "page_delete:2")
       (click 1 "page_delete:2") (demoState "public" [1] [] [])
     = showUserSelection Part001 1 (Go.Atoi (hd "" (Go.Split "2" ":"))).1 "delete"
         (demoState "public" [1] [] []).
Proof.
  apply (X4_pagination_token_decoded (E := demoEnv) Part001 (click 1 "page_delete:2")
           "delete" "2").
  - vm_compute. intros H. repeat (apply elem_of_cons in H as [H|H]; [discriminate|]).
    inversion H.
  - reflexivity.
Defined.

(** X5.  A pagination token without a colon makes [handlePagination] index
    [parts[1]] past the end: for a click that is let in, the handler panics
    after the session upsert, having sent nothing, and the click is never
    answered. *)
Theorem X5_pagination_without_colon {E : Env} (v : Variant) (query : CallbackQuery)
  (s : St) :
  Go.HasPrefix (QData query) "page_" = true ->
  ":"%char ∉ Go.bytes (QData query) ->
  denied (config s) query = false ->
  let saved := saveChatSession v (QFromID query) (QChatID query) (QFromUserName query) s in
  let o := handleCallback v query s in
  value o = None /\ trace o = trace saved /\ post o = post saved
  /\ acks (trace o) = [].
Proof.
  intros Hp Hc Hd. cbv zeta.
  rewrite (handleCallback_allowed v query s Hd).
  assert (Hcase : switchCase v (QData query) = page_).
  { destruct (prefix_split _ _ Hp) as [rest ->]. apply switchCase_page. }
  rewrite Hcase.
  assert (Hbody : forall s1, caseBody v page_ query s1 = mkOut [] s1 None).
  { intros s1. unfold caseBody. rewrite bind_get. unfold handlePagination.
    rewrite (Split_no_sep _ _ Hc). cbn [lookup list_lookup].
    destruct (Go.sliceStr _ _ _); reflexivity. }
  rewrite (bind_none _ _ _ (f_equal value (Hbody _))). rewrite Hbody.
  cbn [trace post value]. rewrite app_nil_r.
  repeat split.
  apply noAck_acks. apply (saveChatSession_noAck v _ _ _ s I).
Qed.

Lemma X5_pagination_without_colon_witness :
  let s := demoState "public" [1; 2] [] [] in
  let saved := saveChatSession (E := demoEnv) ZivpnBot 2 2 "" s in
  let o := handleCallback ZivpnBot (click 2 "page_renew") s in
  value o = None /\ trace o = trace saved /\ post o = post saved
  /\ acks (trace o) = [].
Proof.
  apply (X5_pagination_without_colon (E := demoEnv) ZivpnBot (click 2 "page_renew")
           (demoState "public" [1; 2] [] [])).
  - reflexivity.
  - vm_compute. intros H. repeat (apply elem_of_cons in H as [H|H]; [discriminate|]).
    inversion H.
  - reflexivity.
Defined.

(** ** Access control *)

(** X6.  The exception for the administrator's mode toggle in the access
    control of [handleCallback] never applies: the administrator is always
    allowed, so a click is turned away exactly when [isAllowed] fails, whatever
    its token. *)
Theorem X6_denied_iff_not_allowed (config : BotConfig) (query : CallbackQuery) :
  denied config query = negb (isAllowed config (QFromID query))
  /\ (QFromID query = AdminID config -> denied config query = false).
Proof.
  unfold denied, isAllowed. split.
  - destruct (String.eqb (Mode config) "public"); [reflexivity|]. cbn [orb].
    destruct (QFromID query =? AdminID config); [reflexivity|].
    cbn [negb andb]. apply orb_true_r.
  - intros ->. rewrite Z.eqb_refl, orb_true_r. reflexivity.
Qed.

Lemma X6_denied_iff_not_allowed_witness :
  (denied (demoConfig "private") (click 1 "toggle_mode")
   = negb (isAllowed (demoConfig "private") 1)
   /\ denied (demoConfig "private") (click 2 "toggle_mode")
      = negb (isAllowed (demoConfig "private") 2))
  /\ denied (demoConfig "private") (click 1 "menu_list") = false.
Proof.
  split; [split|].
  - exact (proj1 (X6_denied_iff_not_allowed (demoConfig "private")
                    (click 1 "toggle_mode"))).
  - exact (proj1 (X6_denied_iff_not_allowed (demoConfig "private")
                    (click 2 "toggle_mode"))).
  - exact (proj2 (X6_denied_iff_not_allowed (demoConfig "private")
                    (click 1 "menu_list")) eq_refl).
Defined.

(** ** Menus and the dispatch *)

(** X7.  Every button of the main menu carries a token that some case of
    [handleCallback] matches, in every variant, and a user other than the
    administrator is offered the three account actions only.  The buttons of
    the messaging menu are matched as well, except that [part_001] has no
    case for the token of the Stats button, which the revisions added. *)
Theorem X7_menu_buttons_dispatched (v : Variant) (config : BotConfig) (userID : Z)
  (b : Button) :
  (b ∈ List.concat (getMainMenuKeyboard config userID) ->
   exists data,
     CallbackData b = Lit data /\ switchCase v data <> no_case
     /\ (userID <> AdminID config ->
         data ∈ ["menu_create"; "menu_delete"; "menu_renew"]))
  /\ (b ∈ List.concat messageMenuKeyboard ->
      exists data,
        CallbackData b = Lit data
        /\ (switchCase v data = no_case <-> v = Part001 /\ data = "msg_stats")).
Proof.
  split.
  - unfold getMainMenuKeyboard.
    destruct (Z.eqb_spec userID (AdminID config)) as [Heq|Hne];
      cbn [List.concat app]; intros Hb;
      repeat (apply elem_of_cons in Hb as [->|Hb];
              [eexists; split; [reflexivity|]; split;
               [destruct v; discriminate
               | first [ intros Hn; contradiction
                       | intros _; repeat first [ apply list_elem_of_here
                                                | apply list_elem_of_further ] ]]|]);
      try inversion Hb.
  - unfold messageMenuKeyboard. cbn [List.concat app]. intros Hb.
    repeat (apply elem_of_cons in Hb as [->|Hb];
            [eexists; split; [reflexivity|];
             destruct v; split;
             first [ discriminate | intros [? ?]; discriminate
                   | intros _; split; reflexivity | reflexivity ]|]).
    inversion Hb.
Qed.

Lemma X7_menu_buttons_dispatched_witness :
  (exists data,
     Lit "menu_renew" = Lit data /\ switchCase ZivpnBot data <> no_case
     /\ (2 <> 1 -> data ∈ ["menu_create"; "menu_delete"; "menu_renew"]))
  /\ (exists data,
        Lit "msg_stats" = Lit data
        /\ (switchCase Part001 data = no_case <-> Part001 = Part001 /\ data = "msg_stats")).
Proof.
  split.
  - apply (X7_menu_buttons_dispatched ZivpnBot (demoConfig "public") 2
             (NewInlineKeyboardButtonData (Lit "🔄 Renew") (Lit "menu_renew"))).
    vm_compute. repeat constructor.
  - apply (X7_menu_buttons_dispatched Part001 (demoConfig "public") 2
             (NewInlineKeyboardButtonData (Lit "📊 Stats") (Lit "msg_stats"))).
    vm_compute. repeat constructor.
Defined.

(** ** Reasoning with the state read *)

Lemma sat_get_bind {E : Env} {A} (P : St -> Prop) Q (k : St -> M A) :
  (forall s0, P s0 -> sat P Q (k s0)) -> sat P Q (bind get k).
Proof. intros Hk s Hs. rewrite bind_get. apply (Hk s Hs s Hs). Qed.

(** [sat_go], keeping what is known of a state that was read: [contra]
    closes the branches that this knowledge rules out. *)
Ltac sat_read contra side :=
  repeat first [ assumption | solve [auto with nocore] | solve [exfalso; contra]
               | progress cbv beta iota
               | lazymatch goal with
                 | |- sat _ _ (bind get _) => apply sat_get_bind; intros ? ?
                 end
               | sat_step side | sat_unfold ].

Lemma sameFlow_refl {E : Env} (s : St) : sameFlow s s.
Proof. repeat split. Qed.

Lemma sameFlow_trans {E : Env} (s0 s1 s2 : St) :
  sameFlow s0 s1 -> sameFlow s1 s2 -> sameFlow s0 s2.
Proof. intros (? & ? & ?) (? & ? & ?). repeat split; congruence. Qed.

(** ** Private mode *)

Ltac lockedOut_side :=
  first [ intros ? ? ?; assumption | intros; done | exact I
        | intros; reflexivity | reflexivity
        | intros; case_decide; reflexivity | idtac ].

Section Lockout.
Context {E : Env}.

Lemma handleMessage_denied v (msg : TgMessage) s :
  isAllowed (config s) (MFromID msg) = false ->
  handleMessage v msg s
  = bind (saveChatSession v (MFromID msg) (MChatID msg) (MFromUserName msg))
         (fun _ => replyError (MChatID msg) (Lit "⛔ Akses Ditolak. Bot ini Private.")) s.
Proof.
  intros Hd.
  destruct (saveChatSession_run v (MFromID msg) (MChatID msg) (MFromUserName msg) s)
    as [Hval (_ & _ & Hcf)].
  unfold handleMessage. rewrite !(bind_some _ _ _ _ Hval). rewrite bind_get.
  rewrite Hcf, Hd. reflexivity.
Qed.

Lemma handleCallback_denied v (query : CallbackQuery) s :
  denied (config s) query = true ->
  handleCallback v query s
  = match v with
    | Part001 => Request (Callback (QID query) "Akses Ditolak") s
    | _ => bind (saveChatSession v (QFromID query) (QChatID query) (QFromUserName query))
                (fun _ => Request (Callback (QID query) "Akses Ditolak")) s
    end.
Proof.
  intros Hd.
  destruct (saveChatSession_run v (QFromID query) (QChatID query) (QFromUserName query) s)
    as [Hval (_ & _ & Hcf)].
  unfold handleCallback. destruct v.
  - rewrite bind_get, Hd. reflexivity.
  - rewrite !(bind_some _ _ _ _ Hval). rewrite bind_get, Hcf, Hd. reflexivity.
  - rewrite !(bind_some _ _ _ _ Hval). rewrite bind_get, Hcf, Hd. reflexivity.
Qed.

Lemma denied_message_total v (msg : TgMessage) :
  total (bind (saveChatSession v (MFromID msg) (MChatID msg) (MFromUserName msg))
           (fun _ => replyError (MChatID msg) (Lit "⛔ Akses Ditolak. Bot ini Private."))).
Proof. destruct v; total_go. Qed.

Lemma denied_message_sat v (msg : TgMessage) s0 :
  sat (sameFlow s0) lockedOut
    (bind (saveChatSession v (MFromID msg) (MChatID msg) (MFromUserName msg))
       (fun _ => replyError (MChatID msg) (Lit "⛔ Akses Ditolak. Bot ini Private."))).
Proof. destruct v; sat_go ltac:(lockedOut_side). Qed.

Lemma denied_click_total v (query : CallbackQuery) :
  total (bind (saveChatSession v (QFromID query) (QChatID query) (QFromUserName query))
           (fun _ => Request (Callback (QID query) "Akses Ditolak"))).
Proof. destruct v; total_go. Qed.

Lemma denied_click_sat v (query : CallbackQuery) s0 :
  sat (sameFlow s0) lockedOut
    (bind (saveChatSession v (QFromID query) (QChatID query) (QFromUserName query))
       (fun _ => Request (Callback (QID query) "Akses Ditolak"))).
Proof. destruct v; sat_go ltac:(lockedOut_side). Qed.

(** One update of a user who is not allowed. *)
Lemma handleUpdate_lockedOut v (update : Update) s :
  (forall u, sender update = Some u -> isAllowed (config s) u = false) ->
  let o := handleUpdate v update s in
  value o = Some tt /\ sameFlow s (post o) /\ Forall lockedOut (trace o).
Proof.
  intros Hs. cbv zeta. unfold handleUpdate, sender in *.
  destruct (UMessage update) as [msg|].
  - rewrite (handleMessage_denied v msg s (Hs _ eq_refl)).
    split; [apply total_unit, denied_message_total|].
    apply (denied_message_sat v msg s s), sameFlow_refl.
  - destruct (UCallbackQuery update) as [query|]; cbn in Hs.
    + assert (Hd : denied (config s) query = true).
      { unfold denied. rewrite (Hs _ eq_refl). cbn [negb andb].
        unfold isAllowed in Hs. specialize (Hs _ eq_refl).
        apply orb_false_elim in Hs as [_ ->]. apply orb_true_r. }
      rewrite (handleCallback_denied v query s Hd).
      destruct v.
      * split; [reflexivity|]. split; [repeat split|].
        repeat constructor.
      * split; [apply total_unit, denied_click_total|].
        apply (denied_click_sat ZivpnBot query s s), sameFlow_refl.
      * split; [apply total_unit, denied_click_total|].
        apply (denied_click_sat Part000 query s s), sameFlow_refl.
    + split; [reflexivity|]. split; [apply sameFlow_refl | constructor].
Qed.

Lemma mainLoop_lockedOut v (updates : list Update) s :
  (forall update u, update ∈ updates -> sender update = Some u ->
     isAllowed (config s) u = false) ->
  let o := mainLoop v updates s in
  value o = Some tt /\ sameFlow s (post o) /\ Forall lockedOut (trace o).
Proof.
  revert s. induction updates as [|update updates IH]; intros s Hs; cbv zeta.
  - split; [reflexivity|]. split; [apply sameFlow_refl | constructor].
  - unfold mainLoop. cbn [forEach]. fold (mainLoop v updates).
    destruct (handleUpdate_lockedOut v update s) as (Hv & Hf & Ht).
    { intros u Hu. apply (Hs update u); [left | exact Hu]. }
    rewrite (bind_some _ _ _ _ Hv). cbn [trace post value].
    destruct (IH (post (handleUpdate v update s))) as (Hv' & Hf' & Ht').
    { intros update' u Hin Hu. destruct Hf as (_ & _ & ->).
      apply (Hs update' u); [right; exact Hin | exact Hu]. }
    split; [exact Hv'|]. split; [exact (sameFlow_trans _ _ _ Hf Hf')|].
    apply Forall_app. split; assumption.
Qed.

End Lockout.

(** X8.  Private mode locks everyone but the administrator out: whatever
    updates users other than the administrator send while the mode is not
    public, the loop handles them all, each being answered with the
    access-denied notice or answer at most; the bot calls no API, runs no
    command, writes no file but the chats file, and the conversation states,
    the scratch data and the configuration stay as they were. *)
Theorem X8_private_mode_lockout {E : Env} (v : Variant) (updates : list Update)
  (s : St) :
  Mode (config s) <> "public" ->
  (forall update, update ∈ updates -> sender update <> Some (AdminID (config s))) ->
  let o := mainLoop v updates s in
  value o = Some tt
  /\ Forall lockedOut (trace o)
  /\ userStates (post o) = userStates s
  /\ tempUserData (post o) = tempUserData s
  /\ config (post o) = config s.
Proof.
  intros Hmode Hsend. cbv zeta.
  destruct (mainLoop_lockedOut v updates s) as (Hv & (Hus & Htd & Hcf) & Ht).
  { intros update u Hin Hu. unfold isAllowed.
    apply String.eqb_neq in Hmode. rewrite Hmode. cbn [orb].
    apply Z.eqb_neq. intros ->. exact (Hsend update Hin Hu). }
  repeat split; assumption.
Qed.

Lemma X8_private_mode_lockout_witness :
  let s := demoState "private" [1] [(1, "broadcast_message")] [] in
  let updates :=
    [ {| UMessage := Some (textMessage 2 "/start"); UCallbackQuery := None |};
      {| UMessage := None; UCallbackQuery := Some (click 3 "confirm_delete:alice") |};
      {| UMessage := None; UCallbackQuery := None |} ] in
  let o := mainLoop (E := demoEnv) Part001 updates s in
  value o = Some tt
  /\ Forall lockedOut (trace o)
  /\ userStates (post o) = userStates s
  /\ tempUserData (post o) = tempUserData s
  /\ config (post o) = config s.
Proof.
  intros s updates.
  apply (X8_private_mode_lockout (E := demoEnv) Part001 updates s).
  - discriminate.
  - intros update Hin.
    repeat (apply elem_of_cons in Hin as [->|Hin]; [discriminate|]).
    inversion Hin.
Defined.

(** ** Who can do what *)

(** The state part of a proof that [guarded] is kept. *)
Ltac guarded_lookup :=
  match goal with
  | Hst : forall u state, u <> _ -> _ !! u = Some state -> ~ adminOnly state,
    Hu : ?u <> _, Hl : _ !! ?u = Some ?st |- ~ adminOnly ?st =>
      first [ exact (Hst u st Hu Hl)
            | apply lookup_delete_Some in Hl as [_ Hl]; exact (Hst u st Hu Hl)
            | apply lookup_insert_Some in Hl as [[<- <-]|[_ Hl]];
              [ first [ congruence | intros [?|?]; discriminate ]
              | exact (Hst u st Hu Hl) ] ]
  end.

Ltac guarded_state :=
  intros;
  repeat match goal with H : _ /\ _ |- _ => destruct H end;
  unfold guarded in *;
  repeat match goal with H : _ /\ _ |- _ => destruct H end;
  cbn in *;
  repeat split; try assumption; try congruence;
  intros; guarded_lookup.

Ltac unprivileged_event :=
  intros;
  repeat match goal with |- context [if ?b then _ else _] => destruct b end;
  (split; [reflexivity | exact I]).

Ltac guarded_side :=
  first [ exact I | intros; exact I
        | solve [unprivileged_event]
        | solve [guarded_state]
        | idtac ].

(** What rules a branch out for a user who is not the administrator. *)
Ltac not_admin :=
  repeat match goal with H : _ /\ _ |- _ => destruct H end;
  match goal with
  | Hg : guarded ?a ?s0, Hb : (?u =? AdminID (config ?s0)) = true |- _ =>
      apply Z.eqb_eq in Hb; destruct Hg as [Hg _]; congruence
  | Hg : guarded ?a ?s0, Hb : negb (?u =? AdminID (config ?s0)) = false |- _ =>
      apply negb_false_iff, Z.eqb_eq in Hb; destruct Hg as [Hg _]; congruence
  | Hg : guarded ?a ?s0, Hb : (_ && (?u =? AdminID (config ?s0)) && _) = true |- _ =>
      apply andb_prop in Hb as [Hb _]; apply andb_prop in Hb as [_ Hb];
      apply Z.eqb_eq in Hb; destruct Hg as [Hg _]; congruence
  | Hg : guarded ?a ?s0, Hl : userStates ?s0 !! ?u = Some ?st,
    Hb : String.eqb ?st "broadcast_message" = true |- _ =>
      apply String.eqb_eq in Hb; destruct Hg as [_ Hg];
      apply (Hg u st); [assumption | assumption | left; assumption]
  end.

Section Privilege.
Context {E : Env}.

Lemma sat_mono {A} (P : St -> Prop) (Q Q' : Event -> Prop) (m : M A) :
  (forall e, Q e -> Q' e) -> sat P Q m -> sat P Q' m.
Proof.
  intros HQ Hm s Hs. destruct (Hm s Hs) as [Hp Ht]. split; [exact Hp|].
  eapply Forall_impl; eauto.
Qed.

Lemma privateLoop_guarded a c0 msg keys :
  (forall chat r, delivery (EvSend (Message (msg chat)) r) = None) ->
  sat (fun s => guarded a s /\ config s = c0) unprivileged (privateLoop msg keys).
Proof.
  intros Hmsg. induction keys as [|k rest IH]; cbn [privateLoop].
  - apply sat_ret.
  - sat_go ltac:(first [ solve [guarded_state]
                       | intros; split; [apply Hmsg | exact I] | idtac ]).
Qed.

(** An update of a user who is not the administrator. *)
Lemma handleMessage_not_admin a c0 v (msg : TgMessage) :
  MFromID msg <> a ->
  sat (fun s => guarded a s /\ config s = c0) unprivileged (handleMessage v msg).
Proof.
  intros Hne.
  pose proof (privateLoop_guarded a c0) as Hpl.
  destruct v; sat_read ltac:(not_admin) ltac:(guarded_side).
  all: try (apply Hpl; intros; reflexivity).
Qed.

Lemma handleCallback_not_admin a c0 v (query : CallbackQuery) :
  QFromID query <> a ->
  sat (fun s => guarded a s /\ config s = c0) unprivileged (handleCallback v query).
Proof.
  intros Hne.
  pose proof (privateLoop_guarded a c0) as Hpl.
  unfold handleCallback.
  destruct v; destruct (switchCase _ (QData query));
    sat_read ltac:(not_admin) ltac:(guarded_side).
  all: try (apply Hpl; intros; reflexivity).
Qed.

(** The loops keep [guarded]: they touch the registry only. *)
Lemma broadcastLoop_guarded a v message keys :
  forall t, sat (guarded a) anyEvent (broadcastLoop v message keys t).
Proof.
  induction keys as [|k rest IH]; intros t; cbn [broadcastLoop].
  - apply sat_ret.
  - destruct v; sat_go ltac:(guarded_side); try apply IH.
Qed.

Lemma privateLoop_guarded_admin a msg keys :
  sat (guarded a) anyEvent (privateLoop msg keys).
Proof.
  induction keys as [|k rest IH]; cbn [privateLoop].
  - apply sat_ret.
  - sat_go ltac:(guarded_side).
Qed.

Lemma packFiles_guarded a files :
  sat (guarded a) anyEvent (packFiles files).
Proof.
  induction files as [|k rest IH]; cbn [packFiles].
  - apply sat_ret.
  - sat_go ltac:(guarded_side).
Qed.

(** An update of the administrator. *)
Lemma handleMessage_admin a v (msg : TgMessage) :
  MFromID msg = a -> sat (guarded a) anyEvent (handleMessage v msg).
Proof.
  intros Ha.
  pose proof (broadcastLoop_guarded a v) as Hloop.
  pose proof (privateLoop_guarded_admin a) as Hpl.
  pose proof (packFiles_guarded a) as Hpf.
  destruct v; sat_go ltac:(guarded_side);
    first [ apply Hloop | apply Hpl | apply Hpf ].
Qed.

Lemma handleCallback_admin a v (query : CallbackQuery) :
  QFromID query = a -> sat (guarded a) anyEvent (handleCallback v query).
Proof.
  intros Ha.
  pose proof (broadcastLoop_guarded a v) as Hloop.
  pose proof (privateLoop_guarded_admin a) as Hpl.
  pose proof (packFiles_guarded a) as Hpf.
  unfold handleCallback.
  destruct v; destruct (switchCase _ (QData query)); sat_go ltac:(guarded_side);
    first [ apply Hloop | apply Hpl | apply Hpf ].
Qed.

End Privilege.

Lemma handleUpdate_not_admin {E : Env} a c0 v (update : Update) :
  sender update <> Some a ->
  sat (fun s => guarded a s /\ config s = c0) unprivileged (handleUpdate v update).
Proof.
  intros Hne. unfold handleUpdate, sender in *.
  destruct (UMessage update) as [msg|].
  - apply handleMessage_not_admin. congruence.
  - destruct (UCallbackQuery update) as [query|]; [|apply sat_ret].
    apply handleCallback_not_admin. cbn in Hne. congruence.
Qed.

Lemma handleUpdate_guarded {E : Env} a v (update : Update) :
  sat (guarded a) anyEvent (handleUpdate v update).
Proof.
  destruct (decide (sender update = Some a)) as [Ha|Hne].
  - unfold handleUpdate, sender in *.
    destruct (UMessage update) as [msg|].
    + apply handleMessage_admin. congruence.
    + destruct (UCallbackQuery update) as [query|]; [|apply sat_ret].
      apply handleCallback_admin. cbn in Ha. congruence.
  - intros s Hs.
    destruct (handleUpdate_not_admin a (config s) v update Hne s (conj Hs eq_refl))
      as [[Hg _] Ht].
    split; [exact Hg|]. eapply Forall_impl; [exact Ht|]. intros; exact I.
Qed.

(** X9.  Privileges need the administrator.  When no user other than the
    administrator is in an administrator's flow (the broadcast text step, the
    restore upload), an update from anyone else, in any mode, causes no
    delivery of a broadcast, runs no command, writes no file but the chats
    file, and leaves the configuration, the access mode included, as it
    was; nor does it put a user other than the administrator into such a
    flow. *)
Theorem X9_privileges_need_admin {E : Env} (v : Variant) (update : Update) (s : St) :
  let a := AdminID (config s) in
  (forall u state, u <> a -> userStates s !! u = Some state -> ~ adminOnly state) ->
  sender update <> Some a ->
  let o := handleUpdate v update s in
  Forall unprivileged (trace o)
  /\ config (post o) = config s
  /\ guarded a (post o).
Proof.
  intros a Hst Hne. cbv zeta.
  destruct (handleUpdate_not_admin a (config s) v update Hne s) as [[Hg Hc] Ht].
  { split; [split; [reflexivity | exact Hst] | reflexivity]. }
  repeat split; try assumption; apply Hg.
Qed.

Lemma X9_privileges_need_admin_witness :
  let s := demoState "public" [1; 2] [(1, "broadcast_message"); (2, "create_username")] [] in
  let update := {| UMessage := None;
                   UCallbackQuery := Some (click 2 "menu_restore_action") |} in
  let o := handleUpdate (E := demoEnv) Part001 update s in
  Forall unprivileged (trace o)
  /\ config (post o) = config s
  /\ guarded 1 (post o).
Proof.
  intros s update.
  apply (X9_privileges_need_admin (E := demoEnv) Part001 update s).
  - intros u state Hu Hl [Hs|Hs]; subst state;
      destruct (decide (u = 2)) as [->|Hu2];
      [ discriminate Hl | | discriminate Hl | ];
      (destruct (decide (u = 1)) as [->|Hu1]; [contradiction|]);
      unfold s, demoState in Hl; cbn [userStates list_to_map foldr fst snd] in Hl;
      rewrite !lookup_insert_ne in Hl by congruence; discriminate Hl.
  - discriminate.
Defined.

(** X10.  Whatever updates arrive, from whomever, the administrator stays
    the same and no other user ever gets into the broadcast text step or the
    restore upload: only the administrator's own commands and clicks enter
    these flows. *)
Theorem X10_admin_flows_stay_with_admin {E : Env} (v : Variant)
  (updates : list Update) (a : Z) (s : St) :
  guarded a s -> guarded a (post (mainLoop v updates s)).
Proof.
  intros Hs.
  assert (Hloop : sat (guarded a) anyEvent (mainLoop v updates)).
  { unfold mainLoop. apply sat_forEach. intros update. apply handleUpdate_guarded. }
  apply (Hloop s Hs).
Qed.

Lemma X10_admin_flows_stay_with_admin_witness :
  guarded 1
    (post (mainLoop (E := demoEnv) ZivpnBot
             [ {| UMessage := None; UCallbackQuery := Some (click 2 "msg_broadcast") |};
               {| UMessage := None; UCallbackQuery := Some (click 1 "msg_broadcast") |};
               {| UMessage := Some (textMessage 2 "hello"); UCallbackQuery := None |} ]
             (demoState "public" [1] [] []))).
Proof.
  apply (X10_admin_flows_stay_with_admin (E := demoEnv) ZivpnBot).
  split; [reflexivity|]. intros u state _ Hl. discriminate Hl.
Defined.

(** ** What every update keeps *)

Ltac keyed_lookup :=
  match goal with
  | Hk : forall k c, _ !! k = Some c -> UserID c = k, Hl : _ !! ?k = Some ?c
    |- UserID ?c = ?k =>
      first [ exact (Hk k c Hl)
            | apply lookup_delete_Some in Hl as [_ Hl]; exact (Hk k c Hl)
            | apply lookup_insert_Some in Hl as [[<- <-]|[_ Hl]];
              [ reflexivity | exact (Hk k c Hl) ] ]
  end.

Ltac keyed_state :=
  intros;
  repeat match goal with H : _ /\ _ |- _ => destruct H end;
  unfold keyed, steady in *;
  repeat match goal with H : _ /\ _ |- _ => destruct H end;
  cbn in *;
  repeat split; try assumption; try congruence;
  first [ intros;
          repeat match goal with
                 | H : ?K -> _, HK : ?K |- _ =>
                     lazymatch type of K with Prop => specialize (H HK) end
                 end;
          keyed_lookup
        | repeat match goal with |- context [if ?b then _ else _] => destruct b end;
          tauto ].

Ltac keyed_side :=
  first [ exact I | intros; exact I | solve [keyed_state] | idtac ].

Section Steady.
Context {E : Env}.

Lemma broadcastLoop_keyed (K : Prop) c0 v message keys :
  forall t, sat (fun s => (K -> keyed s) /\ steady c0 s) anyEvent
              (broadcastLoop v message keys t).
Proof.
  induction keys as [|k rest IH]; intros t; cbn [broadcastLoop].
  - apply sat_ret.
  - destruct v; sat_go ltac:(keyed_side); try apply IH.
Qed.

Lemma privateLoop_keyed (K : Prop) c0 msg keys :
  sat (fun s => (K -> keyed s) /\ steady c0 s) anyEvent (privateLoop msg keys).
Proof.
  induction keys as [|k rest IH]; cbn [privateLoop].
  - apply sat_ret.
  - sat_go ltac:(keyed_side).
Qed.

Lemma packFiles_keyed (K : Prop) c0 files :
  sat (fun s => (K -> keyed s) /\ steady c0 s) anyEvent (packFiles files).
Proof.
  induction files as [|k rest IH]; cbn [packFiles].
  - apply sat_ret.
  - sat_go ltac:(keyed_side).
Qed.

Lemma handleMessage_keyed (K : Prop) c0 v (msg : TgMessage) :
  sat (fun s => (K -> keyed s) /\ steady c0 s) anyEvent (handleMessage v msg).
Proof.
  pose proof (broadcastLoop_keyed K c0 v) as Hloop.
  pose proof (privateLoop_keyed K c0) as Hpl.
  pose proof (packFiles_keyed K c0) as Hpf.
  destruct v; sat_go ltac:(keyed_side);
    first [ apply Hloop | apply Hpl | apply Hpf ].
Qed.

Lemma handleCallback_keyed (K : Prop) c0 v (query : CallbackQuery) :
  sat (fun s => (K -> keyed s) /\ steady c0 s) anyEvent (handleCallback v query).
Proof.
  pose proof (broadcastLoop_keyed K c0 v) as Hloop.
  pose proof (privateLoop_keyed K c0) as Hpl.
  pose proof (packFiles_keyed K c0) as Hpf.
  unfold handleCallback.
  destruct v; destruct (switchCase _ (QData query)); sat_go ltac:(keyed_side);
    first [ apply Hloop | apply Hpl | apply Hpf ].
Qed.

Lemma mainLoop_keyed (K : Prop) c0 v (updates : list Update) :
  sat (fun s => (K -> keyed s) /\ steady c0 s) anyEvent (mainLoop v updates).
Proof.
  unfold mainLoop. apply sat_forEach. intros update. unfold handleUpdate.
  destruct (UMessage update) as [msg|]; [apply handleMessage_keyed|].
  destruct (UCallbackQuery update) as [query|]; [apply handleCallback_keyed|].
  apply sat_ret.
Qed.

Lemma loadSessions_keyed (K : Prop) c0 sessions :
  sat (fun s => (K -> keyed s) /\ steady c0 s) anyEvent (loadSessions sessions).
Proof. sat_go ltac:(keyed_side). Qed.

Lemma loadChats_keyed (K : Prop) c0 v unmarshal :
  sat (fun s => (K -> keyed s) /\ steady c0 s) anyEvent (loadChats v unmarshal).
Proof.
  pose proof (loadSessions_keyed K c0) as Hload.
  destruct v; sat_go ltac:(keyed_side).
Qed.

Lemma steady_refl (s : St) : steady (config s) s.
Proof. repeat split. left. reflexivity. Qed.

End Steady.

(** X11.  No update changes the bot token, the administrator or the domain
    of the configuration: after any updates they are what they were, and the
    access mode is what it was or one of the two modes that the toggle
    sets. *)
Theorem X11_only_the_mode_changes {E : Env} (v : Variant) (updates : list Update)
  (s : St) :
  let c := config (post (mainLoop v updates s)) in
  BotToken c = BotToken (config s)
  /\ AdminID c = AdminID (config s)
  /\ Domain c = Domain (config s)
  /\ (Mode c = Mode (config s) \/ Mode c = "public" \/ Mode c = "private").
Proof.
  cbv zeta.
  destruct (mainLoop_keyed False (config s) v updates s) as [[_ Hs] _].
  { split; [contradiction | apply steady_refl]. }
  exact Hs.
Qed.

(** X12.  Every session of the registry is stored under its own user
    identifier: start-up loading and every update keep this, in every
    variant. *)
Theorem X12_registry_keyed_by_user {E : Env} (v : Variant)
  (unmarshal : string -> option (list ChatSession)) (updates : list Update) (s : St) :
  keyed s ->
  keyed (post (loadChats v unmarshal s))
  /\ keyed (post (mainLoop v updates s))
  /\ keyed (post (bind (loadChats v unmarshal) (fun _ => mainLoop v updates) s)).
Proof.
  intros Hk.
  assert (HP : (True -> keyed s) /\ steady (config s) s)
    by (split; [intros _; exact Hk | apply steady_refl]).
  split; [|split].
  - apply (loadChats_keyed True (config s) v unmarshal s HP). exact I.
  - apply (mainLoop_keyed True (config s) v updates s HP). exact I.
  - assert (Hb : sat (fun s' => (True -> keyed s') /\ steady (config s) s') anyEvent
                   (bind (loadChats v unmarshal) (fun _ => mainLoop v updates))).
    { apply sat_bind; [apply loadChats_keyed | intros _; apply mainLoop_keyed]. }
    apply (Hb s HP). exact I.
Qed.

Lemma X12_registry_keyed_by_user_witness :
  let s := scriptState (offline (Some "[2,3]")) "public" [1] [] in
  let updates := [ {| UMessage := Some (textMessage 5 "/start");
                      UCallbackQuery := None |} ] in
  keyed (post (loadChats ZivpnBot demoUnmarshal s))
  /\ keyed (post (mainLoop ZivpnBot updates s))
  /\ keyed (post (bind (loadChats ZivpnBot demoUnmarshal)
                    (fun _ => mainLoop ZivpnBot updates) s)).
Proof.
  intros s updates.
  apply (X12_registry_keyed_by_user (E := scriptEnv) ZivpnBot demoUnmarshal updates s).
  intros k c Hl. unfold s, scriptState in Hl. cbn in Hl.
  apply lookup_insert_Some in Hl as [[<- <-]|[_ Hl]]; [reflexivity | discriminate Hl].
Defined.

(** ** Loading and saving the registry *)

Section Chats.
Context {E : Env}.

Lemma loadSessions_run sessions s :
  loadSessions sessions s
  = mkOut [] (set_activeChats (fun m => stored m sessions) s) (Some tt).
Proof.
  revert s. induction sessions as [|c l IH]; intros s.
  - destruct s. reflexivity.
  - unfold loadSessions in *. cbn [forEach].
    rewrite (bind_step (modify _) _ _ _ _ _ eq_refl). rewrite IH.
    destruct s. reflexivity.
Qed.

Lemma stored_snoc m l c : stored m (l ++ [c]) = <[UserID c := c]> (stored m l).
Proof. unfold stored. rewrite foldl_app. reflexivity. Qed.

(** The last session of the file with a given user identifier wins. *)
Lemma stored_lookup m l k :
  stored m l !! k
  = match last (filter (fun c => UserID c = k) l) with
    | Some c => Some c
    | None => m !! k
    end.
Proof.
  induction l as [|c l IH] using rev_ind; [reflexivity|].
  rewrite stored_snoc, filter_app, filter_cons, filter_nil.
  destruct (decide (UserID c = k)) as [<-|Hne].
  - rewrite lookup_insert_eq, last_snoc. reflexivity.
  - rewrite lookup_insert_ne by exact Hne. rewrite app_nil_r. exact IH.
Qed.

Lemma last_elem_of {A} (l : list A) x : last l = Some x -> x ∈ l.
Proof.
  induction l as [|y l IH] using rev_ind; [discriminate|].
  rewrite last_snoc. intros [= ->]. apply elem_of_app. right. left.
Qed.

Lemma last_is_Some {A} (l : list A) x : x ∈ l -> is_Some (last l).
Proof.
  destruct l as [|y l] using rev_ind; [intros H; inversion H|].
  rewrite last_snoc. eauto.
Qed.

(** What [saveChats] writes, loaded into an empty registry, is the
    registry. *)
Lemma stored_saved (m : gmap Z ChatSession) (keys : list Z) :
  (forall k c, m !! k = Some c -> UserID c = k) ->
  keys ≡ₚ (map_to_list m).*1 ->
  stored ∅ (omap (fun k => m !! k) keys) = m.
Proof.
  intros Hk Hkeys. apply map_eq. intros k. rewrite stored_lookup.
  destruct (last _) as [c|] eqn:Hlast.
  - apply last_elem_of in Hlast. apply list_elem_of_filter in Hlast as [Hu Hin].
    apply list_elem_of_omap in Hin as (k' & _ & Hl).
    rewrite <- Hu, (Hk _ _ Hl). symmetry. exact Hl.
  - rewrite lookup_empty. destruct (m !! k) as [c|] eqn:Hl; [|reflexivity].
    exfalso.
    assert (Hin : c ∈ filter (fun c => UserID c = k) (omap (fun k => m !! k) keys)).
    { apply list_elem_of_filter. split; [exact (Hk _ _ Hl)|].
      apply list_elem_of_omap. exists k. split; [|exact Hl].
      rewrite Hkeys. apply list_elem_of_fmap. exists (k, c). split; [reflexivity|].
      apply elem_of_map_to_list. exact Hl. }
    destruct (last_is_Some _ _ Hin) as [x Hx]. congruence.
Qed.

Lemma saveChats_run s :
  exists w,
    saveChats s
    = mkOut [EvSaveChats (omap (fun k => activeChats s !! k)
                            (rangeOrder (map_to_list (activeChats s)).*1 (world s)).1)]
            (set_world w s) (Some tt).
Proof.
  unfold saveChats. rewrite bind_get.
  rewrite (bind_step (peek _) _ _ _ _ _ eq_refl).
  rewrite (bind_step (ask _ _) _ _ _ _ _ eq_refl).
  cbn. eexists. reflexivity.
Qed.

Lemma loadChats_run v unmarshal s :
  let r := readFile "/etc/zivpn/chats.json" (world s) in
  exists s',
    loadChats v unmarshal s = mkOut [] s' (Some tt)
    /\ userStates s' = userStates s /\ tempUserData s' = tempUserData s
    /\ lastMessageIDs s' = lastMessageIDs s /\ config s' = config s
    /\ activeChats s'
       = match r.1 ≫= unmarshal with
         | Some sessions => stored (activeChats s) sessions
         | None => activeChats s
         end
    /\ (r.1 ≫= unmarshal = None \/ v = Part001 -> lastSaveTime s' = lastSaveTime s).
Proof.
  cbv zeta. unfold loadChats.
  rewrite (bind_step (peek _) _ _ _ _ _ eq_refl). cbn [trace post value app].
  destruct (readFile _ (world s)) as [[data|] w]; cbn [fst snd mbind option_bind].
  - destruct (unmarshal data) as [sessions|].
    + rewrite (bind_step _ _ _ _ _ _ (loadSessions_run _ _)).
      destruct v; cbn; eexists; (split; [reflexivity|]); cbn;
        repeat split; try reflexivity;
        intros [H|H]; discriminate H.
    + eexists. split; [reflexivity|]. cbn. repeat split.
  - eexists. split; [reflexivity|]. cbn. repeat split.
Qed.

End Chats.

(** X13.  [loadChats] at its edges.  When the chats file is missing or
    unreadable, or its content does not decode, nothing is loaded: the
    registry and the rest of the state stay as they were and nothing is
    written or sent.  When it decodes, each session is stored under its own
    user identifier; of several sessions with the same identifier the last
    one in the file wins, and an entry the file does not mention is kept. *)
Theorem X13_loadChats_edges {E : Env} (v : Variant)
  (unmarshal : string -> option (list ChatSession)) (s : St) :
  let r := (readFile "/etc/zivpn/chats.json" (world s)).1 in
  let o := loadChats v unmarshal s in
  value o = Some tt /\ trace o = []
  /\ userStates (post o) = userStates s /\ tempUserData (post o) = tempUserData s
  /\ config (post o) = config s
  /\ (r ≫= unmarshal = None ->
      activeChats (post o) = activeChats s /\ lastSaveTime (post o) = lastSaveTime s)
  /\ (forall sessions k,
        r ≫= unmarshal = Some sessions ->
        activeChats (post o) !! k
        = match last (filter (fun c => UserID c = k) sessions) with
          | Some c => Some c
          | None => activeChats s !! k
          end).
Proof.
  cbv zeta.
  destruct (loadChats_run v unmarshal s)
    as (s' & Heq & Hus & Htd & _ & Hcf & Hac & Hls).
  cbv zeta in Hac, Hls. rewrite Heq. cbn [trace post value].
  repeat split; try assumption.
  - rewrite Hac, H. reflexivity.
  - apply Hls. left. exact H.
  - intros sessions k Hr. rewrite Hac, Hr. apply stored_lookup.
Qed.

Lemma X13_loadChats_edges_witness :
  let missing := scriptState (offline None) "public" [1] [] in
  let present := scriptState (offline (Some "[2,3]")) "public" [1; 2] [] in
  (let o := loadChats Part001 demoUnmarshal missing in
   activeChats (post o) = activeChats missing
   /\ lastSaveTime (post o) = lastSaveTime missing)
  /\ (let o := loadChats Part001 demoUnmarshal present in
      activeChats (post o) !! 3
      = match last (filter (fun c => UserID c = 3) [demoSession 2; demoSession 3]) with
        | Some c => Some c
        | None => activeChats present !! 3
        end).
Proof.
  intros missing present. split.
  - apply (X13_loadChats_edges (E := scriptEnv) Part001 demoUnmarshal missing).
    reflexivity.
  - apply (X13_loadChats_edges (E := scriptEnv) Part001 demoUnmarshal present).
    reflexivity.
Defined.

(** X14.  Saving and loading the registry round-trip.  When every session is
    stored under its own user identifier, the sessions that [saveChats]
    writes, decoded again from the chats file and loaded by [loadChats] into
    an empty registry, give the registry that was saved, whatever the order
    in which the map was ranged over. *)
Theorem X14_save_load_round_trip {E : Env} (v : Variant)
  (unmarshal : string -> option (list ChatSession)) (s s0 : St)
  (sessions : list ChatSession) :
  keyed s ->
  trace (saveChats s) = [EvSaveChats sessions] ->
  (readFile "/etc/zivpn/chats.json" (world s0)).1 ≫= unmarshal = Some sessions ->
  activeChats s0 = ∅ ->
  activeChats (post (loadChats v unmarshal s0)) = activeChats s.
Proof.
  intros Hk Hsave Hread Hempty.
  destruct (saveChats_run s) as [w Hrun]. rewrite Hrun in Hsave.
  injection Hsave as <-.
  destruct (loadChats_run v unmarshal s0) as (s' & Heq & _ & _ & _ & _ & Hac & _).
  cbv zeta in Hac. rewrite Heq. cbn [post]. rewrite Hac, Hread, Hempty.
  apply stored_saved; [exact Hk | apply rangeOrder_perm].
Qed.

Lemma X14_save_load_round_trip_witness :
  let s := scriptState (offline None) "public" [2; 3] [] in
  let s0 := scriptState (offline (Some "[2,3]")) "public" [] [] in
  activeChats (post (loadChats ZivpnBot demoUnmarshal s0)) = activeChats s.
Proof.
  intros s s0.
  apply (X14_save_load_round_trip (E := scriptEnv) ZivpnBot demoUnmarshal s s0
           [demoSession 2; demoSession 3]).
  - intros k c Hl. unfold s, scriptState in Hl. cbn in Hl.
    apply lookup_insert_Some in Hl as [[<- <-]|[_ Hl]]; [reflexivity|].
    apply lookup_insert_Some in Hl as [[<- <-]|[_ Hl]]; [reflexivity|].
    discriminate Hl.
  - vm_compute. reflexivity.
  - reflexivity.
  - reflexivity.
Defined.

(** ** The tracked message of a chat *)

Lemma deleteLastMessage_run {E : Env} chatID s :
  exists w,
    deleteLastMessage chatID s
    = mkOut match lastMessageIDs s !! chatID with
            | Some old => [EvRequest (DeleteMessage chatID old)]
            | None => []
            end
            (set_lastMessageIDs (delete chatID) (set_world w s)) (Some tt).
Proof.
  unfold deleteLastMessage. rewrite bind_get.
  destruct (lastMessageIDs s !! chatID) as [old|] eqn:Hl.
  - eexists. reflexivity.
  - exists (world s). unfold ret. f_equal. destruct s. cbn in *.
    unfold set_lastMessageIDs, set_world. cbn. f_equal.
    symmetry. apply delete_id. exact Hl.
Qed.

Lemma sendAndTrack_run {E : Env} (msg : MessageConfig) (s : St) :
  let o := sendAndTrack msg s in
  let chat := ChatID msg in
  exists result : option Z,
    value o = Some tt
    /\ trace o
       = match lastMessageIDs s !! chat with
         | Some old => [EvRequest (DeleteMessage chat old)]
         | None => []
         end ++ [EvSend (Message msg) result]
    /\ lastMessageIDs (post o) !! chat = result
    /\ (forall c, c <> chat -> lastMessageIDs (post o) !! c = lastMessageIDs s !! c)
    /\ frame s (post o).
Proof.
  cbv zeta. unfold sendAndTrack.
  destruct (deleteLastMessage_run (ChatID msg) s) as [w Hdel].
  rewrite (bind_step _ _ _ _ _ _ Hdel).
  rewrite (bind_step (Send _) _ _ _ _ _ eq_refl).
  cbn [trace post value].
  match goal with
  | |- context [bot_Send ?c ?w0] => destruct (bot_Send c w0) as [[id|] w'] eqn:Hs
  end; cbn [fst snd].
  - exists (Some id). cbn. repeat split.
    + apply lookup_insert_eq.
    + intros c Hc. rewrite lookup_insert_ne by congruence.
      apply lookup_delete_ne. congruence.
  - exists None. cbn. rewrite ?app_nil_r. repeat split.
    + apply lookup_delete_eq.
    + intros c Hc. apply lookup_delete_ne. congruence.
Qed.

(** X15.  [sendAndTrack] keeps at most one tracked message per chat: the
    message tracked for the chat, if any, is deleted first; after the send
    the chat tracks the message just sent, or nothing when the send failed.
    The tracked messages of other chats and the rest of the state are not
    touched. *)
Theorem X15_sendAndTrack_tracks {E : Env} (msg : MessageConfig) (s : St) :
  let o := sendAndTrack msg s in
  let chat := ChatID msg in
  exists result : option Z,
    value o = Some tt
    /\ trace o
       = match lastMessageIDs s !! chat with
         | Some old => [EvRequest (DeleteMessage chat old)]
         | None => []
         end ++ [EvSend (Message msg) result]
    /\ lastMessageIDs (post o) !! chat = result
    /\ (forall c, c <> chat -> lastMessageIDs (post o) !! c = lastMessageIDs s !! c)
    /\ userStates (post o) = userStates s
    /\ tempUserData (post o) = tempUserData s
    /\ activeChats (post o) = activeChats s
    /\ config (post o) = config s.
Proof.
  cbv zeta.
  destruct (sendAndTrack_run msg s) as (result & Hv & Ht & Hl & Ho & Hus & Htd & Hac & Hcf & _).
  exists result. repeat split; assumption.
Qed.

(** ** The mode toggle *)

Section Toggle.
Context {E : Env}.

Lemma toggleMode_other chatID userID s :
  userID <> AdminID (config s) -> toggleMode chatID userID s = mkOut [] s (Some tt).
Proof.
  intros Hne. unfold toggleMode. rewrite bind_get.
  apply Z.eqb_neq in Hne. rewrite Hne. reflexivity.
Qed.

Lemma Send_run c s :
  Send c s
  = mkOut [EvSend c (bot_Send c (world s)).1] (set_world (bot_Send c (world s)).2 s)
          (Some (bot_Send c (world s)).1).
Proof. reflexivity. Qed.

Lemma bind_modify {B} f (k : unit -> M B) s : bind (modify f) k s = k tt (f s).
Proof. unfold bind, modify. cbn. apply out_eta. Qed.

Lemma saveConfig_run s :
  saveConfig s
  = mkOut [EvSaveConfig (config s)]
      (set_world (ioutil_WriteFile BotConfigFile (world s)).2 s) (Some tt).
Proof. unfold saveConfig. rewrite bind_get. reflexivity. Qed.

(** What [toggleMode] does once the mode is set. *)
Lemma toggleMode_admin_eq chatID s :
  toggleMode chatID (AdminID (config s)) s
  = (saveConfig ;;;
     s' <- get ;;
     _ <- Send (Message (Markdown chatID (Lit
            (if String.eqb (Mode (config s')) "public"
             then "🌍 Mode diubah menjadi *Public*"
             else "🔐 Mode diubah menjadi *Private*")))) ;;
     showMainMenu chatID) (set_config (fun _ => flipped (config s)) s).
Proof.
  unfold toggleMode. rewrite bind_get. rewrite Z.eqb_refl. cbn [negb].
  rewrite bind_modify. reflexivity.
Qed.

Lemma toggleMode_total chatID userID : total (toggleMode chatID userID).
Proof. total_go. Qed.

Lemma toggleMode_rest_frame chatID s0 :
  sat (frame s0) anyEvent
    (saveConfig ;;;
     s' <- get ;;
     _ <- Send (Message (Markdown chatID (Lit
            (if String.eqb (Mode (config s')) "public"
             then "🌍 Mode diubah menjadi *Public*"
             else "🔐 Mode diubah menjadi *Private*")))) ;;
     showMainMenu chatID).
Proof. sat_go ltac:(first [ frame_side | exact I ]). Qed.

Lemma toggleMode_admin chatID s :
  let o := toggleMode chatID (AdminID (config s)) s in
  config (post o) = flipped (config s)
  /\ (exists rest, trace o = EvSaveConfig (flipped (config s)) :: rest)
  /\ userStates (post o) = userStates s /\ tempUserData (post o) = tempUserData s
  /\ activeChats (post o) = activeChats s.
Proof.
  cbv zeta. rewrite toggleMode_admin_eq.
  set (s1 := set_config (fun _ => flipped (config s)) s).
  destruct (toggleMode_rest_frame chatID s1 s1 (frame_refl s1))
    as [(Hus & Htd & Hac & Hcf & _) _].
  split; [exact Hcf|].
  split; [|split; [exact Hus | split; [exact Htd | exact Hac]]].
  rewrite (bind_step saveConfig _ _ _ _ _ (saveConfig_run _)).
  eexists. reflexivity.
Qed.

Lemma flipped_twice (c : BotConfig) :
  Mode c = "public" \/ Mode c = "private" -> flipped (flipped c) = c.
Proof. destruct c as [t a m d]. cbn. intros [-> | ->]; reflexivity. Qed.

End Toggle.

(** X16.  The mode toggle.  For anyone but the administrator [toggleMode]
    does nothing at all.  For the administrator it flips the access mode
    (public becomes private, anything else becomes public), writes the new
    configuration to its file first, and leaves the conversation states, the
    scratch data and the registry alone; the administrator stays allowed; and
    toggling twice from either mode gives back the configuration. *)
Theorem X16_toggleMode_flips {E : Env} (chatID userID : Z) (s : St) :
  let o := toggleMode chatID userID s in
  value o = Some tt
  /\ (userID <> AdminID (config s) -> trace o = [] /\ post o = s)
  /\ (userID = AdminID (config s) ->
      config (post o) = flipped (config s)
      /\ (exists rest, trace o = EvSaveConfig (flipped (config s)) :: rest)
      /\ isAllowed (config (post o)) userID = true
      /\ userStates (post o) = userStates s
      /\ tempUserData (post o) = tempUserData s
      /\ activeChats (post o) = activeChats s
      /\ (Mode (config s) = "public" \/ Mode (config s) = "private" ->
          config (post (toggleMode chatID userID (post o))) = config s)).
Proof.
  cbv zeta. split; [apply total_unit, toggleMode_total|]. split.
  - intros Hne. rewrite (toggleMode_other chatID userID s Hne). split; reflexivity.
  - intros ->.
    destruct (toggleMode_admin chatID s) as (Hcf & Htr & Hus & Htd & Hac).
    cbv zeta in *.
    split; [exact Hcf|]. split; [exact Htr|]. split.
    { rewrite Hcf. unfold isAllowed, flipped. cbn. rewrite Z.eqb_refl.
      apply orb_true_r. }
    split; [exact Hus|]. split; [exact Htd|]. split; [exact Hac|].
    intros Hmode.
    set (s1 := post (toggleMode chatID (AdminID (config s)) s)) in *.
    assert (Hadm : AdminID (config s) = AdminID (config s1)) by (rewrite Hcf; reflexivity).
    rewrite Hadm.
    destruct (toggleMode_admin chatID s1) as (Hcf1 & _). cbv zeta in Hcf1.
    rewrite Hcf1, Hcf. apply flipped_twice, Hmode.
Qed.

Lemma X16_toggleMode_flips_witness :
  let s := demoState "private" [1; 2] [] [] in
  (let o := toggleMode (E := demoEnv) 2 2 s in trace o = [] /\ post o = s)
  /\ (let o := toggleMode (E := demoEnv) 1 1 s in
      config (post o) = flipped (config s)
      /\ (exists rest, trace o = EvSaveConfig (flipped (config s)) :: rest)
      /\ isAllowed (config (post o)) 1 = true
      /\ userStates (post o) = userStates s
      /\ tempUserData (post o) = tempUserData s
      /\ activeChats (post o) = activeChats s
      /\ (Mode (config s) = "public" \/ Mode (config s) = "private" ->
          config (post (toggleMode 1 1 (post o))) = config s)).
Proof.
  intros s. split.
  - apply (X16_toggleMode_flips (E := demoEnv) 2 2 s). discriminate.
  - apply (X16_toggleMode_flips (E := demoEnv) 1 1 s). reflexivity.
Defined.

(** ** The create and renew flows *)

Ltac noApi_side :=
  first [ exact (fun _ _ => I) | exact (fun _ _ _ => I)
        | intros; exact I | exact I | idtac ].

Section Flows.
Context {E : Env}.

Lemma validateUsername_valid chatID (text : string) s :
  3 <= Go.len text <= 20 -> Go.matchName text = true ->
  validateUsername chatID text s = mkOut [] s (Some true).
Proof.
  intros Hlen Hm. unfold validateUsername.
  destruct (Z.ltb_spec (Go.len text) 3); [lia|].
  destruct (Z.ltb_spec 20 (Go.len text)); [lia|].
  cbn [orb]. rewrite Hm. reflexivity.
Qed.

Lemma handleState_name v (msg : TgMessage) s :
  handleState v msg "create_username" s
  = bind (validateUsername (MChatID msg) (Go.TrimSpace (MText msg)))
      (fun ok =>
         if negb ok then ret tt
         else
           s <- get ;;
           match tempUserData s !! MFromID msg with
           | None => panic
           | Some temp =>
               modify (set_tempUserData
                         <[MFromID msg := <["username" := Go.TrimSpace (MText msg)]> temp]>) ;;;
               modify (set_userStates <[MFromID msg := "create_days"]>) ;;;
               sendMessage (MChatID msg) (Lit "⏳ Masukkan Durasi (hari):")
           end) s.
Proof. reflexivity. Qed.

Lemma validateNumber_valid chatID (text : string) lo hi fieldName days s :
  Go.Atoi text = (days, true) -> lo <= days <= hi ->
  validateNumber chatID text lo hi fieldName s = mkOut [] s (Some (days, true)).
Proof.
  intros Ha Hr. unfold validateNumber. rewrite Ha.
  destruct (Z.ltb_spec days lo); [lia|].
  destruct (Z.ltb_spec hi days); [lia|]. reflexivity.
Qed.

Lemma validateNumber_invalid chatID (text : string) lo hi fieldName s :
  (Go.Atoi text).2 = false \/ (Go.Atoi text).1 < lo \/ hi < (Go.Atoi text).1 ->
  let prompt := sendMessage chatID
                  (Sprintf "❌ %s harus angka positif (%d-%d). Coba lagi:"
                     [AStr fieldName; AInt lo; AInt hi]) s in
  validateNumber chatID text lo hi fieldName s
  = mkOut (trace prompt) (post prompt) (Some (0, false)).
Proof.
  intros H. cbv zeta. unfold validateNumber. destruct (Go.Atoi text) as [val ok].
  cbn [fst snd] in H.
  assert (Hc : negb ok || (val <? lo) || (hi <? val) = true).
  { destruct H as [->|[H|H]]; [reflexivity | |].
    - apply Z.ltb_lt in H. rewrite H. rewrite orb_true_r. reflexivity.
    - apply Z.ltb_lt in H. rewrite H. rewrite orb_true_r. reflexivity. }
  rewrite Hc.
  rewrite (bind_some _ _ _ _ (proj1 (sendMessage_run _ _ _))).
  cbn. rewrite app_nil_r. reflexivity.
Qed.

(** The two duration steps and the endpoint each calls. *)
Lemma handleState_days v (msg : TgMessage) (state endpoint : string) s :
  (state, endpoint) ∈ [("create_days", "/user/create"); ("renew_days", "/user/renew")] ->
  handleState v msg state s
  = bind (validateNumber (MChatID msg) (Go.TrimSpace (MText msg)) 1 9999 "Durasi")
      (fun r =>
         if negb r.2 then ret tt
         else
           s <- get ;;
           accountCall endpoint (MChatID msg)
             (default "" (tempUserData s !! MFromID msg ≫= fun temp => temp !! "username"))
             r.1 ;;;
           resetState (MFromID msg)) s.
Proof.
  intros H. apply elem_of_cons in H as [[= -> ->]|H]; [reflexivity|].
  apply elem_of_cons in H as [[= -> ->]|H]; [reflexivity|]. inversion H.
Qed.

Lemma ApiCall_run method endpoint payload s :
  ApiCall method endpoint payload s
  = mkOut [EvApiCall method endpoint payload]
      (set_world (apiCall method endpoint payload (world s)).2 s)
      (Some (apiCall method endpoint payload (world s)).1).
Proof. reflexivity. Qed.

Lemma accountCall_trace endpoint chatID username days s :
  exists rest,
    trace (accountCall endpoint chatID username days s)
    = EvApiCall "POST" endpoint [("password", AStr username); ("days", AInt days)] :: rest
    /\ Forall noApiCall rest.
Proof.
  unfold accountCall. rewrite (bind_step _ _ _ _ _ _ (ApiCall_run _ _ _ _)).
  cbn [trace app]. eexists. split; [reflexivity|].
  match goal with
  | |- Forall _ (trace (?m ?s1)) =>
      assert (Hm : sat (fun _ => True) noApiCall m) by sat_go ltac:(noApi_side);
      apply (Hm s1 I)
  end.
Qed.

(** A call that returns leaves the conversation state and the scratch data
    as they were. *)
Lemma accountCall_sameFlow s0 endpoint chatID username days :
  sat (sameFlow s0) anyEvent (accountCall endpoint chatID username days).
Proof. sat_go ltac:(first [ frame_side | exact I ]). Qed.

Lemma sendMessage_noApi chatID text :
  sat (fun _ => True) noApiCall (sendMessage chatID text).
Proof. sat_go ltac:(noApi_side). Qed.

End Flows.

(** X17.  The name step of the create flow accepts a name of 3 to 20 bytes
    from [A-Za-z0-9_-] (the text trimmed): the name is put into the scratch
    data under [username], the user moves on to the duration step and is
    asked for the duration.  Without a scratch mapping for the user the write
    is a write to a nil map: the handler panics, having changed nothing. *)
Theorem X17_valid_name_advances {E : Env} (v : Variant) (msg : TgMessage) (s : St) :
  let text := Go.TrimSpace (MText msg) in
  let user := MFromID msg in
  let o := handleState v msg "create_username" s in
  3 <= Go.len text <= 20 ->
  Go.matchName text = true ->
  match tempUserData s !! user with
  | Some temp =>
      value o = Some tt
      /\ userStates (post o) = <[user := "create_days"]> (userStates s)
      /\ tempUserData (post o)
         = <[user := <["username" := text]> temp]> (tempUserData s)
      /\ trace o
         = trace (sendMessage (MChatID msg) (Lit "⏳ Masukkan Durasi (hari):")
                    (set_userStates <[user := "create_days"]>
                       (set_tempUserData <[user := <["username" := text]> temp]> s)))
  | None => value o = None /\ trace o = [] /\ post o = s
  end.
Proof.
  intros text user o Hlen Hm. subst o. rewrite handleState_name.
  fold text. fold user.
  rewrite (bind_step _ _ _ _ _ _ (validateUsername_valid _ _ s Hlen Hm)).
  cbn [negb app]. rewrite bind_get.
  destruct (tempUserData s !! user) as [temp|] eqn:Ht.
  - rewrite !bind_modify.
    match goal with
    | |- context [sendMessage ?c ?t ?s1] =>
        destruct (sendMessage_run c t s1) as [Hv (Hus & Htd & _)]
    end.
    cbn [trace post value]. repeat split; assumption.
  - repeat split.
Qed.

Lemma X17_valid_name_advances_witness :
  let msg := textMessage 2 " budi_01 " in
  let s := set_tempUserData <[2 := ∅]>
             (demoState "public" [1; 2] [(2, "create_username")] []) in
  let o := handleState (E := demoEnv) Part001 msg "create_username" s in
  value o = Some tt
  /\ userStates (post o) = <[2 := "create_days"]> (userStates s)
  /\ tempUserData (post o) = <[2 := <["username" := "budi_01"]> ∅]> (tempUserData s)
  /\ trace o
     = trace (sendMessage 2 (Lit "⏳ Masukkan Durasi (hari):")
                (set_userStates <[2 := "create_days"]>
                   (set_tempUserData <[2 := <["username" := "budi_01"]> ∅]> s))).
Proof.
  intros msg s.
  apply (X17_valid_name_advances (E := demoEnv) Part001 msg s).
  - vm_compute. split; discriminate.
  - reflexivity.
Defined.

(** X18.  The duration step of the create and renew flows.  A text that is
    not a number, or a number outside 1..9999, is answered with the prompt
    only: no API call is made and the user stays in the step.  A number
    within the range makes exactly one API call, the first thing the handler
    does: a POST to the endpoint of the flow with the stored name and the
    number; and when the handler returns the user's conversation state and
    scratch data are cleared, whatever the API answered. *)
Theorem X18_days_step {E : Env} (v : Variant) (msg : TgMessage) (s : St)
  (state endpoint : string) :
  (state, endpoint) ∈ [("create_days", "/user/create"); ("renew_days", "/user/renew")] ->
  let text := Go.TrimSpace (MText msg) in
  let user := MFromID msg in
  let name := default "" (tempUserData s !! user ≫= fun temp => temp !! "username") in
  let o := handleState v msg state s in
  ((Go.Atoi text).2 = false \/ (Go.Atoi text).1 < 1 \/ 9999 < (Go.Atoi text).1 ->
   value o = Some tt
   /\ userStates (post o) = userStates s
   /\ tempUserData (post o) = tempUserData s
   /\ Forall noApiCall (trace o))
  /\ (forall days,
        Go.Atoi text = (days, true) -> 1 <= days <= 9999 ->
        exists rest,
          trace o
          = EvApiCall "POST" endpoint [("password", AStr name); ("days", AInt days)]
            :: rest
          /\ Forall noApiCall rest
          /\ (value o = Some tt ->
              userStates (post o) !! user = None
              /\ tempUserData (post o) !! user = None)).
Proof.
  intros Hflow text user name o. subst o.
  rewrite (handleState_days v msg state endpoint s Hflow). fold text. fold user.
  split.
  - intros Hbad.
    rewrite (bind_step _ _ _ _ _ _ (validateNumber_invalid _ _ _ _ _ s Hbad)).
    destruct (sendMessage_run (MChatID msg)
                (Sprintf "❌ %s harus angka positif (%d-%d). Coba lagi:"
                   [AStr "Durasi"; AInt 1; AInt 9999]) s) as [_ (Hus & Htd & _)].
    cbn [trace post value app negb snd]. rewrite app_nil_r.
    repeat split; try assumption.
    apply (sendMessage_noApi _ _ s I).
  - intros days Hd Hr.
    rewrite (bind_step _ _ _ _ _ _ (validateNumber_valid _ _ _ _ _ _ s Hd Hr)).
    cbn [negb snd fst app]. rewrite bind_get. fold name.
    destruct (accountCall_trace endpoint (MChatID msg) name days s)
      as (rest & Htr & Hrest).
    destruct (value (accountCall endpoint (MChatID msg) name days s)) as [[]|] eqn:Hv.
    + rewrite (bind_some _ _ _ _ Hv). rewrite resetState_run.
      cbn [trace post value]. rewrite Htr, app_nil_r.
      exists rest. split; [reflexivity|]. split; [exact Hrest|].
      intros _. cbn. split; apply lookup_delete_eq.
    + rewrite (bind_none _ _ _ Hv). cbn [trace post value]. rewrite Htr.
      exists rest. split; [reflexivity|]. split; [exact Hrest|]. discriminate.
Qed.

Lemma X18_days_step_witness :
  let s := set_tempUserData <[2 := {["username" := "budi_01"]}]>
             (demoState "public" [1; 2] [(2, "renew_days")] []) in
  (let o := handleState (E := demoEnv) ZivpnBot (textMessage 2 "10000") "renew_days" s in
   value o = Some tt
   /\ userStates (post o) = userStates s
   /\ tempUserData (post o) = tempUserData s
   /\ Forall noApiCall (trace o))
  /\ (let o := handleState (E := demoEnv) ZivpnBot (textMessage 2 " 30 ") "renew_days" s in
      exists rest,
        trace o
        = EvApiCall "POST" "/user/renew" [("password", AStr "budi_01"); ("days", AInt 30)]
          :: rest
        /\ Forall noApiCall rest
        /\ (value o = Some tt ->
            userStates (post o) !! 2 = None /\ tempUserData (post o) !! 2 = None)).
Proof.
  intros s. split.
  - apply (X18_days_step (E := demoEnv) ZivpnBot (textMessage 2 "10000") s
             "renew_days" "/user/renew").
    + right. left.
    + right. right. vm_compute. reflexivity.
  - apply (X18_days_step (E := demoEnv) ZivpnBot (textMessage 2 " 30 ") s
             "renew_days" "/user/renew").
    + right. left.
    + reflexivity.
    + lia.
Defined.

(** ** Answers the API should not give *)

Section Envelope.
Context {E : Env}.

Lemma accountCall_no_object endpoint chatID username days s res :
  (apiCall "POST" endpoint [("password", AStr username); ("days", AInt days)]
     (world s)).1 = inr res ->
  isTrue (field "success" res) = true ->
  (forall data, field "data" res <> Some (JObj data)) ->
  let o := accountCall endpoint chatID username days s in
  value o = None
  /\ trace o = [EvApiCall "POST" endpoint [("password", AStr username); ("days", AInt days)]]
  /\ sameFlow s (post o).
Proof.
  intros Hr Hs Hd. cbv zeta. unfold accountCall.
  rewrite (bind_step _ _ _ _ _ _ (ApiCall_run _ _ _ _)). rewrite Hr, Hs.
  destruct (field "data" res) as [[]|]; try (repeat split; fail).
  exfalso. eapply Hd. reflexivity.
Qed.

Lemma listUsers_no_array chatID s res :
  (apiCall "GET" "/users" [] (world s)).1 = inr res ->
  isTrue (field "success" res) = true ->
  (forall users, field "data" res <> Some (JArr users)) ->
  let o := listUsers chatID s in
  value o = None /\ trace o = [EvApiCall "GET" "/users" []].
Proof.
  intros Hr Hs Hd. cbv zeta. unfold listUsers.
  rewrite (bind_step _ _ _ _ _ _ (ApiCall_run _ _ _ _)). rewrite Hr, Hs.
  destruct (field "data" res) as [[]|]; try (repeat split; fail).
  exfalso. eapply Hd. reflexivity.
Qed.

Lemma systemInfo_no_object v chatID s res :
  (apiCall "GET" "/info" [] (world s)).1 = inr res ->
  isTrue (field "success" res) = true ->
  (forall data, field "data" res <> Some (JObj data)) ->
  let o := systemInfo v chatID s in
  value o = None /\ trace o = [EvApiCall "GET" "/info" []].
Proof.
  intros Hr Hs Hd. cbv zeta. unfold systemInfo.
  rewrite (bind_step _ _ _ _ _ _ (ApiCall_run _ _ _ _)). rewrite Hr, Hs.
  destruct (field "data" res) as [[]|]; try (repeat split; fail).
  exfalso. eapply Hd. reflexivity.
Qed.

End Envelope.

(** X19.  A success envelope without the payload the code asserts crashes
    the handler.  When the API answers [success: true] but [data] is not an
    object, [systemInfo] panics on the type assertion right after the call,
    and so do [createUser] and [renewUser]; [listUsers] panics when [data]
    is not an array.  In the duration step the panic comes before the state
    is cleared: the user is left in the step. *)
Theorem X19_success_without_payload_panics {E : Env} (v : Variant)
  (msg : TgMessage) (chatID : Z) (s : St) (res : list (string * Json))
  (state endpoint : string) (days : Z) :
  isTrue (field "success" res) = true ->
  let notObject := forall data, field "data" res <> Some (JObj data) in
  let notArray := forall users, field "data" res <> Some (JArr users) in
  let name :=
    default "" (tempUserData s !! MFromID msg ≫= fun temp => temp !! "username") in
  (notObject ->
   (apiCall "GET" "/info" [] (world s)).1 = inr res ->
   value (systemInfo v chatID s) = None)
  /\ (notArray ->
      (apiCall "GET" "/users" [] (world s)).1 = inr res ->
      value (listUsers chatID s) = None)
  /\ (notObject ->
      (state, endpoint) ∈ [("create_days", "/user/create"); ("renew_days", "/user/renew")] ->
      Go.Atoi (Go.TrimSpace (MText msg)) = (days, true) -> 1 <= days <= 9999 ->
      (apiCall "POST" endpoint [("password", AStr name); ("days", AInt days)]
         (world s)).1 = inr res ->
      let o := handleState v msg state s in
      value o = None
      /\ trace o = [EvApiCall "POST" endpoint [("password", AStr name); ("days", AInt days)]]
      /\ userStates (post o) = userStates s
      /\ tempUserData (post o) = tempUserData s).
Proof.
  intros Hs notObject notArray name. split; [|split].
  - intros Hd Hres. apply (systemInfo_no_object v chatID s res Hres Hs Hd).
  - intros Hd Hres. apply (listUsers_no_array chatID s res Hres Hs Hd).
  - intros Hd Hflow Hdays Hr Hres. cbv zeta.
    rewrite (handleState_days v msg state endpoint s Hflow).
    rewrite (bind_step _ _ _ _ _ _ (validateNumber_valid _ _ _ _ _ _ s Hdays Hr)).
    cbn [negb snd fst app]. rewrite bind_get.
    destruct (accountCall_no_object endpoint (MChatID msg) name days s res Hres Hs Hd)
      as (Hv & Htr & Hus & Htd & _).
    rewrite (bind_none _ _ _ Hv). cbn [trace post value]. repeat split; assumption.
Qed.

Lemma X19_success_without_payload_panics_witness :
  let w := {| sendResults := []; apiAnswer := inr [("success", JBool true)];
              fileContent := None; fetched := GetFileError; writable := true |} in
  let s := scriptState w "public" [1; 2] [(2, "create_days")] in
  value (systemInfo (E := scriptEnv) Part001 1 s) = None
  /\ value (listUsers (E := scriptEnv) 1 s) = None
  /\ (let o := handleState (E := scriptEnv) Part001 (textMessage 2 "30") "create_days" s in
      value o = None
      /\ trace o = [EvApiCall "POST" "/user/create" [("password", AStr ""); ("days", AInt 30)]]
      /\ userStates (post o) = userStates s
      /\ tempUserData (post o) = tempUserData s).
Proof.
  intros w s.
  destruct (X19_success_without_payload_panics (E := scriptEnv) Part001
              (textMessage 2 "30") 1 s [("success", JBool true)]
              "create_days" "/user/create" 30 eq_refl) as (Hinfo & Hlist & Hstep).
  split; [|split].
  - apply Hinfo; [discriminate | reflexivity].
  - apply Hlist; [discriminate | reflexivity].
  - apply Hstep; [discriminate | left | reflexivity | lia | reflexivity].
Defined.

(** ** Selection and confirmation tokens *)

Section Tokens.
Context {E : Env}.

Lemma switchCase_select_renew v rest :
  switchCase v ("select_renew:" +:+ rest) = select_renew.
Proof.
  unfold switchCase.
  rewrite !(eqb_append_false "s" "elect_renew:" rest) by reflexivity.
  rewrite andb_false_r. unfold Go.HasPrefix.
  rewrite (string_prefix_append "select_renew:" rest).
  change ("select_renew:" +:+ rest) with
    (String "s" (String "e" ("lect_renew:" +:+ rest))).
  reflexivity.
Qed.

Lemma switchCase_select_user_msg v rest :
  switchCase v ("select_user_msg:" +:+ rest) = select_user_msg.
Proof.
  unfold switchCase.
  rewrite !(eqb_append_false "s" "elect_user_msg:" rest) by reflexivity.
  rewrite andb_false_r. unfold Go.HasPrefix.
  rewrite (string_prefix_append "select_user_msg:" rest).
  change ("select_user_msg:" +:+ rest) with
    (String "s" (String "e" (String "l" (String "e" (String "c" (String "t"
       (String "_" (String "u" ("ser_msg:" +:+ rest))))))))).
  reflexivity.
Qed.

Lemma switchCase_confirm_delete v rest :
  switchCase v ("confirm_delete:" +:+ rest) = confirm_delete.
Proof.
  unfold switchCase.
  rewrite !(eqb_append_false "c" "onfirm_delete:" rest) by reflexivity.
  rewrite andb_false_r. unfold Go.HasPrefix.
  rewrite (string_prefix_append "confirm_delete:" rest).
  change ("confirm_delete:" +:+ rest) with (String "c" ("onfirm_delete:" +:+ rest)).
  reflexivity.
Qed.

End Tokens.

Section Clicks.
Context {E : Env}.

Lemma run_eta {A} (m : M A) s a :
  value (m s) = Some a -> m s = mkOut (trace (m s)) (post (m s)) (Some a).
Proof. intros H. rewrite <- H. symmetry. apply out_eta. Qed.

Lemma Request_run r s :
  Request r s = mkOut [EvRequest r] (set_world (bot_Request r (world s)) s) (Some tt).
Proof. reflexivity. Qed.

(** A click that is let in and whose case body returns. *)
Lemma handleCallback_returns v query s s' t :
  denied (config s) query = false ->
  (forall s1, sameFlow s s1 ->
     caseBody v (switchCase v (QData query)) query s1 = mkOut (t s1) (s' s1) (Some tt)
     /\ Forall noAck (t s1)) ->
  let saved := saveChatSession v (QFromID query) (QChatID query) (QFromUserName query) s in
  let o := handleCallback v query s in
  value o = Some tt
  /\ trace o = trace saved ++ t (post saved) ++ [EvRequest (Callback (QID query) "")]
  /\ acks (trace o) = [(QID query, "")]
  /\ userStates (post o) = userStates (s' (post saved))
  /\ tempUserData (post o) = tempUserData (s' (post saved))
  /\ activeChats (post o) = activeChats (s' (post saved))
  /\ config (post o) = config (s' (post saved)).
Proof.
  intros Hd Hbody. cbv zeta.
  rewrite (handleCallback_allowed v query s Hd).
  destruct (saveChatSession_run v (QFromID query) (QChatID query) (QFromUserName query) s)
    as [_ Hflow].
  destruct (Hbody _ Hflow) as [Heq Hno].
  rewrite (bind_step _ _ _ _ _ _ Heq). rewrite Request_run.
  cbn [trace post value]. repeat split.
  rewrite !acks_app. rewrite (noAck_acks _ Hno).
  rewrite (noAck_acks _ (proj2 (saveChatSession_noAck _ _ _ _ s I))).
  reflexivity.
Qed.

Lemma sendMessage_noAck chatID text :
  sat (fun _ => True) noAck (sendMessage chatID text).
Proof. sat_go ltac:(noAck_side). Qed.

Lemma showMainMenu_noAck chatID :
  sat (fun _ => True) noAck (showMainMenu chatID).
Proof. sat_go ltac:(noAck_side). Qed.

Lemma startRenewUser_run chatID userID username s :
  let s1 := set_userStates <[userID := "renew_days"]>
              (set_tempUserData <[userID := {["username" := username]}]> s) in
  let prompt := sendMessage chatID
                  (Sprintf "🔄 Renewing %s\n⏳ Masukkan Tambahan Durasi (hari):"
                     [AStr username]) s1 in
  startRenewUser chatID userID ("select_renew:" +:+ username) s
  = mkOut (trace prompt) (post prompt) (Some tt).
Proof.
  cbv zeta. unfold startRenewUser. rewrite TrimPrefix_append.
  rewrite !bind_modify. apply run_eta, sendMessage_run.
Qed.

Lemma startPrivateMessage_run v chatID userID username s :
  exists text,
    let s1 := set_userStates <[userID := "private_message"]>
                (set_tempUserData <[userID := {["target_user" := username]}]> s) in
    let prompt := sendMessage chatID text s1 in
    startPrivateMessage v chatID userID username s
    = mkOut (trace prompt) (post prompt) (Some tt).
Proof.
  unfold startPrivateMessage. destruct v; eexists; cbv zeta; rewrite !bind_modify;
    apply run_eta, sendMessage_run.
Qed.

Lemma cancelOperation_run chatID userID s :
  let s1 := set_tempUserData (delete userID) (set_userStates (delete userID) s) in
  let menu := showMainMenu chatID s1 in
  cancelOperation chatID userID s = mkOut (trace menu) (post menu) (Some tt).
Proof.
  cbv zeta. unfold cancelOperation.
  rewrite (bind_step _ _ _ _ _ _ (resetState_run _ _)). cbn [app].
  rewrite <- (run_eta _ _ _ (proj1 (calm_run _ _ (showMainMenu_calm chatID)))).
  apply out_eta.
Qed.

End Clicks.

(** X20.  Choosing an account starts the flow for it.  A click on
    [select_renew:<name>] that is let in puts the user into the duration step
    of the renew flow with that name in the scratch data; a click on
    [select_user_msg:<name>] puts the user into the private message step
    with that name as the target.  Either way the click is answered once,
    and nothing is asked of the API yet. *)
Theorem X20_selection_starts_flow {E : Env} (v : Variant) (query : CallbackQuery)
  (username : string) (s : St) :
  denied (config s) query = false ->
  let user := QFromID query in
  let o := handleCallback v query s in
  (QData query = "select_renew:" +:+ username ->
   value o = Some tt
   /\ userStates (post o) = <[user := "renew_days"]> (userStates s)
   /\ tempUserData (post o) = <[user := {["username" := username]}]> (tempUserData s)
   /\ acks (trace o) = [(QID query, "")]
   /\ Forall noApiCall (trace o))
  /\ (QData query = "select_user_msg:" +:+ username ->
      value o = Some tt
      /\ userStates (post o) = <[user := "private_message"]> (userStates s)
      /\ tempUserData (post o)
         = <[user := {["target_user" := username]}]> (tempUserData s)
      /\ acks (trace o) = [(QID query, "")]
      /\ Forall noApiCall (trace o)).
Proof.
  intros Hd user o. subst o.
  assert (Hsave : sat (fun _ => True) noApiCall
                    (saveChatSession v (QFromID query) (QChatID query)
                       (QFromUserName query)))
    by (destruct v; sat_go ltac:(noApi_side)).
  split; intros Hdata.
  - destruct (handleCallback_returns v query s
                (fun s1 => post (sendMessage (QChatID query)
                   (Sprintf "🔄 Renewing %s\n⏳ Masukkan Tambahan Durasi (hari):"
                      [AStr username])
                   (set_userStates <[user := "renew_days"]>
                      (set_tempUserData <[user := {["username" := username]}]> s1))))
                (fun s1 => trace (sendMessage (QChatID query)
                   (Sprintf "🔄 Renewing %s\n⏳ Masukkan Tambahan Durasi (hari):"
                      [AStr username])
                   (set_userStates <[user := "renew_days"]>
                      (set_tempUserData <[user := {["username" := username]}]> s1))))
                Hd) as (Hv & Ht & Ha & Hus & Htd & _).
    { intros s1 _. rewrite Hdata, switchCase_select_renew. unfold caseBody.
      rewrite bind_get, Hdata. split; [apply startRenewUser_run|].
      apply (sendMessage_noAck _ _ _ I). }
    cbv zeta in *.
    destruct (saveChatSession_run v (QFromID query) (QChatID query)
                (QFromUserName query) s) as [_ (Hus0 & Htd0 & _)].
    match type of Hus with
    | _ = userStates (post (sendMessage ?c ?t ?s1)) =>
        destruct (sendMessage_run c t s1) as [_ (Hus1 & Htd1 & _)];
        destruct (sendMessage_noApi c t s1 I) as [_ Hq]
    end.
    split; [exact Hv|]. split; [rewrite Hus, Hus1; cbn; rewrite Hus0; reflexivity|].
    split; [rewrite Htd, Htd1; cbn; rewrite Htd0; reflexivity|].
    split; [exact Ha|].
    rewrite Ht. repeat (apply Forall_app; split);
      first [ assumption | apply (Hsave s I) | repeat constructor ].
  - destruct (startPrivateMessage_run v (QChatID query) user username s) as [text _].
    destruct (handleCallback_returns v query s
                (fun s1 => post (startPrivateMessage v (QChatID query) user username s1))
                (fun s1 => trace (startPrivateMessage v (QChatID query) user username s1))
                Hd) as (Hv & Ht & Ha & Hus & Htd & _).
    { intros s1 _. rewrite Hdata, switchCase_select_user_msg. unfold caseBody.
      rewrite bind_get, Hdata, TrimPrefix_append.
      destruct (startPrivateMessage_run v (QChatID query) user username s1) as [t1 Heq].
      cbv zeta in Heq. split.
      - apply run_eta. rewrite Heq. reflexivity.
      - rewrite Heq. apply (sendMessage_noAck _ _ _ I). }
    cbv zeta in *.
    destruct (saveChatSession_run v (QFromID query) (QChatID query)
                (QFromUserName query) s) as [_ (Hus0 & Htd0 & _)].
    set (s1 := post (saveChatSession v (QFromID query) (QChatID query)
                       (QFromUserName query) s)) in *.
    destruct (startPrivateMessage_run v (QChatID query) user username s1) as [t1 Heq].
    cbv zeta in Heq. rewrite Heq in Hus, Htd, Ht. cbn [trace post] in Hus, Htd, Ht.
    match type of Hus with
    | _ = userStates (post (sendMessage ?c ?t ?s2)) =>
        destruct (sendMessage_run c t s2) as [_ (Hus1 & Htd1 & _)];
        destruct (sendMessage_noApi c t s2 I) as [_ Hq]
    end.
    split; [exact Hv|]. split; [rewrite Hus, Hus1; cbn; rewrite Hus0; reflexivity|].
    split; [rewrite Htd, Htd1; cbn; rewrite Htd0; reflexivity|].
    split; [exact Ha|].
    rewrite Ht. repeat (apply Forall_app; split);
      first [ assumption | apply (Hsave s I) | repeat constructor ].
Qed.

Lemma X20_selection_starts_flow_witness :
  let s := demoState "public" [1; 2] [] [] in
  (let o := handleCallback (E := demoEnv) Part001 (click 2 "select_renew:alice") s in
   value o = Some tt
   /\ userStates (post o) = <[2 := "renew_days"]> (userStates s)
   /\ tempUserData (post o) = <[2 := {["username" := "alice"]}]> (tempUserData s)
   /\ acks (trace o) = [("q1", "")]
   /\ Forall noApiCall (trace o))
  /\ (let o := handleCallback (E := demoEnv) Part000 (click 2 "select_user_msg:alice") s in
      value o = Some tt
      /\ userStates (post o) = <[2 := "private_message"]> (userStates s)
      /\ tempUserData (post o) = <[2 := {["target_user" := "alice"]}]> (tempUserData s)
      /\ acks (trace o) = [("q1", "")]
      /\ Forall noApiCall (trace o)).
Proof.
  intros s. split.
  - apply (X20_selection_starts_flow (E := demoEnv) Part001
             (click 2 "select_renew:alice") "alice" s); reflexivity.
  - apply (X20_selection_starts_flow (E := demoEnv) Part000
             (click 2 "select_user_msg:alice") "alice" s); reflexivity.
Defined.

(** ** Deleting an account *)

Section Delete.
Context {E : Env}.

Lemma deleteUser_trace chatID username s :
  exists rest,
    trace (deleteUser chatID username s)
    = EvApiCall "POST" "/user/delete" [("password", AStr username)] :: rest
    /\ Forall noApiCall rest /\ Forall noAck rest.
Proof.
  unfold deleteUser. rewrite (bind_step _ _ _ _ _ _ (ApiCall_run _ _ _ _)).
  cbn [trace app]. eexists. split; [reflexivity|].
  match goal with
  | |- Forall _ (trace (?m ?s1)) /\ _ =>
      assert (Hm : sat (fun _ => True) noApiCall m) by sat_go ltac:(noApi_side);
      assert (Hn : sat (fun _ => True) noAck m) by sat_go ltac:(noAck_side);
      split; [apply (Hm s1 I) | apply (Hn s1 I)]
  end.
Qed.

Lemma deleteUser_total chatID username : total (deleteUser chatID username).
Proof. total_go. Qed.

Lemma deleteUser_sameFlow s0 chatID username :
  sat (sameFlow s0) anyEvent (deleteUser chatID username).
Proof. sat_go ltac:(first [ frame_side | exact I ]). Qed.

End Delete.

(** X21.  A confirmed deletion deletes the account that was confirmed.  The
    question that [confirmDeleteUser] sends for the token
    [select_delete:<name>] carries two buttons, whose tokens are
    [confirm_delete:<name>] and [cancel]; and a click on
    [confirm_delete:<name>] that is let in asks the API, once and before
    anything is sent, to delete exactly that name, whoever clicks and
    whatever the conversation state, which it leaves as it was. *)
Theorem X21_confirmed_delete {E : Env} (v : Variant) (chatID : Z) (username : string)
  (query : CallbackQuery) (s0 s : St) :
  (exists m result,
     last (trace (confirmDeleteUser chatID ("select_delete:" +:+ username) s0))
       = Some (EvSend (Message m) result)
     /\ exists yes no,
          ReplyMarkup m = Some [[yes; no]]
          /\ literal (CallbackData yes) = Some ("confirm_delete:" +:+ username)
          /\ literal (CallbackData no) = Some "cancel")
  /\ (QData query = "confirm_delete:" +:+ username ->
      denied (config s) query = false ->
      let saved := saveChatSession v (QFromID query) (QChatID query)
                     (QFromUserName query) s in
      let o := handleCallback v query s in
      value o = Some tt
      /\ (exists rest,
            trace o
            = trace saved
              ++ EvApiCall "POST" "/user/delete" [("password", AStr username)] :: rest
            /\ Forall noApiCall rest)
      /\ acks (trace o) = [(QID query, "")]
      /\ userStates (post o) = userStates s
      /\ tempUserData (post o) = tempUserData s).
Proof.
  split.
  - unfold confirmDeleteUser. rewrite TrimPrefix_append.
    match goal with
    | |- context [sendAndTrack ?m ?s1] =>
        destruct (sendAndTrack_run m s1) as (result & _ & Ht & _);
        exists m, result
    end.
    cbv zeta in Ht. rewrite Ht, last_snoc. split; [reflexivity|].
    eexists _, _. split; [reflexivity|]. split; reflexivity.
  - intros Hdata Hd. cbv zeta.
    destruct (handleCallback_returns v query s
                (fun s1 => post (deleteUser (QChatID query) username s1))
                (fun s1 => trace (deleteUser (QChatID query) username s1))
                Hd) as (Hv & Ht & Ha & Hus & Htd & _).
    { intros s1 _. rewrite Hdata, switchCase_confirm_delete. unfold caseBody.
      rewrite bind_get, Hdata, TrimPrefix_append. split.
      - apply run_eta, total_unit, deleteUser_total.
      - destruct (deleteUser_trace (QChatID query) username s1) as (rest & -> & _ & Hn).
        constructor; [reflexivity | exact Hn]. }
    cbv zeta in *.
    destruct (saveChatSession_run v (QFromID query) (QChatID query)
                (QFromUserName query) s) as [_ (Hus0 & Htd0 & _)].
    set (s1 := post (saveChatSession v (QFromID query) (QChatID query)
                       (QFromUserName query) s)) in *.
    destruct (deleteUser_trace (QChatID query) username s1) as (rest & Hrest & Hno & _).
    destruct (deleteUser_sameFlow s1 (QChatID query) username s1)
      as [(Hus1 & Htd1 & _) _]; [repeat split|].
    split; [exact Hv|]. split.
    { exists (rest ++ [EvRequest (Callback (QID query) "")]).
      rewrite Ht, Hrest. split; [reflexivity|].
      apply Forall_app. split; [exact Hno | repeat constructor]. }
    split; [exact Ha|].
    split; [rewrite Hus, Hus1; exact Hus0 | rewrite Htd, Htd1; exact Htd0].
Qed.

Lemma X21_confirmed_delete_witness :
  let s := demoState "public" [1; 2] [(2, "create_days")] [] in
  let saved := saveChatSession (E := demoEnv) ZivpnBot 2 2 "" s in
  let o := handleCallback ZivpnBot (click 2 "confirm_delete:alice") s in
  value o = Some tt
  /\ (exists rest,
        trace o
        = trace saved
          ++ EvApiCall "POST" "/user/delete" [("password", AStr "alice")] :: rest
        /\ Forall noApiCall rest)
  /\ acks (trace o) = [("q1", "")]
  /\ userStates (post o) = userStates s
  /\ tempUserData (post o) = tempUserData s.
Proof.
  intros s.
  apply (X21_confirmed_delete (E := demoEnv) ZivpnBot 2 "alice"
           (click 2 "confirm_delete:alice") s s); reflexivity.
Defined.

(** X22.  Cancel always leads back to idle.  A click on [cancel] that is let
    in clears the conversation state and the scratch data of the user who
    clicked, in whatever step that user was, leaves those of every other user
    alone, calls no API and is answered once. *)
Theorem X22_cancel_returns_to_idle {E : Env} (v : Variant) (query : CallbackQuery)
  (s : St) :
  QData query = "cancel" ->
  denied (config s) query = false ->
  let user := QFromID query in
  let o := handleCallback v query s in
  value o = Some tt
  /\ userStates (post o) = delete user (userStates s)
  /\ tempUserData (post o) = delete user (tempUserData s)
  /\ acks (trace o) = [(QID query, "")]
  /\ Forall noApiCall (trace o).
Proof.
  intros Hdata Hd user o. subst o.
  assert (Hsave : sat (fun _ => True) noApiCall
                    (saveChatSession v (QFromID query) (QChatID query)
                       (QFromUserName query)))
    by (destruct v; sat_go ltac:(noApi_side)).
  assert (Hmenu : sat (fun _ => True) noApiCall (showMainMenu (QChatID query)))
    by sat_go ltac:(noApi_side).
  destruct (handleCallback_returns v query s
              (fun s1 => post (showMainMenu (QChatID query)
                 (set_tempUserData (delete user) (set_userStates (delete user) s1))))
              (fun s1 => trace (showMainMenu (QChatID query)
                 (set_tempUserData (delete user) (set_userStates (delete user) s1))))
              Hd) as (Hv & Ht & Ha & Hus & Htd & _).
  { intros s1 _. rewrite Hdata.
    assert (Hcase : switchCase v "cancel" = cancel) by (destruct v; reflexivity).
    rewrite Hcase. unfold caseBody. rewrite bind_get. split.
    - apply cancelOperation_run.
    - apply (showMainMenu_noAck _ _ I). }
  cbv zeta in *.
  destruct (saveChatSession_run v (QFromID query) (QChatID query)
              (QFromUserName query) s) as [_ (Hus0 & Htd0 & _)].
  match type of Hus with
  | _ = userStates (post (showMainMenu ?c ?s2)) =>
      destruct (calm_run _ s2 (showMainMenu_calm c)) as (_ & (Hus1 & Htd1 & _) & _);
      destruct (Hmenu s2 I) as [_ Hq]
  end.
  split; [exact Hv|]. split; [rewrite Hus, Hus1; cbn; rewrite Hus0; reflexivity|].
  split; [rewrite Htd, Htd1; cbn; rewrite Htd0; reflexivity|].
  split; [exact Ha|].
  rewrite Ht. repeat (apply Forall_app; split);
    first [ assumption | apply (Hsave s I) | repeat constructor ].
Qed.

Lemma X22_cancel_returns_to_idle_witness :
  let s := demoState "public" [1; 2] [(1, "broadcast_message"); (2, "create_days")] [] in
  let o := handleCallback (E := demoEnv) Part001 (click 2 "cancel") s in
  value o = Some tt
  /\ userStates (post o) = delete 2 (userStates s)
  /\ tempUserData (post o) = delete 2 (tempUserData s)
  /\ acks (trace o) = [("q1", "")]
  /\ Forall noApiCall (trace o).
Proof.
  intros s.
  apply (X22_cancel_returns_to_idle (E := demoEnv) Part001 (click 2 "cancel") s);
    reflexivity.
Defined.

(** ** Restore *)

Ltac inert_side :=
  first [ exact (fun _ _ => I) | exact (fun _ _ _ => I)
        | intros; split; reflexivity | split; reflexivity
        | intros; reflexivity | reflexivity | idtac ].

Section RestoreRun.
Context {E : Env}.

Lemma peek_run {A} (f : World -> A * World) s :
  peek f s = mkOut [] (set_world (f (world s)).2 s) (Some (f (world s)).1).
Proof. reflexivity. Qed.

Lemma tell_run f ev s : tell f ev s = mkOut [ev] (set_world (f (world s)) s) (Some tt).
Proof. reflexivity. Qed.

Lemma emit_run e s : emit e s = mkOut [e] s (Some tt).
Proof. reflexivity. Qed.

Lemma commands_cons e t :
  omap command (e :: t)
  = match command e with Some c => c :: omap command t | None => omap command t end.
Proof. reflexivity. Qed.

Lemma commands_none t : Forall (fun e => command e = None) t -> omap command t = [].
Proof.
  induction 1 as [|e t He _ IH]; [reflexivity|]. cbn. rewrite He. exact IH.
Qed.

Lemma inert_commands t : Forall inert t -> omap command t = [].
Proof.
  intros H. apply commands_none. eapply Forall_impl; [exact H|]. intros e [Hc _]. exact Hc.
Qed.

Lemma sendMessage_inert chatID text : sat (fun _ => True) inert (sendMessage chatID text).
Proof. sat_go ltac:(inert_side). Qed.

Lemma replyError_inert chatID text : sat (fun _ => True) inert (replyError chatID text).
Proof. sat_go ltac:(inert_side). Qed.

Lemma showMainMenu_inert chatID : sat (fun _ => True) inert (showMainMenu chatID).
Proof. sat_go ltac:(inert_side). Qed.

Lemma restoreEntries_quiet files :
  sat (fun _ => True) (fun e => command e = None) (forEach files restoreEntry).
Proof. sat_go ltac:(inert_side). Qed.

Lemma restoreEntries_total files : total (forEach files restoreEntry).
Proof. total_go. Qed.

Lemma restoreEntries_sameFlow s0 files :
  sat (sameFlow s0) anyEvent (forEach files restoreEntry).
Proof. sat_go ltac:(first [ frame_side | exact I ]). Qed.

(** The part of [processRestoreFile] that follows the download of an
    archive. *)
Lemma unpack_run chatID files s :
  let o := (forEach files restoreEntry ;;;
            tell (exec_Run ["systemctl"; "restart"; "zivpn"])
                 (EvExec ["systemctl"; "restart"; "zivpn"]) ;;;
            tell (exec_Run ["systemctl"; "restart"; "zivpn-api"])
                 (EvExec ["systemctl"; "restart"; "zivpn-api"]) ;;;
            _ <- Send (Message (NewMessage chatID
                   (Lit "✅ Restore Berhasil!\nService ZiVPN, API, dan Bot telah direstart."))) ;;
            emit (EvGo ["systemctl"; "restart"; "zivpn-bot"]) ;;;
            showMainMenu chatID) s in
  value o = Some tt /\ sameFlow s (post o)
  /\ omap command (trace o)
     = [["systemctl"; "restart"; "zivpn"]; ["systemctl"; "restart"; "zivpn-api"];
        ["systemctl"; "restart"; "zivpn-bot"]].
Proof.
  cbv zeta. split; [|split].
  - apply total_unit. pose proof restoreEntries_total. total_go.
  - match goal with
    | |- sameFlow _ (post (?m _)) =>
        assert (Hm : sat (sameFlow s) anyEvent m)
    end.
    { pose proof (restoreEntries_sameFlow s).
      sat_go ltac:(first [ frame_side | exact I ]). }
    apply (Hm s). repeat split.
  - rewrite (bind_some _ _ _ _ (total_unit _ _ (restoreEntries_total files))).
    cbn [trace]. rewrite omap_app.
    rewrite (commands_none _ (proj2 (restoreEntries_quiet files s I))).
    cbn [app].
    set (s1 := post (forEach files restoreEntry s)).
    rewrite (bind_step _ _ _ _ _ _ (tell_run _ _ _)).
    rewrite (bind_step _ _ _ _ _ _ (tell_run _ _ _)).
    rewrite (bind_step _ _ _ _ _ _ (Send_run _ _)).
    rewrite (bind_step _ _ _ _ _ _ (emit_run _ _)).
    cbn [trace app]. rewrite !commands_cons. cbn [command].
    rewrite (inert_commands _ (proj2 (showMainMenu_inert chatID _ I))).
    reflexivity.
Qed.

End RestoreRun.

(** X23.  The outcomes of a restore.  [processRestoreFile] clears the
    conversation state of the uploader first, whatever happens next.  When
    the upload cannot be fetched, read or opened as a zip archive, no file
    is written and no service is restarted.  When the archive is opened, the
    services are restarted in the order [zivpn], [zivpn-api], and the restart
    of the bot itself is scheduled last; no other command is run. *)
Theorem X23_restore_outcomes {E : Env} (msg : TgMessage) (fileID : string) (s : St) :
  MDocument msg = Some fileID ->
  let user := MFromID msg in
  let s0 := set_tempUserData (delete user) (set_userStates (delete user) s) in
  let s1 := post (sendMessage (MChatID msg) (Lit "⏳ Sedang memproses file...") s0) in
  let o := processRestoreFile msg s in
  value o = Some tt
  /\ userStates (post o) = delete user (userStates s)
  /\ tempUserData (post o) = delete user (tempUserData s)
  /\ match (download fileID (BotToken (config s1)) (world s1)).1 with
     | Archive files =>
         omap command (trace o)
         = [["systemctl"; "restart"; "zivpn"]; ["systemctl"; "restart"; "zivpn-api"];
            ["systemctl"; "restart"; "zivpn-bot"]]
     | _ => Forall inert (trace o)
     end.
Proof.
  intros Hdoc user s0 s1 o. subst o. unfold processRestoreFile. rewrite Hdoc.
  rewrite (bind_step _ _ _ _ _ _ (resetState_run _ _)). fold user. fold s0.
  destruct (sendMessage_run (MChatID msg) (Lit "⏳ Sedang memproses file...") s0)
    as [Hv (Hus & Htd & _ & Hcf & _)].
  destruct (sendMessage_inert (MChatID msg) (Lit "⏳ Sedang memproses file...") s0 I)
    as [_ Hin].
  rewrite (bind_some _ _ _ _ Hv). fold s1. fold s1 in Hus, Htd, Hcf.
  rewrite bind_get. rewrite (bind_step _ _ _ _ _ _ (peek_run _ _)).
  cbn [trace post value app].
  set (d := (download fileID (BotToken (config s1)) (world s1)).1).
  set (s2 := set_world (download fileID (BotToken (config s1)) (world s1)).2 s1).
  assert (Herr : forall text,
            let r := replyError (MChatID msg) text s2 in
            value r = Some tt
            /\ userStates (post r) = delete user (userStates s)
            /\ tempUserData (post r) = delete user (tempUserData s)
            /\ Forall inert (trace (sendMessage (MChatID msg)
                                      (Lit "⏳ Sedang memproses file...") s0) ++ trace r)).
  { intros text r. subst r. unfold replyError.
    destruct (sendMessage_run (MChatID msg) (Cat (Lit "❌ ") text) s2)
      as [Hv2 (Hus2 & Htd2 & _)].
    split; [exact Hv2|]. split; [rewrite Hus2; exact Hus|].
    split; [rewrite Htd2; exact Htd|].
    apply Forall_app. split; [exact Hin | apply (sendMessage_inert _ _ s2 I)]. }
  destruct d as [| | | |files].
  1-4: apply Herr.
  destruct (unpack_run (MChatID msg) files s2) as (Hv3 & (Hus3 & Htd3 & _) & Hc).
  cbv zeta in Hv3, Hus3, Htd3, Hc.
  split; [exact Hv3|]. split; [rewrite Hus3; exact Hus|].
  split; [rewrite Htd3; exact Htd|].
  rewrite omap_app, (inert_commands _ Hin). exact Hc.
Qed.

Lemma X23_restore_outcomes_witness :
  let failing := scriptState (offline None) "private" [1] [(1, "waiting_restore_file")] in
  let working :=
    scriptState {| sendResults := []; apiAnswer := inl ""; fileContent := None;
                   fetched := Archive demoArchive; writable := true |}
      "private" [1] [(1, "waiting_restore_file")] in
  (let o := processRestoreFile (E := scriptEnv) (uploadMessage 1 "file") failing in
   value o = Some tt
   /\ userStates (post o) = delete 1 (userStates failing)
   /\ tempUserData (post o) = delete 1 (tempUserData failing)
   /\ Forall inert (trace o))
  /\ (let o := processRestoreFile (E := scriptEnv) (uploadMessage 1 "file") working in
      value o = Some tt
      /\ userStates (post o) = delete 1 (userStates working)
      /\ tempUserData (post o) = delete 1 (tempUserData working)
      /\ omap command (trace o)
         = [["systemctl"; "restart"; "zivpn"]; ["systemctl"; "restart"; "zivpn-api"];
            ["systemctl"; "restart"; "zivpn-bot"]]).
Proof.
  intros failing working. split.
  - apply (X23_restore_outcomes (E := scriptEnv) (uploadMessage 1 "file") "file" failing).
    reflexivity.
  - apply (X23_restore_outcomes (E := scriptEnv) (uploadMessage 1 "file") "file" working).
    reflexivity.
Defined.

(** ** Backup *)

Ltac beside_side :=
  first [ exact (fun _ _ => I) | exact (fun _ _ _ => I)
        | intros; repeat split; reflexivity | repeat split; reflexivity | idtac ].

Section BackupRun.
Context {E : Env}.

Lemma ask_run {A} (f : World -> A * World) ev s :
  ask f ev s = mkOut [ev (f (world s)).1] (set_world (f (world s)).2 s)
                 (Some (f (world s)).1).
Proof. reflexivity. Qed.

Lemma omap_cons_eq {A} (f : Event -> option A) e t :
  omap f (e :: t) = match f e with Some y => y :: omap f t | None => omap f t end.
Proof. reflexivity. Qed.

Lemma omap_none {A} (f : Event -> option A) t :
  Forall (fun e => f e = None) t -> omap f t = [].
Proof.
  induction 1 as [|e t He _ IH]; [reflexivity|]. cbn. rewrite He. exact IH.
Qed.

Lemma beside_archive t : Forall besideBackup t -> omap archiveOf t = [].
Proof.
  intros H. apply omap_none. eapply Forall_impl; [exact H|]. intros e (? & _). assumption.
Qed.

Lemma beside_document t : Forall besideBackup t -> omap documentOf t = [].
Proof.
  intros H. apply omap_none. eapply Forall_impl; [exact H|]. intros e (_ & ? & _). assumption.
Qed.

Lemma beside_removed t : Forall besideBackup t -> omap removed t = [].
Proof.
  intros H. apply omap_none. eapply Forall_impl; [exact H|]. intros e (_ & _ & ?). assumption.
Qed.

Lemma sendMessage_beside chatID text :
  sat (fun _ => True) besideBackup (sendMessage chatID text).
Proof. sat_go ltac:(beside_side). Qed.

Lemma deleteLastMessage_beside chatID :
  sat (fun _ => True) besideBackup (deleteLastMessage chatID).
Proof. sat_go ltac:(beside_side). Qed.

Lemma deleteLastMessage_total chatID : total (deleteLastMessage chatID).
Proof. total_go. Qed.

(** The archive holds, under its base name, each file that could be read. *)
Lemma packFiles_run files s :
  exists entries w,
    packFiles files s = mkOut [] (set_world w s) (Some entries)
    /\ Forall (fun entry => entry.1 ∈ map Go.Base files) entries.
Proof.
  revert s. induction files as [|file rest IH]; intros s; cbn [packFiles].
  - exists [], (world s). split; [destruct s; reflexivity | constructor].
  - rewrite (bind_step _ _ _ _ _ _ (peek_run _ _)).
    destruct (IH (set_world (readFile file (world s)).2 s)) as (entries & w & Heq & Hall).
    rewrite (bind_step _ _ _ _ _ _ Heq). cbn [trace post value app ret].
    destruct (readFile file (world s)).1 as [content|].
    + exists ((Go.Base file, content) :: entries), w. split; [reflexivity|].
      constructor; [left|].
      eapply Forall_impl; [exact Hall|]. intros entry Hin. right. exact Hin.
    + exists entries, w. split; [reflexivity|].
      eapply Forall_impl; [exact Hall|]. intros entry Hin. right. exact Hin.
Qed.

Lemma backupFiles_restorable name :
  name ∈ map Go.Base backupFiles -> validFiles name = true.
Proof.
  intros H. cbn in H.
  repeat (apply elem_of_cons in H as [->|H]; [reflexivity|]). inversion H.
Qed.

End BackupRun.

(** X24.  A backup removes the archive it wrote and holds nothing that a
    restore would refuse.  [performBackup] writes one archive, under [/tmp];
    every entry of it is named in the allow-list of [processRestoreFile].
    When the archive was written it is sent to the chat as a document and
    then removed, the removal being the last thing done; when it could not
    be written, no document is sent and nothing is removed. *)
Theorem X24_backup_archive {E : Env} (chatID : Z) (s : St) :
  let o := performBackup chatID s in
  value o = Some tt
  /\ exists name entries ok,
       let tmp := Cat (Lit "/tmp/") name in
       omap archiveOf (trace o) = [(tmp, entries, ok)]
       /\ Forall (fun entry => validFiles entry.1 = true) entries
       /\ if ok : bool
          then omap documentOf (trace o) = [(chatID, tmp)]
               /\ omap removed (trace o) = [tmp]
               /\ last (trace o) = Some (EvRemove tmp)
          else omap documentOf (trace o) = [] /\ omap removed (trace o) = [].
Proof.
  cbv zeta. unfold performBackup.
  destruct (sendMessage_run chatID (Lit "⏳ Sedang membuat backup...") s) as [Hv _].
  destruct (sendMessage_beside chatID (Lit "⏳ Sedang membuat backup...") s I) as [_ Hb].
  rewrite (bind_some _ _ _ _ Hv).
  set (s1 := post (sendMessage chatID (Lit "⏳ Sedang membuat backup...") s)).
  destruct (packFiles_run backupFiles s1) as (entries & w & Hpack & Hnames).
  rewrite (bind_step _ _ _ _ _ _ Hpack).
  rewrite (bind_step _ _ _ _ _ _ (peek_run _ _)).
  cbn [trace post value app fst snd].
  set (s2 := set_world _ (set_world w s1)).
  set (name := Sprintf "zivpn-backup-%s.zip" [AInt (time_Now (world (set_world w s1))).1]).
  rewrite (bind_step _ _ _ _ _ _ (ask_run _ _ _)).
  cbn [trace post value app fst snd].
  set (ok := (ioutil_WriteFile (Cat (Lit "/tmp/") name) (world s2)).1).
  set (s3 := set_world _ s2).
  assert (Hvalid : Forall (fun entry : string * string => validFiles entry.1 = true) entries).
  { eapply Forall_impl; [exact Hnames|]. intros entry. apply backupFiles_restorable. }
  destruct ok eqn:Hok; cbn [negb].
  - rewrite (bind_step _ _ _ _ _ _ (peek_run _ _)). cbn [trace post value app fst snd].
    set (s4 := set_world _ s3).
    rewrite (bind_some _ _ _ _ (total_unit _ s4 (deleteLastMessage_total chatID))).
    destruct (deleteLastMessage_beside chatID s4 I) as [_ Hdel].
    rewrite (bind_step _ _ _ _ _ _ (Send_run _ _)). rewrite tell_run.
    cbn [trace post value app]. split; [reflexivity|].
    exists name, entries, true. cbv zeta.
    rewrite !omap_app, !omap_cons_eq, !omap_app, !omap_cons_eq.
    rewrite (beside_archive _ Hb), (beside_document _ Hb), (beside_removed _ Hb).
    rewrite (beside_archive _ Hdel), (beside_document _ Hdel), (beside_removed _ Hdel).
    repeat split; try reflexivity; try assumption.
    rewrite app_comm_cons, app_assoc.
    match goal with
    | |- last (?a ++ [?x; ?y]) = _ =>
        change (a ++ [x; y]) with (a ++ [x] ++ [y]); rewrite app_assoc; apply last_snoc
    end.
  - destruct (sendMessage_run chatID (Cat (Lit "❌ ") (Lit "Gagal membuat file backup.")) s3)
      as [Hv3 _].
    destruct (sendMessage_beside chatID
                (Cat (Lit "❌ ") (Lit "Gagal membuat file backup.")) s3 I) as [_ Hb3].
    unfold replyError. split; [exact Hv3|].
    exists name, entries, false. cbv zeta.
    rewrite !omap_app, !omap_cons_eq.
    rewrite (beside_archive _ Hb), (beside_document _ Hb), (beside_removed _ Hb).
    rewrite (beside_archive _ Hb3), (beside_document _ Hb3), (beside_removed _ Hb3).
    repeat split; try reflexivity; try assumption.
Qed.

(** ** Private messages *)

Section PrivateRun.
Context {E : Env}.

Lemma privateLoop_run (msg : Z -> MessageConfig) keys s :
  exists (failed : list Z) (final : option (Z * Z)) w,
    privateLoop msg keys s
    = mkOut (map (fun chat => EvSend (Message (msg chat)) None) failed
             ++ match final with
                | Some (chat, id) => [EvSend (Message (msg chat)) (Some id)]
                | None => []
                end)
            (set_world w s)
            (Some (bool_decide (is_Some final)))
    /\ failed ++ match final with Some (chat, _) => [chat] | None => [] end
       `prefix_of` omap (fun k => SessionChatID <$> activeChats s !! k) keys
    /\ (final = None ->
        failed = omap (fun k => SessionChatID <$> activeChats s !! k) keys).
Proof.
  revert s. induction keys as [|k rest IH]; intros s; cbn [privateLoop].
  - exists [], None, (world s). split; [destruct s; reflexivity|]. split; [|reflexivity].
    reflexivity.
  - rewrite bind_get. cbn [omap list_omap].
    destruct (activeChats s !! k) as [session|] eqn:Hk; cbn [fmap option_fmap option_map].
    + rewrite (bind_step _ _ _ _ _ _ (Send_run _ _)).
      destruct (bot_Send (Message (msg (SessionChatID session))) (world s)) as [[id|] w'];
        cbn [fst snd trace post value app].
      * exists [], (Some (SessionChatID session, id)), w'. cbn.
        split; [reflexivity|]. split; [|discriminate].
        apply prefix_cons, prefix_nil.
      * destruct (IH (set_world w' s)) as (failed & final & w & Heq & Hpre & Hall).
        rewrite Heq. exists (SessionChatID session :: failed), final, w.
        cbn [trace post value map app]. split; [reflexivity|]. split.
        -- apply prefix_cons. exact Hpre.
        -- intros Hf. rewrite (Hall Hf). reflexivity.
    + destruct (IH s) as (failed & final & w & Heq & Hpre & Hall).
      exists failed, final, w. split; [exact Heq|]. split; assumption.
Qed.

Lemma part000_private_staysIn chatID username message :
  sat (fun _ => True) (staysIn chatID)
    (sendPrivateMessageToUser Part000 chatID username message).
Proof.
  sat_go ltac:(first [ exact (fun _ _ => I) | exact (fun _ _ _ => I)
                     | intros; repeat case_decide; reflexivity
                     | intros; exact I | exact I | idtac ]).
Qed.

End PrivateRun.

(** X25.  A private message reaches at most one chat.  The loop of
    [sendPrivateMessageToUser] in [part_001] tries the recorded sessions in
    the order the map is ranged over and stops at the first send that
    succeeds: every send before it failed, nothing is sent after it, and when
    no send succeeds every session has been tried; the loop changes nothing
    of the conversation states, the scratch data, the registry and the
    configuration.  The chat that gets the message is thus the first session
    in that order that can be reached.  In [part_000] nothing is sent to any
    chat but the initiator's. *)
Theorem X25_private_message_one_chat {E : Env} (msg : Z -> MessageConfig)
  (keys : list Z) (chatID : Z) (username message : string) (s : St) :
  (let o := privateLoop msg keys s in
   let chats := omap (fun k => SessionChatID <$> activeChats s !! k) keys in
   exists (failed : list Z) (final : option (Z * Z)),
     trace o
     = map (fun chat => EvSend (Message (msg chat)) None) failed
       ++ match final with
          | Some (chat, id) => [EvSend (Message (msg chat)) (Some id)]
          | None => []
          end
     /\ value o = Some (bool_decide (is_Some final))
     /\ failed ++ match final with Some (chat, _) => [chat] | None => [] end
        `prefix_of` chats
     /\ (final = None -> failed = chats)
     /\ userStates (post o) = userStates s /\ tempUserData (post o) = tempUserData s
     /\ activeChats (post o) = activeChats s /\ config (post o) = config s)
  /\ Forall (staysIn chatID)
       (trace (sendPrivateMessageToUser Part000 chatID username message s)).
Proof.
  split.
  - cbv zeta. destruct (privateLoop_run msg keys s) as (failed & final & w & Heq & Hpre & Hall).
    exists failed, final. rewrite Heq. cbn [trace post value].
    repeat split; assumption.
  - apply (part000_private_staysIn chatID username message s I).
Qed.

(** ** The session bookkeeping *)

Section Bookkeeping.
Context {E : Env}.

Lemma omap_lookup_pairs (m : gmap Z ChatSession) (l : list (Z * ChatSession)) :
  (forall k c, (k, c) ∈ l -> m !! k = Some c) ->
  omap (fun k => m !! k) l.*1 = l.*2.
Proof.
  induction l as [|[k c] l IH]; intros H; [reflexivity|].
  cbn. rewrite (H k c) by left. cbn. f_equal. apply IH.
  intros k' c' Hin. apply H. right. exact Hin.
Qed.

Lemma saved_sessions (m : gmap Z ChatSession) (keys : list Z) :
  keys ≡ₚ (map_to_list m).*1 ->
  omap (fun k => m !! k) keys ≡ₚ (map_to_list m).*2.
Proof.
  intros Hk. rewrite Hk. rewrite omap_lookup_pairs; [reflexivity|].
  intros k c Hin. apply elem_of_map_to_list. exact Hin.
Qed.

Lemma Since_run t s :
  Since t s
  = mkOut [] (set_world (time_Now (world s)).2 s)
      (Some (Z.max Go.MinInt (Z.min Go.MaxInt ((time_Now (world s)).1 - t)))).
Proof. unfold Since. rewrite (bind_step _ _ _ _ _ _ (peek_run _ _)). reflexivity. Qed.

End Bookkeeping.

(** X26.  [saveChats] writes the whole registry, once: the sessions handed
    to the chats file are exactly the sessions of the registry, in some
    order; the conversation states, the scratch data, the registry, the
    configuration and the time of the last save stay as they were. *)
Theorem X26_saveChats_writes_registry {E : Env} (s : St) :
  let o := saveChats s in
  value o = Some tt
  /\ (exists sessions,
        trace o = [EvSaveChats sessions]
        /\ sessions ≡ₚ (map_to_list (activeChats s)).*2)
  /\ userStates (post o) = userStates s /\ tempUserData (post o) = tempUserData s
  /\ activeChats (post o) = activeChats s /\ config (post o) = config s
  /\ lastSaveTime (post o) = lastSaveTime s.
Proof.
  cbv zeta. destruct (saveChats_run s) as [w Heq]. rewrite Heq. cbn [trace post value].
  split; [reflexivity|]. split; [|repeat split].
  eexists. split; [reflexivity|]. apply saved_sessions, rangeOrder_perm.
Qed.

(** X27.  The session upsert of each variant.  [part_001] records a user
    once: the session of a user already recorded is never touched and
    nothing is written; a new user is recorded with the chat and the time of
    the event, and the chats file is written at once.  The revisions
    overwrite the session on every event with the chat, the user name and the
    time of the event, and write the chats file only when more than thirty
    seconds have passed since the last write, which they then note.  In
    every variant the sessions of other users, the conversation states and
    the configuration stay as they were. *)
Theorem X27_session_upsert {E : Env} (v : Variant) (userID chatID : Z)
  (username : string) (s : St) :
  let o := saveChatSession v userID chatID username s in
  let now := (time_Now (world s)).1 in
  let elapsed :=
    Z.max Go.MinInt
      (Z.min Go.MaxInt ((time_Now (time_Now (world s)).2).1 - lastSaveTime s)) in
  let saves := exists sessions, trace o = [EvSaveChats sessions] in
  value o = Some tt
  /\ (forall k, k <> userID -> activeChats (post o) !! k = activeChats s !! k)
  /\ userStates (post o) = userStates s /\ tempUserData (post o) = tempUserData s
  /\ config (post o) = config s
  /\ match v with
     | Part001 =>
         match activeChats s !! userID with
         | Some session => trace o = [] /\ post o = s
         | None =>
             activeChats (post o) !! userID
             = Some {| UserID := userID; SessionChatID := chatID; Username := "";
                       Joined := now |}
             /\ saves
         end
     | ZivpnBot | Part000 =>
         activeChats (post o) !! userID
         = Some {| UserID := userID; SessionChatID := chatID; Username := username;
                   Joined := now |}
         /\ if 30 * Second <? elapsed
            then saves /\ lastSaveTime (post o) = now
            else trace o = [] /\ lastSaveTime (post o) = lastSaveTime s
     end.
Proof.
  cbv zeta.
  destruct (saveChatSession_run v userID chatID username s) as [Hv (Hus & Htd & Hcf)].
  split; [exact Hv|].
  assert (Hgoal :
    (forall k, k <> userID ->
       activeChats (post (saveChatSession v userID chatID username s)) !! k
       = activeChats s !! k)
    /\ match v with
       | Part001 =>
           match activeChats s !! userID with
           | Some session =>
               trace (saveChatSession v userID chatID username s) = []
               /\ post (saveChatSession v userID chatID username s) = s
           | None =>
               activeChats (post (saveChatSession v userID chatID username s)) !! userID
               = Some {| UserID := userID; SessionChatID := chatID; Username := "";
                         Joined := (time_Now (world s)).1 |}
               /\ exists sessions,
                    trace (saveChatSession v userID chatID username s)
                    = [EvSaveChats sessions]
           end
       | ZivpnBot | Part000 =>
           activeChats (post (saveChatSession v userID chatID username s)) !! userID
           = Some {| UserID := userID; SessionChatID := chatID; Username := username;
                     Joined := (time_Now (world s)).1 |}
           /\ if 30 * Second <?
                 Z.max Go.MinInt
                   (Z.min Go.MaxInt
                      ((time_Now (time_Now (world s)).2).1 - lastSaveTime s))
              then (exists sessions,
                      trace (saveChatSession v userID chatID username s)
                      = [EvSaveChats sessions])
                   /\ lastSaveTime (post (saveChatSession v userID chatID username s))
                      = (time_Now (world s)).1
              else trace (saveChatSession v userID chatID username s) = []
                   /\ lastSaveTime (post (saveChatSession v userID chatID username s))
                      = lastSaveTime s
       end).
  { unfold saveChatSession. destruct v.
    - rewrite bind_get. destruct (activeChats s !! userID) as [session|] eqn:Hl.
      + split; [reflexivity | split; reflexivity].
      + rewrite (bind_step _ _ _ _ _ _ (peek_run _ _)). rewrite bind_modify.
        cbn [app fst snd].
        match goal with
        | |- context [saveChats ?s1] => destruct (saveChats_run s1) as [w Heq]
        end.
        rewrite Heq. cbn [trace post value]. split; [|split].
        * intros k Hk. cbn. apply lookup_insert_ne. congruence.
        * cbn. apply lookup_insert_eq.
        * eexists. reflexivity.
    - rewrite (bind_step _ _ _ _ _ _ (peek_run _ _)). rewrite bind_modify, bind_get.
      rewrite (bind_step _ _ _ _ _ _ (Since_run _ _)).
      cbn [app fst snd trace post value lastSaveTime set_activeChats set_world world].
      destruct (30 * Second <? _) eqn:Hthrottle; unfold when.
      + match goal with
        | |- context [bind saveChats _ ?s1] => destruct (saveChats_run s1) as [w Heq]
        end.
        rewrite (bind_step _ _ _ _ _ _ Heq). cbn. split; [|split; [|split]].
        * intros k Hk. apply lookup_insert_ne. congruence.
        * apply lookup_insert_eq.
        * eexists. reflexivity.
        * reflexivity.
      + cbn. split; [|split; [|split]]; try reflexivity.
        * intros k Hk. apply lookup_insert_ne. congruence.
        * apply lookup_insert_eq.
    - rewrite (bind_step _ _ _ _ _ _ (peek_run _ _)). rewrite bind_modify, bind_get.
      rewrite (bind_step _ _ _ _ _ _ (Since_run _ _)).
      cbn [app fst snd trace post value lastSaveTime set_activeChats set_world world].
      destruct (30 * Second <? _) eqn:Hthrottle; unfold when.
      + match goal with
        | |- context [bind saveChats _ ?s1] => destruct (saveChats_run s1) as [w Heq]
        end.
        rewrite (bind_step _ _ _ _ _ _ Heq). cbn. split; [|split; [|split]].
        * intros k Hk. apply lookup_insert_ne. congruence.
        * apply lookup_insert_eq.
        * eexists. reflexivity.
        * reflexivity.
      + cbn. split; [|split; [|split]]; try reflexivity.
        * intros k Hk. apply lookup_insert_ne. congruence.
        * apply lookup_insert_eq. }
  destruct Hgoal as [Hother Hself].
  split; [exact Hother|]. split; [exact Hus|]. split; [exact Htd|].
  split; [exact Hcf | exact Hself].
Qed.

(** ** The flows, update by update *)

Section Journeys.
Context {E : Env}.

Lemma saveChatSession_noApi v userID chatID username :
  sat (fun _ => True) noApiCall (saveChatSession v userID chatID username).
Proof. destruct v; sat_go ltac:(noApi_side). Qed.

Lemma allowed_not_denied config query :
  isAllowed config (QFromID query) = true -> denied config query = false.
Proof. intros H. unfold denied. rewrite H. reflexivity. Qed.

(** A message of a user who is in a step goes to [handleState]. *)
Lemma handleMessage_in_state v (msg : TgMessage) s st :
  isAllowed (config s) (MFromID msg) = true ->
  userStates s !! MFromID msg = Some st ->
  st <> "waiting_restore_file" ->
  handleMessage v msg s
  = bind (saveChatSession v (MFromID msg) (MChatID msg) (MFromUserName msg))
         (fun _ => handleState v msg st) s.
Proof.
  intros Hallow Hst Hne.
  destruct (saveChatSession_run v (MFromID msg) (MChatID msg) (MFromUserName msg) s)
    as [Hval (Hus & _ & Hcf)].
  unfold handleMessage. rewrite !(bind_some _ _ _ _ Hval). rewrite bind_get.
  rewrite Hcf, Hallow, Hus, Hst. cbn [negb].
  rewrite (bool_decide_eq_false_2 (Some st = Some "waiting_restore_file"))
    by congruence.
  rewrite andb_false_r. reflexivity.
Qed.

(** The click that opens the create flow. *)
Lemma menu_create_click v (query : CallbackQuery) s :
  isAllowed (config s) (QFromID query) = true ->
  QData query = "menu_create" ->
  let o := handleCallback v query s in
  value o = Some tt
  /\ Forall noApiCall (trace o)
  /\ userStates (post o) !! QFromID query = Some "create_username"
  /\ tempUserData (post o) !! QFromID query = Some ∅
  /\ config (post o) = config s.
Proof.
  intros Hallow Hdata. cbv zeta.
  set (user := QFromID query).
  set (after := fun s1 : St =>
         sendMessage (QChatID query) (Lit "👤 Masukkan Password untuk user baru:")
           (set_tempUserData <[user := ∅]>
              (set_userStates <[user := "create_username"]> s1))).
  destruct (handleCallback_returns v query s (fun s1 => post (after s1))
              (fun s1 => trace (after s1)) (allowed_not_denied _ _ Hallow))
    as (Hv & Ht & _ & Hus & Htd & _ & Hcf).
  { intros s1 _. rewrite Hdata.
    assert (Hcase : switchCase v "menu_create" = menu_create)
      by (destruct v; reflexivity).
    rewrite Hcase. unfold caseBody. rewrite bind_get. unfold startCreateUser.
    rewrite !bind_modify. split.
    - unfold after. apply run_eta. apply sendMessage_run.
    - unfold after. cbv beta. apply (sendMessage_noAck _ _ _ I). }
  cbv zeta in *.
  destruct (saveChatSession_run v (QFromID query) (QChatID query)
              (QFromUserName query) s) as [_ (Hus0 & Htd0 & Hcf0)].
  set (s1 := post (saveChatSession v (QFromID query) (QChatID query)
                     (QFromUserName query) s)) in *.
  unfold after in Hus, Htd, Hcf, Ht.
  match type of Hus with
  | _ = userStates (post (sendMessage ?c ?t ?s2)) =>
      destruct (sendMessage_run c t s2) as [_ (Hus1 & Htd1 & _ & Hcf1 & _)];
      destruct (sendMessage_noApi c t s2 I) as [_ Hq]
  end.
  split; [exact Hv|]. split.
  { rewrite Ht. repeat (apply Forall_app; split);
      first [ assumption | apply (saveChatSession_noApi v _ _ _ s I)
            | repeat constructor ]. }
  split; [rewrite Hus, Hus1; cbn; apply lookup_insert_eq|].
  split; [rewrite Htd, Htd1; cbn; apply lookup_insert_eq|].
  rewrite Hcf, Hcf1. cbn. exact Hcf0.
Qed.

(** The click that opens the renew flow for an account. *)
Lemma select_renew_click v (query : CallbackQuery) (username : string) s :
  isAllowed (config s) (QFromID query) = true ->
  QData query = "select_renew:" +:+ username ->
  let o := handleCallback v query s in
  value o = Some tt
  /\ Forall noApiCall (trace o)
  /\ userStates (post o) !! QFromID query = Some "renew_days"
  /\ tempUserData (post o) !! QFromID query = Some {["username" := username]}
  /\ config (post o) = config s.
Proof.
  intros Hallow Hdata. cbv zeta.
  set (user := QFromID query).
  set (after := fun s1 : St =>
         sendMessage (QChatID query)
           (Sprintf "🔄 Renewing %s\n⏳ Masukkan Tambahan Durasi (hari):"
              [AStr username])
           (set_userStates <[user := "renew_days"]>
              (set_tempUserData <[user := {["username" := username]}]> s1))).
  destruct (handleCallback_returns v query s (fun s1 => post (after s1))
              (fun s1 => trace (after s1)) (allowed_not_denied _ _ Hallow))
    as (Hv & Ht & _ & Hus & Htd & _ & Hcf).
  { intros s1 _. rewrite Hdata, switchCase_select_renew. unfold caseBody.
    rewrite bind_get, Hdata. unfold after. cbv beta.
    split; [apply startRenewUser_run|].
    apply (sendMessage_noAck _ _ _ I). }
  cbv zeta in *.
  destruct (saveChatSession_run v (QFromID query) (QChatID query)
              (QFromUserName query) s) as [_ (Hus0 & Htd0 & Hcf0)].
  set (s1 := post (saveChatSession v (QFromID query) (QChatID query)
                     (QFromUserName query) s)) in *.
  unfold after in Hus, Htd, Hcf, Ht.
  match type of Hus with
  | _ = userStates (post (sendMessage ?c ?t ?s2)) =>
      destruct (sendMessage_run c t s2) as [_ (Hus1 & Htd1 & _ & Hcf1 & _)];
      destruct (sendMessage_noApi c t s2 I) as [_ Hq]
  end.
  split; [exact Hv|]. split.
  { rewrite Ht. repeat (apply Forall_app; split);
      first [ assumption | apply (saveChatSession_noApi v _ _ _ s I)
            | repeat constructor ]. }
  split; [rewrite Hus, Hus1; cbn; apply lookup_insert_eq|].
  split; [rewrite Htd, Htd1; cbn; apply lookup_insert_eq|].
  rewrite Hcf, Hcf1. cbn. exact Hcf0.
Qed.

(** The message that gives the name. *)
Lemma name_message v (msg : TgMessage) s temp :
  isAllowed (config s) (MFromID msg) = true ->
  userStates s !! MFromID msg = Some "create_username" ->
  tempUserData s !! MFromID msg = Some temp ->
  3 <= Go.len (Go.TrimSpace (MText msg)) <= 20 ->
  Go.matchName (Go.TrimSpace (MText msg)) = true ->
  let o := handleMessage v msg s in
  value o = Some tt
  /\ Forall noApiCall (trace o)
  /\ userStates (post o) !! MFromID msg = Some "create_days"
  /\ tempUserData (post o) !! MFromID msg
     = Some (<["username" := Go.TrimSpace (MText msg)]> temp)
  /\ config (post o) = config s.
Proof.
  intros Hallow Hst Htemp Hlen Hm. cbv zeta.
  rewrite (handleMessage_in_state v msg s _ Hallow Hst) by discriminate.
  destruct (saveChatSession_run v (MFromID msg) (MChatID msg) (MFromUserName msg) s)
    as [Hval (Hus0 & Htd0 & Hcf0)].
  rewrite (bind_some _ _ _ _ Hval).
  set (s1 := post (saveChatSession v (MFromID msg) (MChatID msg)
                     (MFromUserName msg) s)) in *.
  rewrite handleState_name.
  rewrite (bind_step _ _ _ _ _ _ (validateUsername_valid _ _ s1 Hlen Hm)).
  cbn [negb app]. rewrite bind_get, Htd0, Htemp. rewrite !bind_modify.
  match goal with
  | |- context [sendMessage ?c ?t ?s2] =>
      destruct (sendMessage_run c t s2) as [Hv (Hus1 & Htd1 & _ & Hcf1 & _)];
      destruct (sendMessage_noApi c t s2 I) as [_ Hq]
  end.
  cbn [trace post value].
  split; [exact Hv|]. split.
  { apply Forall_app; split; [apply (saveChatSession_noApi v _ _ _ s I) | exact Hq]. }
  split; [rewrite Hus1; cbn; apply lookup_insert_eq|].
  split; [rewrite Htd1; cbn; apply lookup_insert_eq|].
  rewrite Hcf1. cbn. exact Hcf0.
Qed.

(** The message that gives the duration. *)
Lemma days_message v (msg : TgMessage) (state endpoint name : string) (days : Z) s
  temp :
  (state, endpoint) ∈ [("create_days", "/user/create"); ("renew_days", "/user/renew")] ->
  isAllowed (config s) (MFromID msg) = true ->
  userStates s !! MFromID msg = Some state ->
  tempUserData s !! MFromID msg = Some temp ->
  temp !! "username" = Some name ->
  Go.Atoi (Go.TrimSpace (MText msg)) = (days, true) -> 1 <= days <= 9999 ->
  let o := handleMessage v msg s in
  (exists before rest,
     trace o
     = before
       ++ EvApiCall "POST" endpoint [("password", AStr name); ("days", AInt days)]
          :: rest
     /\ Forall noApiCall before /\ Forall noApiCall rest)
  /\ (value o = Some tt ->
      userStates (post o) !! MFromID msg = None
      /\ tempUserData (post o) !! MFromID msg = None).
Proof.
  intros Hflow Hallow Hst Htemp Hname Hd Hr. cbv zeta.
  assert (Hne : state <> "waiting_restore_file").
  { apply elem_of_cons in Hflow as [Heq|Hflow];
      [|apply elem_of_cons in Hflow as [Heq|Hflow]; [|inversion Hflow]];
      inversion Heq; discriminate. }
  rewrite (handleMessage_in_state v msg s _ Hallow Hst Hne).
  destruct (saveChatSession_run v (MFromID msg) (MChatID msg) (MFromUserName msg) s)
    as [Hval (Hus0 & Htd0 & Hcf0)].
  rewrite (bind_some _ _ _ _ Hval).
  set (s1 := post (saveChatSession v (MFromID msg) (MChatID msg)
                     (MFromUserName msg) s)) in *.
  rewrite (handleState_days v msg state endpoint s1 Hflow).
  rewrite (bind_step _ _ _ _ _ _ (validateNumber_valid _ _ _ _ _ _ s1 Hd Hr)).
  cbn [negb snd fst app]. rewrite bind_get, Htd0, Htemp. cbn [mbind option_bind].
  rewrite Hname. cbn [default].
  destruct (accountCall_trace endpoint (MChatID msg) name days s1)
    as (rest & Htr & Hrest).
  destruct (value (accountCall endpoint (MChatID msg) name days s1)) as [[]|] eqn:Hv.
  - rewrite (bind_some _ _ _ _ Hv). rewrite resetState_run.
    cbn [trace post value]. rewrite Htr, app_nil_r. split.
    + exists (trace (saveChatSession v (MFromID msg) (MChatID msg)
                       (MFromUserName msg) s)), rest.
      split; [reflexivity|]. split; [apply (saveChatSession_noApi v _ _ _ s I)|exact Hrest].
    + intros _. cbn. split; apply lookup_delete_eq.
  - rewrite (bind_none _ _ _ Hv). cbn [trace post value]. rewrite Htr. split.
    + exists (trace (saveChatSession v (MFromID msg) (MChatID msg)
                       (MFromUserName msg) s)), rest.
      split; [reflexivity|]. split; [apply (saveChatSession_noApi v _ _ _ s I)|exact Hrest].
    + discriminate.
Qed.

End Journeys.

(** X28.  The create and the renew flow, end to end.  For a user who is let
    in, the click on [menu_create], then a valid name, then a number of days
    within 1..9999 make exactly one API call, at the last update: a POST to
    [/user/create] with the name given (trimmed) and the days given.  The
    click on [select_renew:<name>], then such a number make exactly one API
    call: a POST to [/user/renew] with that name and the days given.  When
    the last handler returns, the user is back to idle, the scratch data
    cleared. *)
Theorem X28_flows_end_to_end {E : Env} (v : Variant) (query : CallbackQuery)
  (nameMsg daysMsg : TgMessage) (days : Z) (username : string) (s : St) :
  let user := QFromID query in
  let name := Go.TrimSpace (MText nameMsg) in
  let click := {| UMessage := None; UCallbackQuery := Some query |} in
  let say := fun msg => {| UMessage := Some msg; UCallbackQuery := None |} in
  let once := fun (endpoint password : string) (o : Out unit) =>
    (exists before rest,
       trace o
       = before
         ++ EvApiCall "POST" endpoint [("password", AStr password); ("days", AInt days)]
            :: rest
       /\ Forall noApiCall before /\ Forall noApiCall rest)
    /\ (value o = Some tt ->
        userStates (post o) !! user = None /\ tempUserData (post o) !! user = None) in
  isAllowed (config s) user = true ->
  MFromID daysMsg = user ->
  Go.Atoi (Go.TrimSpace (MText daysMsg)) = (days, true) ->
  1 <= days <= 9999 ->
  (QData query = "menu_create" ->
   MFromID nameMsg = user ->
   3 <= Go.len name <= 20 -> Go.matchName name = true ->
   once "/user/create" name (mainLoop v [click; say nameMsg; say daysMsg] s))
  /\ (QData query = "select_renew:" +:+ username ->
      once "/user/renew" username (mainLoop v [click; say daysMsg] s)).
Proof.
  intros user name click say once Hallow Hfrom Hd Hr. subst once click say.
  cbv beta. unfold mainLoop, handleUpdate. cbn [forEach UMessage UCallbackQuery].
  split.
  - intros Hdata Hfrom' Hlen Hm.
    destruct (menu_create_click v query s Hallow Hdata)
      as (Hv1 & Ht1 & Hus1 & Htd1 & Hcf1).
    rewrite (bind_some _ _ _ _ Hv1).
    set (s1 := post (handleCallback v query s)) in *.
    fold user in Hus1, Htd1. rewrite <- Hfrom' in Hus1, Htd1.
    assert (Hallow1 : isAllowed (config s1) (MFromID nameMsg) = true)
      by (rewrite Hcf1, Hfrom'; exact Hallow).
    destruct (name_message v nameMsg s1 ∅ Hallow1 Hus1 Htd1 Hlen Hm)
      as (Hv2 & Ht2 & Hus2 & Htd2 & Hcf2).
    rewrite (bind_some _ _ _ _ Hv2).
    set (s2 := post (handleMessage v nameMsg s1)) in *.
    rewrite Hfrom', <- Hfrom in Hus2, Htd2.
    assert (Hallow2 : isAllowed (config s2) (MFromID daysMsg) = true)
      by (rewrite Hcf2, Hcf1, Hfrom; exact Hallow).
    destruct (days_message v daysMsg "create_days" "/user/create" name days s2 _
                ltac:(left) Hallow2 Hus2 Htd2 (lookup_insert_eq _ _ _) Hd Hr)
      as ((before & rest & Ht3 & Hb & Hrest) & Hdone).
    rewrite Hfrom in Hdone.
    destruct (value (handleMessage v daysMsg s2)) as [[]|] eqn:Hv3.
    + rewrite (bind_some _ _ _ _ Hv3). cbn [trace post value ret].
      rewrite app_nil_r, Ht3. split; [|intros _; apply Hdone; reflexivity].
      exists (trace (handleCallback v query s) ++ trace (handleMessage v nameMsg s1)
              ++ before), rest.
      split; [rewrite <- !app_assoc; reflexivity|].
      split; [|exact Hrest]. repeat (apply Forall_app; split); assumption.
    + rewrite (bind_none _ _ _ Hv3). cbn [trace post value].
      rewrite Ht3. split; [|discriminate].
      exists (trace (handleCallback v query s) ++ trace (handleMessage v nameMsg s1)
              ++ before), rest.
      split; [rewrite <- !app_assoc; reflexivity|].
      split; [|exact Hrest]. repeat (apply Forall_app; split); assumption.
  - intros Hdata.
    destruct (select_renew_click v query username s Hallow Hdata)
      as (Hv1 & Ht1 & Hus1 & Htd1 & Hcf1).
    rewrite (bind_some _ _ _ _ Hv1).
    set (s1 := post (handleCallback v query s)) in *.
    fold user in Hus1, Htd1. rewrite <- Hfrom in Hus1, Htd1.
    assert (Hallow1 : isAllowed (config s1) (MFromID daysMsg) = true)
      by (rewrite Hcf1, Hfrom; exact Hallow).
    destruct (days_message v daysMsg "renew_days" "/user/renew" username days s1 _
                ltac:(right; left) Hallow1 Hus1 Htd1 (lookup_singleton_eq _ _) Hd Hr)
      as ((before & rest & Ht3 & Hb & Hrest) & Hdone).
    rewrite Hfrom in Hdone.
    destruct (value (handleMessage v daysMsg s1)) as [[]|] eqn:Hv3.
    + rewrite (bind_some _ _ _ _ Hv3). cbn [trace post value ret].
      rewrite app_nil_r, Ht3. split; [|intros _; apply Hdone; reflexivity].
      exists (trace (handleCallback v query s) ++ before), rest.
      split; [rewrite <- !app_assoc; reflexivity|].
      split; [|exact Hrest]. repeat (apply Forall_app; split); assumption.
    + rewrite (bind_none _ _ _ Hv3). cbn [trace post value].
      rewrite Ht3. split; [|discriminate].
      exists (trace (handleCallback v query s) ++ before), rest.
      split; [rewrite <- !app_assoc; reflexivity|].
      split; [|exact Hrest]. repeat (apply Forall_app; split); assumption.
Qed.

Lemma X28_flows_end_to_end_witness :
  let s := demoState "public" [1; 2] [] [] in
  let say := fun msg => {| UMessage := Some msg; UCallbackQuery := None |} in
  let press := fun data =>
    {| UMessage := None; UCallbackQuery := Some (click 2 data) |} in
  let once := fun (endpoint password : string) (o : Out unit) =>
    (exists before rest,
       trace o
       = before
         ++ EvApiCall "POST" endpoint [("password", AStr password); ("days", AInt 30)]
            :: rest
       /\ Forall noApiCall before /\ Forall noApiCall rest)
    /\ (value o = Some tt ->
        userStates (post o) !! 2 = None /\ tempUserData (post o) !! 2 = None) in
  once "/user/create" "budi_01"
    (mainLoop (E := demoEnv) Part001
       [press "menu_create"; say (textMessage 2 " budi_01 "); say (textMessage 2 "30")] s)
  /\ once "/user/renew" "alice"
       (mainLoop (E := demoEnv) ZivpnBot
          [press "select_renew:alice"; say (textMessage 2 " 30")] s).
Proof.
  intros s say press once. split.
  - apply (proj1 (X28_flows_end_to_end (E := demoEnv) Part001 (click 2 "menu_create")
                    (textMessage 2 " budi_01 ") (textMessage 2 "30") 30 "" s
                    eq_refl eq_refl eq_refl ltac:(lia)));
      [reflexivity | reflexivity | vm_compute; split; discriminate | reflexivity].
  - apply (proj2 (X28_flows_end_to_end (E := demoEnv) ZivpnBot
                    (click 2 "select_renew:alice")
                    (textMessage 2 "") (textMessage 2 " 30") 30 "alice" s
                    eq_refl eq_refl eq_refl ltac:(lia))).
    reflexivity.
Defined.

(** ** Flows of different users *)

(** The state part of a proof that the flow of a user is left alone. *)
Ltac apart_state :=
  intros; unfold apart in *;
  repeat match goal with H : _ /\ _ |- _ => destruct H end;
  cbn in *;
  repeat split; rewrite ?lookup_insert_ne, ?lookup_delete_ne by congruence;
  first [ assumption | congruence ].

Ltac apart_side :=
  first [ exact I | intros; exact I | solve [apart_state] | idtac ].

Section Apart.
Context {E : Env} (a u : Z) (x : option string) (y : option (gmap string string)).
Hypothesis user_not_admin : u <> a.

Lemma broadcastLoop_apart v message keys :
  forall t, sat (apart a u x y) anyEvent (broadcastLoop v message keys t).
Proof.
  induction keys as [|k rest IH]; intros t; cbn [broadcastLoop].
  - apply sat_ret.
  - destruct v; sat_go ltac:(apart_side); try apply IH.
Qed.

Lemma privateLoop_apart msg keys :
  sat (apart a u x y) anyEvent (privateLoop msg keys).
Proof.
  induction keys as [|k rest IH]; cbn [privateLoop].
  - apply sat_ret.
  - sat_go ltac:(apart_side).
Qed.

Lemma packFiles_apart files :
  sat (apart a u x y) anyEvent (packFiles files).
Proof.
  induction files as [|k rest IH]; cbn [packFiles].
  - apply sat_ret.
  - sat_go ltac:(apart_side).
Qed.

Lemma handleMessage_apart v (msg : TgMessage) :
  MFromID msg <> u ->
  sat (apart a u x y) anyEvent (handleMessage v msg).
Proof.
  intros Hne.
  pose proof (broadcastLoop_apart v) as Hloop.
  pose proof privateLoop_apart as Hpl.
  pose proof packFiles_apart as Hpf.
  destruct v; sat_read ltac:(fail) ltac:(apart_side).
  all: first [ apply Hloop | apply Hpl | apply Hpf ].
Qed.

Lemma handleCallback_apart v (query : CallbackQuery) :
  QFromID query <> u ->
  sat (apart a u x y) anyEvent (handleCallback v query).
Proof.
  intros Hne.
  pose proof (broadcastLoop_apart v) as Hloop.
  pose proof privateLoop_apart as Hpl.
  pose proof packFiles_apart as Hpf.
  unfold handleCallback.
  destruct v; destruct (switchCase _ (QData query));
    sat_read ltac:(fail) ltac:(apart_side).
  all: try first [ apply Hloop | apply Hpl | apply Hpf ].
Qed.

Lemma handleUpdate_apart v (update : Update) :
  sender update <> Some u ->
  sat (apart a u x y) anyEvent (handleUpdate v update).
Proof.
  intros Hne. unfold handleUpdate, sender in *.
  destruct (UMessage update) as [msg|].
  - apply handleMessage_apart. congruence.
  - destruct (UCallbackQuery update) as [query|]; [|apply sat_ret].
    apply handleCallback_apart. cbn in Hne. congruence.
Qed.

Lemma mainLoop_apart v (updates : list Update) :
  (forall update, update ∈ updates -> sender update <> Some u) ->
  sat (apart a u x y) anyEvent (mainLoop v updates).
Proof.
  intros Hall. unfold mainLoop.
  induction updates as [|update rest IH].
  - apply sat_ret.
  - cbn [forEach]. apply sat_bind.
    + apply handleUpdate_apart. apply Hall. left.
    + intros _. apply IH. intros w Hw. apply Hall. right. exact Hw.
Qed.

End Apart.

(** X29.  An update never moves the flow of another user, unless that user
    is the administrator.  Whatever updates arrive from other senders, in
    whatever states and modes, the conversation state and the scratch data
    of a user who is not the administrator stay as they were: only the
    user's own messages and clicks move the user's flow. *)
Theorem X29_flows_do_not_interfere {E : Env} (v : Variant) (updates : list Update)
  (u : Z) (s : St) :
  u <> AdminID (config s) ->
  (forall update, update ∈ updates -> sender update <> Some u) ->
  let o := mainLoop v updates s in
  userStates (post o) !! u = userStates s !! u
  /\ tempUserData (post o) !! u = tempUserData s !! u.
Proof.
  intros Hu Hall. cbv zeta.
  destruct (mainLoop_apart (AdminID (config s)) u (userStates s !! u)
              (tempUserData s !! u) Hu v updates Hall s) as [(_ & Hx & Hy) _].
  { repeat split. }
  split; assumption.
Qed.

Lemma X29_flows_do_not_interfere_witness :
  let s := set_tempUserData
             (<[2 := {["username" := "budi_01"]}]> ∘ <[3 := {["target_user" := "alice"]}]>)
             (demoState "public" [1; 2; 3]
                [(1, "broadcast_message"); (2, "create_days"); (3, "private_message")]
                []) in
  let updates :=
    [ {| UMessage := Some (textMessage 3 "/cancel"); UCallbackQuery := None |};
      {| UMessage := Some (textMessage 1 "hello"); UCallbackQuery := None |};
      {| UMessage := None; UCallbackQuery := Some (click 1 "toggle_mode") |};
      {| UMessage := None; UCallbackQuery := Some (click 3 "menu_create") |} ] in
  let o := mainLoop (E := demoEnv) Part001 updates s in
  userStates (post o) !! 2 = userStates s !! 2
  /\ tempUserData (post o) !! 2 = tempUserData s !! 2.
Proof.
  intros s updates.
  apply (X29_flows_do_not_interfere (E := demoEnv) Part001 updates 2 s).
  - discriminate.
  - intros update Hin.
    repeat (apply elem_of_cons in Hin as [->|Hin]; [discriminate|]).
    inversion Hin.
Defined.

(** ** Cancelling the private message step *)

Lemma sendPrivateMessageToUser_cancel {E : Env} v chatID (username text : string) s :
  match v with
  | Part000 => Go.ToLower text = "cancel"
  | _ => text = "/cancel"
  end ->
  let s1 := set_tempUserData (delete (AdminID (config s)))
              (set_userStates (delete (AdminID (config s))) s) in
  let menu := showMainMenu chatID s1 in
  sendPrivateMessageToUser v chatID username text s
  = mkOut (trace menu) (post menu) (Some tt).
Proof.
  intros Hkey. cbv zeta. rewrite <- cancelOperation_run.
  unfold sendPrivateMessageToUser. rewrite bind_get.
  destruct v; rewrite Hkey; reflexivity.
Qed.

Lemma showMainMenu_noApi {E : Env} chatID :
  sat (fun _ => True) noApiCall (showMainMenu chatID).
Proof. unfold showMainMenu. sat_go ltac:(noApi_side). Qed.

(** X30.  Cancelling the private message step clears the administrator's
    flow, whoever cancels.  When a user who is let in is in the private
    message step, with scratch data, and sends the cancel keyword
    ([/cancel] in [part_001] and [zivpn-bot.go], [cancel] in any case in
    [part_000]), the handler resets the conversation state and the scratch
    data of the administrator and then those of the user; it returns, and calls
    no API. *)
Theorem X30_private_cancel_clears_admin {E : Env} (v : Variant) (msg : TgMessage)
  (temp : gmap string string) (s : St) :
  let user := MFromID msg in
  let text := Go.TrimSpace (MText msg) in
  let a := AdminID (config s) in
  isAllowed (config s) user = true ->
  userStates s !! user = Some "private_message" ->
  tempUserData s !! user = Some temp ->
  match v with
  | Part000 => Go.ToLower text = "cancel"
  | _ => text = "/cancel"
  end ->
  let o := handleMessage v msg s in
  value o = Some tt
  /\ userStates (post o) = delete user (delete a (userStates s))
  /\ tempUserData (post o) = delete user (delete a (tempUserData s))
  /\ Forall noApiCall (trace o).
Proof.
  intros user text a Hallow Hst Htemp Hkey. cbv zeta. subst user text a.
  rewrite (handleMessage_in_state v msg s _ Hallow Hst) by discriminate.
  destruct (saveChatSession_run v (MFromID msg) (MChatID msg) (MFromUserName msg) s)
    as [Hval (Hus0 & Htd0 & Hcf0)].
  rewrite (bind_some _ _ _ _ Hval).
  set (s1 := post (saveChatSession v (MFromID msg) (MChatID msg)
                     (MFromUserName msg) s)) in *.
  unfold handleState. cbn [String.eqb Ascii.eqb Bool.eqb]. cbv iota.
  rewrite bind_get, Htd0, Htemp.
  rewrite (bind_step _ _ _ _ _ _
             (sendPrivateMessageToUser_cancel v (MChatID msg)
                (default "" (temp !! "target_user")) _ s1 Hkey)).
  rewrite resetState_run. cbn [trace post value].
  match goal with
  | |- context [showMainMenu ?c ?s2] =>
      destruct (calm_run _ s2 (showMainMenu_calm c)) as (Hv & (Hus1 & Htd1 & _) & _);
      pose proof (proj2 (showMainMenu_noApi c s2 I)) as Hq
  end.
  rewrite app_nil_r. split; [reflexivity|].
  split; [cbn [userStates set_userStates set_tempUserData]; rewrite Hus1;
          cbn [userStates set_userStates set_tempUserData];
          rewrite Hus0, Hcf0; reflexivity|].
  split; [cbn [tempUserData set_userStates set_tempUserData]; rewrite Htd1;
          cbn [tempUserData set_userStates set_tempUserData];
          rewrite Htd0, Hcf0; reflexivity|].
  apply Forall_app; split; [apply (saveChatSession_noApi v _ _ _ s I) | exact Hq].
Qed.

Lemma X30_private_cancel_clears_admin_witness :
  let s := set_tempUserData <[2 := {["target_user" := "alice"]}]>
             (demoState "public" [1; 2]
                [(1, "waiting_restore_file"); (2, "private_message")] []) in
  let o := handleMessage (E := demoEnv) Part001 (textMessage 2 "/cancel") s in
  value o = Some tt
  /\ userStates (post o) = delete 2 (delete 1 (userStates s))
  /\ tempUserData (post o) = delete 2 (delete 1 (tempUserData s))
  /\ Forall noApiCall (trace o).
Proof.
  intros s.
  apply (X30_private_cancel_clears_admin (E := demoEnv) Part001
           (textMessage 2 "/cancel") {["target_user" := "alice"]} s);
    reflexivity.
Defined.
